(** * Master server of the sharded game backend: model and properties

    A shallow embedding of [dMasterServer/MasterServer.cpp]: the packet
    dispatcher [HandlePacket], one iteration of the control loop of [main],
    and the shutdown coordinator [ShutdownSequence].

    Modelling conventions.
    - Fixed-width integers are [Z] with the wrap-around written out
      ([to_u8], [to_u16], [to_u32]).
    - An [Instance*] is an [option loc]: [None] is [nullptr].  Instances live
      in an object store [objects : gmap loc Instance]; the registry vector
      [m_Instances] holds pointers, so a snapshot of the vector aliases the
      same objects.
    - Dereferencing [nullptr] or a deleted object is undefined behaviour:
      the operation returns [None] in the [option] monad.
    - Everything the process emits (packets, broadcasts, child processes,
      storage writes) is appended to the trace [effects].
    - The bit-stream codec is outside the model: a packet carries its
      decoded payload. *)

From Stdlib Require Import ZArith Lia.
From stdpp Require Import base option list gmap strings numbers.

Local Open Scope Z_scope.

(** ** Machine integers *)

Definition to_u8 (x : Z) : Z := x mod 2 ^ 8.
Definition to_u16 (x : Z) : Z := x mod 2 ^ 16.
Definition to_u32 (x : Z) : Z := x mod 2 ^ 32.

(** ** Transport identities and protocol values *)

Record SystemAddress := mkSystemAddress {
  binaryAddress : Z;
  sa_port : Z
}.

Global Instance SystemAddress_eq_dec : EqDecision SystemAddress.
Proof. solve_decision. Defined.

(** [{ requestID, mythranShift, sysAddr }], as brace-initialised in
    [HandlePacket]. *)
Record TransferRequest := mkTransferRequest {
  requestID : Z;
  mythranShift : bool;
  requester : SystemAddress
}.

Global Instance TransferRequest_eq_dec : EqDecision TransferRequest.
Proof. solve_decision. Defined.

Record LWOZONEID := mkZoneID {
  mapID : Z;
  instanceID : Z;
  cloneID : Z
}.

Global Instance LWOZONEID_eq_dec : EqDecision LWOZONEID.
Proof. solve_decision. Defined.

(** Modelled from the spec: the class [Instance] ([Instance.h] is not part of
    the sources).  Fields follow the data model: [mapID : u16],
    [cloneID : u32], [instanceID : u16], [port : u16], the three life-cycle
    flags, the player multiset (every element is the same [Player()], so
    only its size is kept), the two request containers, the tick counter
    and the optional private password. *)
Record Instance := mkInstance {
  ip : string;
  port : Z;
  zoneID : LWOZONEID;
  sysAddr : SystemAddress;
  ready : bool;
  shuttingDown : bool;
  shutdownComplete : bool;
  softCap : Z;
  hardCap : Z;
  players : nat;
  pendingRequests : list TransferRequest;
  pendingAffirmations : list TransferRequest;
  affirmationTimeout : Z;
  privatePassword : option string
}.

Definition GetMapID (i : Instance) : Z := mapID (zoneID i).
Definition GetCloneID (i : Instance) : Z := cloneID (zoneID i).
Definition GetInstanceID (i : Instance) : Z := instanceID (zoneID i).

Definition SetSysAddr (a : SystemAddress) (i : Instance) : Instance :=
  {| ip := ip i; port := port i; zoneID := zoneID i; sysAddr := a;
     ready := ready i; shuttingDown := shuttingDown i;
     shutdownComplete := shutdownComplete i; softCap := softCap i;
     hardCap := hardCap i; players := players i;
     pendingRequests := pendingRequests i;
     pendingAffirmations := pendingAffirmations i;
     affirmationTimeout := affirmationTimeout i;
     privatePassword := privatePassword i |}.

Definition SetIsReady (b : bool) (i : Instance) : Instance :=
  {| ip := ip i; port := port i; zoneID := zoneID i; sysAddr := sysAddr i;
     ready := b; shuttingDown := shuttingDown i;
     shutdownComplete := shutdownComplete i; softCap := softCap i;
     hardCap := hardCap i; players := players i;
     pendingRequests := pendingRequests i;
     pendingAffirmations := pendingAffirmations i;
     affirmationTimeout := affirmationTimeout i;
     privatePassword := privatePassword i |}.

Definition SetIsShuttingDown (b : bool) (i : Instance) : Instance :=
  {| ip := ip i; port := port i; zoneID := zoneID i; sysAddr := sysAddr i;
     ready := ready i; shuttingDown := b;
     shutdownComplete := shutdownComplete i; softCap := softCap i;
     hardCap := hardCap i; players := players i;
     pendingRequests := pendingRequests i;
     pendingAffirmations := pendingAffirmations i;
     affirmationTimeout := affirmationTimeout i;
     privatePassword := privatePassword i |}.

Definition SetAffirmationTimeout (t : Z) (i : Instance) : Instance :=
  {| ip := ip i; port := port i; zoneID := zoneID i; sysAddr := sysAddr i;
     ready := ready i; shuttingDown := shuttingDown i;
     shutdownComplete := shutdownComplete i; softCap := softCap i;
     hardCap := hardCap i; players := players i;
     pendingRequests := pendingRequests i;
     pendingAffirmations := pendingAffirmations i;
     affirmationTimeout := t;
     privatePassword := privatePassword i |}.

Definition SetPendingRequests (q : list TransferRequest) (i : Instance) : Instance :=
  {| ip := ip i; port := port i; zoneID := zoneID i; sysAddr := sysAddr i;
     ready := ready i; shuttingDown := shuttingDown i;
     shutdownComplete := shutdownComplete i; softCap := softCap i;
     hardCap := hardCap i; players := players i;
     pendingRequests := q;
     pendingAffirmations := pendingAffirmations i;
     affirmationTimeout := affirmationTimeout i;
     privatePassword := privatePassword i |}.

Definition SetPendingAffirmations (q : list TransferRequest) (i : Instance) : Instance :=
  {| ip := ip i; port := port i; zoneID := zoneID i; sysAddr := sysAddr i;
     ready := ready i; shuttingDown := shuttingDown i;
     shutdownComplete := shutdownComplete i; softCap := softCap i;
     hardCap := hardCap i; players := players i;
     pendingRequests := pendingRequests i;
     pendingAffirmations := q;
     affirmationTimeout := affirmationTimeout i;
     privatePassword := privatePassword i |}.

Definition SetPlayers (n : nat) (i : Instance) : Instance :=
  {| ip := ip i; port := port i; zoneID := zoneID i; sysAddr := sysAddr i;
     ready := ready i; shuttingDown := shuttingDown i;
     shutdownComplete := shutdownComplete i; softCap := softCap i;
     hardCap := hardCap i; players := n;
     pendingRequests := pendingRequests i;
     pendingAffirmations := pendingAffirmations i;
     affirmationTimeout := affirmationTimeout i;
     privatePassword := privatePassword i |}.

Definition SetPrivatePassword (pw : option string) (i : Instance) : Instance :=
  {| ip := ip i; port := port i; zoneID := zoneID i; sysAddr := sysAddr i;
     ready := ready i; shuttingDown := shuttingDown i;
     shutdownComplete := shutdownComplete i; softCap := softCap i;
     hardCap := hardCap i; players := players i;
     pendingRequests := pendingRequests i;
     pendingAffirmations := pendingAffirmations i;
     affirmationTimeout := affirmationTimeout i;
     privatePassword := pw |}.

(** [in->GetPendingRequests().push_back(req)] *)
Definition push_back_PendingRequest (req : TransferRequest) (i : Instance) : Instance :=
  SetPendingRequests (pendingRequests i ++ [req]) i.

(** ** Wire protocol *)

(** [packet->data[0]]: the transport's message identifier. *)
Inductive MessageID :=
  | ID_DISCONNECTION_NOTIFICATION
  | ID_CONNECTION_LOST
  | ID_USER_PACKET_ENUM
  | ID_OTHER (n : Z).

Global Instance MessageID_eq_dec : EqDecision MessageID.
Proof. solve_decision. Defined.

(** [packet->data[1]]: the subsystem tag. *)
Inductive ConnectionType :=
  | MASTER
  | CONN_OTHER (n : Z).

Global Instance ConnectionType_eq_dec : EqDecision ConnectionType.
Proof. solve_decision. Defined.

Inductive ServerType :=
  | ServerType_Master
  | ServerType_Auth
  | ServerType_Chat
  | ServerType_World
  | ServerType_Other (n : Z).

Global Instance ServerType_eq_dec : EqDecision ServerType.
Proof. solve_decision. Defined.

(** [packet->data[3]] together with the payload each [case] of the switch
    reads from the stream, at the width it is read. *)
Inductive MasterMessage :=
  | MSG_MASTER_REQUEST_PERSISTENT_ID (requestID : Z)
  | MSG_MASTER_REQUEST_ZONE_TRANSFER (requestID : Z) (mythranShift : Z)
      (zoneID : Z) (zoneClone : Z)
  | MSG_MASTER_SERVER_INFO (theirPort theirZoneID theirInstanceID : Z)
      (theirServerType : ServerType) (theirIP : string)
  | MSG_MASTER_SET_SESSION_KEY (sessionKey : Z) (username : string)
  | MSG_MASTER_REQUEST_SESSION_KEY (username : string)
  | MSG_MASTER_PLAYER_ADDED (theirZoneID theirInstanceID : Z)
  | MSG_MASTER_PLAYER_REMOVED (theirZoneID theirInstanceID : Z)
  | MSG_MASTER_CREATE_PRIVATE_ZONE (mapId cloneId : Z) (password : string)
  | MSG_MASTER_REQUEST_PRIVATE_ZONE (requestID : Z) (mythranShift : Z)
      (password : string)
  | MSG_MASTER_WORLD_READY (zoneID instanceID : Z)
  | MSG_MASTER_PREP_ZONE (zoneID : Z)
  | MSG_MASTER_AFFIRM_TRANSFER_RESPONSE (requestID : Z)
  | MSG_MASTER_SHUTDOWN_RESPONSE
  | MSG_MASTER_SHUTDOWN_UNIVERSE
  | MSG_MASTER_SHUTDOWN_INSTANCE (zoneID instanceID : Z)
  | MSG_MASTER_GET_INSTANCES (objectID : Z) (zoneID : option Z)
      (respondingZoneID respondingInstanceID : Z)
  | MSG_MASTER_UNKNOWN (id : Z).

Record Packet := mkPacket {
  systemAddress : SystemAddress;
  data0 : MessageID;
  data1 : ConnectionType;
  body : MasterMessage
}.

(** Messages the master emits. *)
Inductive OutMessage :=
  | PERSISTENT_ID_RESPONSE (requestID objID : Z)
  | ZONE_TRANSFER_RESPONSE (requestID : Z) (mythranShift : bool)
      (mapID instanceID cloneID : Z) (ip : string) (port : Z)
  | NEW_SESSION_ALERT (sessionKey : Z) (username : string)
  | SESSION_KEY_RESPONSE (sessionKey : Z) (username : string)
  | PREP_ZONE (zoneID : Z)
  | SHUTDOWN
  | RESPOND_INSTANCES (objectID : Z) (instances : list (Z * Z * Z)).

Global Instance OutMessage_eq_dec : EqDecision OutMessage.
Proof. solve_decision. Defined.

Inductive Effect :=
  | Send (m : OutMessage) (to : SystemAddress)
  | Broadcast (m : OutMessage)
  | SpawnChatServer
  | SpawnAuthServer
  | SpawnWorldServer (ip : string) (port mapID instanceID cloneID maxPlayers : Z)
  | SaveToDatabase (highWaterMark : Z)
  | LoggerFlush
  | SqlPing.

Global Instance Effect_eq_dec : EqDecision Effect.
Proof. solve_decision. Defined.

(** ** Process state *)

Definition loc := positive.
Definition ptr := option loc.
Definition nullptr : ptr := None.

(** The globals of [MasterServer.cpp] together with the state of the
    instance manager [Game::im] ([m_Instances], [objects], [mExternalIP])
    and of the persistent-ID allocator. *)
Record Master := mkMaster {
  m_Instances : list ptr;
  objects : gmap loc Instance;
  mExternalIP : string;
  activeSessions : list (Z * string);
  shouldShutdown : bool;
  chatServerMasterPeerSysAddr : SystemAddress;
  currentPersistentID : Z;
  effects : list Effect
}.

Definition set_registry (v : list ptr) (o : gmap loc Instance) (st : Master) : Master :=
  {| m_Instances := v; objects := o; mExternalIP := mExternalIP st;
     activeSessions := activeSessions st; shouldShutdown := shouldShutdown st;
     chatServerMasterPeerSysAddr := chatServerMasterPeerSysAddr st;
     currentPersistentID := currentPersistentID st; effects := effects st |}.

Definition set_objects (o : gmap loc Instance) (st : Master) : Master :=
  set_registry (m_Instances st) o st.

Definition set_activeSessions (s : list (Z * string)) (st : Master) : Master :=
  {| m_Instances := m_Instances st; objects := objects st;
     mExternalIP := mExternalIP st;
     activeSessions := s; shouldShutdown := shouldShutdown st;
     chatServerMasterPeerSysAddr := chatServerMasterPeerSysAddr st;
     currentPersistentID := currentPersistentID st; effects := effects st |}.

Definition set_shouldShutdown (b : bool) (st : Master) : Master :=
  {| m_Instances := m_Instances st; objects := objects st;
     mExternalIP := mExternalIP st;
     activeSessions := activeSessions st; shouldShutdown := b;
     chatServerMasterPeerSysAddr := chatServerMasterPeerSysAddr st;
     currentPersistentID := currentPersistentID st; effects := effects st |}.

Definition set_chatServerMasterPeerSysAddr (a : SystemAddress) (st : Master) : Master :=
  {| m_Instances := m_Instances st; objects := objects st;
     mExternalIP := mExternalIP st;
     activeSessions := activeSessions st; shouldShutdown := shouldShutdown st;
     chatServerMasterPeerSysAddr := a;
     currentPersistentID := currentPersistentID st; effects := effects st |}.

Definition set_currentPersistentID (n : Z) (st : Master) : Master :=
  {| m_Instances := m_Instances st; objects := objects st;
     mExternalIP := mExternalIP st;
     activeSessions := activeSessions st; shouldShutdown := shouldShutdown st;
     chatServerMasterPeerSysAddr := chatServerMasterPeerSysAddr st;
     currentPersistentID := n; effects := effects st |}.

Definition emit (e : Effect) (st : Master) : Master :=
  {| m_Instances := m_Instances st; objects := objects st;
     mExternalIP := mExternalIP st;
     activeSessions := activeSessions st; shouldShutdown := shouldShutdown st;
     chatServerMasterPeerSysAddr := chatServerMasterPeerSysAddr st;
     currentPersistentID := currentPersistentID st;
     effects := effects st ++ [e] |}.

(** [*p]: the object a pointer designates; [None] for [nullptr] and for a
    deleted object. *)
Definition deref (p : ptr) (st : Master) : option Instance :=
  l ← p; objects st !! l.

(** [p->f(...)] for a mutating member function [f]. *)
Definition update (p : ptr) (f : Instance → Instance) (st : Master) : option Master :=
  l ← p; i ← objects st !! l; Some (set_objects (<[l := f i]> (objects st)) st).

(** ** C strings *)

(** [s.c_str()] read back as a C string: the characters before the first
    NUL. *)
Fixpoint c_str (s : string) : string :=
  match s with
  | EmptyString => EmptyString
  | String c s' =>
      if Ascii.eqb c Ascii.zero then EmptyString else String c (c_str s')
  end.

(** ** [std::map<uint32_t, std::string>]

    The session registry is kept as the list of its entries in iteration
    order (ascending keys). *)

(** [m.erase(k)] *)
Fixpoint map_erase (k : Z) (m : list (Z * string)) : list (Z * string) :=
  match m with
  | [] => []
  | (k', v) :: m' => if Z.eqb k' k then m' else (k', v) :: map_erase k m'
  end.

(** [m.insert(std::make_pair(k, v))]: inserts at the key's place in the
    order, and leaves the map as it is when the key is already present. *)
Fixpoint map_insert (k : Z) (v : string) (m : list (Z * string)) : list (Z * string) :=
  match m with
  | [] => [(k, v)]
  | (k', v') :: m' =>
      if Z.ltb k k' then (k, v) :: (k', v') :: m'
      else if Z.eqb k k' then (k', v') :: m'
      else (k', v') :: map_insert k v m'
  end.

(** The first entry, in iteration order, whose value is [u]. *)
Fixpoint find_username (u : string) (m : list (Z * string)) : option (Z * string) :=
  match m with
  | [] => None
  | (k, v) :: m' => if String.eqb v u then Some (k, v) else find_username u m'
  end.

(** Strictly ascending keys: the representation invariant of the map. *)
Fixpoint keys_ascending (m : list (Z * string)) : bool :=
  match m with
  | [] => true
  | (k, _) :: m' =>
      match m' with
      | [] => true
      | (k', _) :: _ => Z.ltb k k' && keys_ascending m'
      end
  end.

(** ** Registry scans *)

(** The first pointer of the vector that designates a live object satisfying
    [P]; [nullptr] when there is none. *)
Fixpoint find_ptr (P : Instance → bool) (o : gmap loc Instance) (v : list ptr) : ptr :=
  match v with
  | [] => nullptr
  | p :: v' =>
      match p ≫= (λ l, o !! l) with
      | Some i => if P i then p else find_ptr P o v'
      | None => find_ptr P o v'
      end
  end.

(** All pointers of the vector that designate a live object satisfying [P]. *)
Fixpoint filter_ptr (P : Instance → bool) (o : gmap loc Instance) (v : list ptr) : list ptr :=
  match v with
  | [] => []
  | p :: v' =>
      match p ≫= (λ l, o !! l) with
      | Some i => if P i then p :: filter_ptr P o v' else filter_ptr P o v'
      | None => filter_ptr P o v'
      end
  end.

Definition GetInstances (st : Master) : list ptr := m_Instances st.

(** Modelled from the spec: [InstanceManager::GetInstanceBySysAddr], the
    lookup by transport peer. *)
Definition GetInstanceBySysAddr (a : SystemAddress) (st : Master) : ptr :=
  find_ptr (λ i, bool_decide (sysAddr i = a)) (objects st) (m_Instances st).

(** Modelled from the spec: [InstanceManager::FindInstance], the lookup by
    [(mapID, instanceID)]; the clone is not part of the key. *)
Definition FindInstance (mapID0 instanceID0 : Z) (st : Master) : ptr :=
  find_ptr (λ i, bool_decide (GetMapID i = mapID0)
                 && bool_decide (GetInstanceID i = instanceID0))
    (objects st) (m_Instances st).

(** Modelled from the spec: [InstanceManager::FindInstancesByMapID]. *)
Definition FindInstancesByMapID (mapID0 : Z) (st : Master) : list ptr :=
  filter_ptr (λ i, bool_decide (GetMapID i = mapID0)) (objects st) (m_Instances st).

(** Modelled from the spec: [InstanceManager::FindPrivateInstance], the
    lookup by private password. *)
Definition FindPrivateInstance (password : string) (st : Master) : ptr :=
  find_ptr (λ i, bool_decide (privatePassword i = Some password))
    (objects st) (m_Instances st).

(** Modelled from the spec: [InstanceManager::IsPortInUse]. *)
Definition IsPortInUse (port0 : Z) (st : Master) : bool :=
  bool_decide (is_Some (find_ptr (λ i, bool_decide (port i = port0))
                          (objects st) (m_Instances st))).

(** Modelled from the spec: [InstanceManager::AddInstance]; the registry
    keeps insertion order. *)
Definition AddInstance (p : ptr) (st : Master) : Master :=
  set_registry (m_Instances st ++ [p]) (objects st) st.

(** Modelled from the spec: [InstanceManager::RemoveInstance]; the instance
    leaves the registry and is destroyed. *)
Definition RemoveInstance (p : ptr) (st : Master) : Master :=
  match p with
  | None => st
  | Some l =>
      set_registry (filter (λ q, q ≠ Some l) (m_Instances st))
        (delete l (objects st)) st
  end.

(** [new Instance(...)]: a location not in use. *)
Definition alloc (i : Instance) (st : Master) : loc * Master :=
  let l := fresh (dom (objects st)) in
  (l, set_objects (<[l := i]> (objects st)) st).

(** Modelled from the spec: [Instance::Shutdown] sends the payload-free
    [SHUTDOWN] message to the instance. *)
Definition Shutdown (p : ptr) (st : Master) : option Master :=
  i ← deref p st; Some (emit (Send SHUTDOWN (sysAddr i)) st).

(** Modelled from the spec: [Instance::AddPlayer] and
    [Instance::RemovePlayer] move the player count by one. *)
Definition AddPlayer (i : Instance) : Instance := SetPlayers (S (players i)) i.
Definition RemovePlayer (i : Instance) : Instance := SetPlayers (Nat.pred (players i)) i.

(** Modelled from the spec: [InstanceManager::RequestAffirmation] sends
    [PREP_ZONE] to the instance and adds the request to the set
    [pendingAffirmations]. *)
Definition add_affirmation (req : TransferRequest) (i : Instance) : Instance :=
  SetPendingAffirmations
    (if bool_decide (req ∈ pendingAffirmations i) then pendingAffirmations i
     else pendingAffirmations i ++ [req]) i.

Definition RequestAffirmation (p : ptr) (req : TransferRequest) (st : Master) : option Master :=
  i ← deref p st;
  update p (add_affirmation req) (emit (Send (PREP_ZONE (GetMapID i)) (sysAddr i)) st).

(** Modelled from the spec: [InstanceManager::AffirmTransfer] removes the
    request from [pendingAffirmations] and sends [ZONE_TRANSFER_RESPONSE]
    to its requester; an unknown request id changes nothing. *)
Definition AffirmTransfer (p : ptr) (requestID0 : Z) (st : Master) : option Master :=
  i ← deref p st;
  match List.find (λ r, Z.eqb (requestID r) requestID0) (pendingAffirmations i) with
  | None => Some st
  | Some r =>
      update p (SetPendingAffirmations
                  (filter (λ r', r' ≠ r) (pendingAffirmations i)))
        (emit (Send (ZONE_TRANSFER_RESPONSE (requestID r) (mythranShift r)
                       (GetMapID i) (GetInstanceID i) (GetCloneID i) (ip i) (port i))
                 (requester r)) st)
  end.

(** Modelled from the spec: [ObjectIDManager::GeneratePersistentID] hands out
    the next 32-bit id, and [SaveToDatabase] writes the high-water mark. *)
Definition GeneratePersistentID (st : Master) : Z * Master :=
  let id := to_u32 (currentPersistentID st + 1) in
  (id, set_currentPersistentID id st).

Definition ObjectIDManager_SaveToDatabase (st : Master) : Master :=
  emit (SaveToDatabase (currentPersistentID st)) st.

(** [StartChatServer] and [StartAuthServer] launch the child binary. *)
Definition StartChatServer (st : Master) : Master := emit SpawnChatServer st.
Definition StartAuthServer (st : Master) : Master := emit SpawnAuthServer st.

(** [MasterPackets::SendZoneTransferResponse] *)
Definition SendZoneTransferResponse (to : SystemAddress) (requestID0 : Z)
    (mythranShift0 : bool) (i : Instance) (st : Master) : Master :=
  emit (Send (ZONE_TRANSFER_RESPONSE requestID0 mythranShift0 (GetMapID i)
                (GetInstanceID i) (GetCloneID i) (ip i) (port i)) to) st.

(** The launch of a world server, as opposed to a message on the wire. *)
Definition is_spawn (e : Effect) : bool :=
  match e with
  | SpawnWorldServer _ _ _ _ _ _ => true
  | _ => false
  end.

(** Every entry of the registry designates a live object: no null and no
    dangling pointer. *)
Definition registry_live (st : Master) : bool :=
  forallb (λ p, match deref p st with Some _ => true | None => false end)
    (m_Instances st).

(** A registry in good order: every entry designates a live object whose
    map id fits its 16-bit field, and no entry occurs twice. *)
Definition well_formed (st : Master) : bool :=
  forallb (λ p, match deref p st with
                | Some i => Z.eqb (to_u16 (GetMapID i)) (GetMapID i)
                | None => false
                end) (m_Instances st)
  && bool_decide (NoDup (m_Instances st)).

(** ** Sample configurations

    Concrete parameters, peers, states and packets on which the properties
    below are exercised. *)

Definition sample_GetFreePort (st : Master) : Z :=
  2000 + Z.of_nat (length (m_Instances st)).
Definition sample_NewInstanceID (st : Master) : Z :=
  1 + Z.of_nat (length (m_Instances st)).
Definition sample_cap (mapID0 : Z) : Z := 12.
Definition sample_LWOMAPID_INVALID : Z := 65535.

Definition world_peer : SystemAddress := mkSystemAddress 167772165 2001.
Definition chat_peer : SystemAddress := mkSystemAddress 167772166 2005.
Definition client_peer : SystemAddress := mkSystemAddress 167772170 40001.
Definition private_peer : SystemAddress := mkSystemAddress 167772165 2002.
Definition sample_initial_sysAddr : SystemAddress := mkSystemAddress 0 0.

Definition master_empty : Master :=
  mkMaster [] ∅ "10.0.0.1" [] false chat_peer 0 [].

(** A world on map 1200, instance 1, reachable at [world_peer]. *)
Definition world_1200 : Instance :=
  {| ip := "10.0.0.5"; port := 2001; zoneID := mkZoneID 1200 1 0;
     sysAddr := world_peer; ready := false; shuttingDown := false;
     shutdownComplete := false; softCap := 12; hardCap := 12;
     players := 0%nat; pendingRequests := []; pendingAffirmations := [];
     affirmationTimeout := 0; privatePassword := None |}.

Definition master_one_world : Master :=
  mkMaster [Some 1%positive] {[ 1%positive := world_1200 ]} "10.0.0.1" []
    false chat_peer 0 [].

Definition master_packet (from : SystemAddress) (m : MasterMessage) : Packet :=
  mkPacket from ID_USER_PACKET_ENUM MASTER m.

(** A private world on map 1300, clone 5, behind the password "hunter2". *)
Definition private_1300 : Instance :=
  {| ip := "10.0.0.5"; port := 2002; zoneID := mkZoneID 1300 2 5;
     sysAddr := private_peer; ready := false; shuttingDown := false;
     shutdownComplete := false; softCap := 12; hardCap := 12;
     players := 0%nat; pendingRequests := []; pendingAffirmations := [];
     affirmationTimeout := 0; privatePassword := Some "hunter2" |}.

Definition master_private : Master :=
  mkMaster [Some 1%positive; Some 2%positive]
    (<[ 2%positive := private_1300 ]> {[ 1%positive := world_1200 ]})
    "10.0.0.1" [] false chat_peer 0 [].

Section MasterServer.

(** What neither the sources at hand nor the spec fix: how a free port and
    a fresh instance id are chosen, the player caps of a zone, the value
    of the constant [LWOMAPID_INVALID], and the peer address an instance
    carries before it is given one. *)
Variable GetFreePort : Master → Z.
Variable NewInstanceID : Master → Z.
Variable GetSoftCap : Z → Z.
Variable GetHardCap : Z → Z.
Variable LWOMAPID_INVALID : Z.
Variable initial_sysAddr : SystemAddress.

(** Modelled from the spec: the constructor
    [Instance(ip, port, mapID, instanceID, cloneID, softCap, hardCap)];
    arguments are converted to the width of the field they initialise and a
    fresh instance is not ready, not shutting down, and holds no request.
    Its peer address is [initial_sysAddr] until [SetSysAddr] is called. *)
Definition new_Instance (ip0 : string) (port0 mapID0 instanceID0 cloneID0 : Z)
    (softCap0 hardCap0 : Z) : Instance :=
  {| ip := ip0;
     port := to_u16 port0;
     zoneID := mkZoneID (to_u16 mapID0) (to_u16 instanceID0) (to_u32 cloneID0);
     sysAddr := initial_sysAddr;
     ready := false;
     shuttingDown := false;
     shutdownComplete := false;
     softCap := softCap0;
     hardCap := hardCap0;
     players := 0%nat;
     pendingRequests := [];
     pendingAffirmations := [];
     affirmationTimeout := 0;
     privatePassword := None |}.

(** *** Zone resolution *)

(** Step 1 of zone resolution: not shutting down, not private, on the
    requested map, and below its soft cap. *)
Definition is_available (mapID0 : Z) (i : Instance) : bool :=
  negb (shuttingDown i)
  && bool_decide (privatePassword i = None)
  && bool_decide (GetMapID i = mapID0)
  && bool_decide (Z.of_nat (players i) < softCap i).

(** Step 2 of zone resolution: launch a world server on a free port
    under a fresh instance id and register it, not ready. *)
Definition launch (mapID0 cloneID0 : Z) (password : option string)
    (st : Master) : ptr * Master :=
  let i := SetPrivatePassword password
             (new_Instance (mExternalIP st) (GetFreePort st) mapID0
                (NewInstanceID st) cloneID0 (GetSoftCap mapID0) (GetHardCap mapID0)) in
  let '(l, st1) := alloc i st in
  let st2 := emit (SpawnWorldServer (ip i) (port i) (GetMapID i)
                     (GetInstanceID i) (GetCloneID i) (hardCap i)) st1 in
  (Some l, AddInstance (Some l) st2).

(** Modelled from the spec: [InstanceManager::GetInstance(mapID,
    isFriendTransfer, cloneID)] returns the first available instance of
    the map and launches one when there is none. *)
Definition GetInstance (mapID0 : Z) (isFriendTransfer : bool) (cloneID0 : Z)
    (st : Master) : ptr * Master :=
  match find_ptr (is_available mapID0) (objects st) (m_Instances st) with
  | Some l => (Some l, st)
  | None => launch mapID0 cloneID0 None st
  end.

(** Modelled from the spec: [InstanceManager::CreatePrivateInstance] spawns
    an instance and records its password. *)
Definition CreatePrivateInstance (mapID0 cloneID0 : Z) (password : string)
    (st : Master) : ptr * Master :=
  launch mapID0 cloneID0 (Some password) st.

(** The normal path of a transfer request once its zone is known: resolve
    an instance, queue the request while the instance is not ready, and ask
    for affirmation when it is. *)
Definition submit (mapID0 cloneID0 : Z) (req : TransferRequest) (st : Master)
    : option Master :=
  let '(p, st1) := GetInstance mapID0 false cloneID0 st in
  i ← deref p st1;
  if ready i then RequestAffirmation p req st1
  else update p (push_back_PendingRequest req) st1.

Fixpoint submit_all (mapID0 cloneID0 : Z) (reqs : list TransferRequest)
    (st : Master) : option Master :=
  match reqs with
  | [] => Some st
  | req :: reqs' =>
      st1 ← submit mapID0 cloneID0 req st; submit_all mapID0 cloneID0 reqs' st1
  end.

(** Modelled from the spec: [InstanceManager::RedirectPendingRequests]
    moves every request of [pendingAffirmations] and of [pendingRequests]
    to an instance resolved anew for the same [(mapID, cloneID)], through
    the normal path. *)
Definition RedirectPendingRequests (p : ptr) (st : Master) : option Master :=
  i ← deref p st;
  st1 ← update p (λ j, SetPendingRequests [] (SetPendingAffirmations [] j)) st;
  submit_all (GetMapID i) (GetCloneID i)
    (pendingAffirmations i ++ pendingRequests i) st1.

Fixpoint affirm_all (p : ptr) (reqs : list TransferRequest) (st : Master)
    : option Master :=
  match reqs with
  | [] => Some st
  | req :: reqs' => st1 ← RequestAffirmation p req st; affirm_all p reqs' st1
  end.

(** Modelled from the spec: [InstanceManager::ReadyInstance] marks the
    instance ready, drains its queue, and sends every drained request into
    the affirmation flow. *)
Definition ReadyInstance (p : ptr) (st : Master) : option Master :=
  i ← deref p st;
  st1 ← update p (λ j, SetPendingRequests [] (SetIsReady true j)) st;
  affirm_all p (pendingRequests i) st1.

(** *** [HandlePacket] *)

(** The two transport events share their body: drop the instance of the
    lost peer, and restart the chat server when the peer was the chat
    server and no universe shutdown is under way. *)
Definition on_peer_gone (packet : Packet) (st : Master) : option Master :=
  let instance := GetInstanceBySysAddr (systemAddress packet) st in
  let st1 := match instance with
             | Some _ => RemoveInstance instance st
             | None => st
             end in
  Some (if bool_decide (systemAddress packet = chatServerMasterPeerSysAddr st1)
           && negb (shouldShutdown st1)
        then StartChatServer st1 else st1).

Definition handle_REQUEST_PERSISTENT_ID (packet : Packet) (requestID0 : Z)
    (st : Master) : option Master :=
  let '(objID, st1) := GeneratePersistentID st in
  Some (emit (Send (PERSISTENT_ID_RESPONSE requestID0 objID) (systemAddress packet)) st1).

Definition handle_REQUEST_ZONE_TRANSFER (packet : Packet)
    (requestID0 mythranShift0 zoneID0 zoneClone : Z) (st : Master) : option Master :=
  let '(in_, st1) := GetInstance (to_u16 zoneID0) false zoneClone st in
  (* the logging loop reads every instance of the registry *)
  _ ← mapM (λ p, deref p st1) (GetInstances st1);
  i ← deref in_ st1;
  let req := mkTransferRequest requestID0 (negb (Z.eqb mythranShift0 0))
               (systemAddress packet) in
  if negb (ready i) then update in_ (push_back_PendingRequest req) st1
  else RequestAffirmation in_ req st1.

Definition handle_SERVER_INFO (packet : Packet)
    (theirPort theirZoneID theirInstanceID : Z) (theirServerType : ServerType)
    (theirIP : string) (st : Master) : option Master :=
  st1 ← (if bool_decide (theirServerType = ServerType_World)
            && negb (IsPortInUse theirPort st)
         then
           let '(l, st') := alloc (new_Instance theirIP theirPort theirZoneID
                                     theirInstanceID 0 12 12) st in
           let copy := mkSystemAddress (binaryAddress (systemAddress packet))
                         (sa_port (systemAddress packet)) in
           st'' ← update (Some l) (SetSysAddr copy) st';
           Some (AddInstance (Some l) st'')
         else
           let instance := FindInstance (to_u16 theirZoneID)
                             (to_u16 theirInstanceID) st in
           match instance with
           | Some _ => update instance (SetSysAddr (systemAddress packet)) st
           | None => Some st
           end);
  Some (if bool_decide (theirServerType = ServerType_Chat)
        then set_chatServerMasterPeerSysAddr
               (mkSystemAddress (binaryAddress (systemAddress packet))
                  (sa_port (systemAddress packet))) st1
        else st1).

Definition handle_SET_SESSION_KEY (sessionKey : Z) (username : string)
    (st : Master) : option Master :=
  let st1 := match find_username username (activeSessions st) with
             | Some it =>
                 emit (Broadcast (NEW_SESSION_ALERT sessionKey username))
                   (set_activeSessions
                      (map_erase (fst it) (activeSessions st)) st)
             | None => st
             end in
  Some (set_activeSessions
          (map_insert sessionKey username (activeSessions st1)) st1).

Definition handle_REQUEST_SESSION_KEY (packet : Packet) (username : string)
    (st : Master) : option Master :=
  match find_username username (activeSessions st) with
  | Some key =>
      Some (emit (Send (SESSION_KEY_RESPONSE (fst key) (snd key))
                    (systemAddress packet)) st)
  | None => Some st
  end.

Definition handle_PLAYER_ADDED (theirZoneID theirInstanceID : Z) (st : Master)
    : option Master :=
  let instance := FindInstance theirZoneID theirInstanceID st in
  match instance with
  | Some _ => update instance AddPlayer st
  | None => Some st
  end.

Definition handle_PLAYER_REMOVED (theirZoneID theirInstanceID : Z) (st : Master)
    : option Master :=
  let instance := FindInstance theirZoneID theirInstanceID st in
  match instance with
  | Some _ => update instance RemovePlayer st
  | None => Some st
  end.

Definition handle_CREATE_PRIVATE_ZONE (mapId cloneId : Z) (password : string)
    (st : Master) : option Master :=
  Some (snd (CreatePrivateInstance (to_u16 mapId) cloneId (c_str password) st)).

Definition handle_REQUEST_PRIVATE_ZONE (packet : Packet)
    (requestID0 mythranShift0 : Z) (password : string) (st : Master)
    : option Master :=
  let instance := FindPrivateInstance (c_str password) st in
  match instance with
  | None => Some st
  | Some _ =>
      i ← deref instance st;
      Some (SendZoneTransferResponse (systemAddress packet) requestID0
              (negb (Z.eqb mythranShift0 0)) i st)
  end.

Definition handle_WORLD_READY (zoneID0 instanceID0 : Z) (st : Master)
    : option Master :=
  let instance := FindInstance zoneID0 instanceID0 st in
  match instance with
  | None => Some st
  | Some _ => ReadyInstance instance st
  end.

Definition handle_PREP_ZONE (zoneID0 : Z) (st : Master) : option Master :=
  Some (snd (GetInstance (to_u16 zoneID0) false 0 st)).

Definition handle_AFFIRM_TRANSFER_RESPONSE (packet : Packet) (requestID0 : Z)
    (st : Master) : option Master :=
  let instance := GetInstanceBySysAddr (systemAddress packet) st in
  match instance with
  | None => Some st
  | Some _ => AffirmTransfer instance requestID0 st
  end.

Definition handle_SHUTDOWN_RESPONSE (packet : Packet) (st : Master)
    : option Master :=
  let instance := GetInstanceBySysAddr (systemAddress packet) st in
  match instance with
  | None => Some st
  | Some _ => update instance (SetIsShuttingDown true) st
  end.

Definition handle_SHUTDOWN_UNIVERSE (st : Master) : option Master :=
  Some (set_shouldShutdown true st).

Definition handle_SHUTDOWN_INSTANCE (zoneID0 instanceID0 : Z) (st : Master)
    : option Master :=
  let instance := FindInstance (to_u16 zoneID0) instanceID0 st in
  match instance with
  | Some _ => Shutdown instance st
  | None => Some st
  end.

Definition handle_GET_INSTANCES (objectID : Z) (zoneID_read : option Z)
    (respondingZoneID respondingInstanceID : Z) (st : Master) : option Master :=
  let zoneID0 := default LWOMAPID_INVALID zoneID_read in
  (* [FindInstance(...)->GetSysAddr()]: no null check *)
  responding ← deref (FindInstance respondingZoneID respondingInstanceID st) st;
  let respondingSysAddr := sysAddr responding in
  let instances := if Z.eqb zoneID0 LWOMAPID_INVALID then GetInstances st
                   else FindInstancesByMapID zoneID0 st in
  listed ← mapM (λ p, deref p st) instances;
  Some (emit (Send (RESPOND_INSTANCES objectID
                      ((λ i, (GetMapID i, GetCloneID i, GetInstanceID i)) <$> listed))
                respondingSysAddr) st).

(** The [switch (packet->data[3])] under [packet->data[1] == MASTER]. *)
Definition handle_master (packet : Packet) (st : Master) : option Master :=
  match body packet with
  | MSG_MASTER_REQUEST_PERSISTENT_ID requestID0 =>
      handle_REQUEST_PERSISTENT_ID packet requestID0 st
  | MSG_MASTER_REQUEST_ZONE_TRANSFER requestID0 mythranShift0 zoneID0 zoneClone =>
      handle_REQUEST_ZONE_TRANSFER packet requestID0 mythranShift0 zoneID0 zoneClone st
  | MSG_MASTER_SERVER_INFO theirPort theirZoneID theirInstanceID theirServerType theirIP =>
      handle_SERVER_INFO packet theirPort theirZoneID theirInstanceID
        theirServerType theirIP st
  | MSG_MASTER_SET_SESSION_KEY sessionKey username =>
      handle_SET_SESSION_KEY sessionKey username st
  | MSG_MASTER_REQUEST_SESSION_KEY username =>
      handle_REQUEST_SESSION_KEY packet username st
  | MSG_MASTER_PLAYER_ADDED theirZoneID theirInstanceID =>
      handle_PLAYER_ADDED theirZoneID theirInstanceID st
  | MSG_MASTER_PLAYER_REMOVED theirZoneID theirInstanceID =>
      handle_PLAYER_REMOVED theirZoneID theirInstanceID st
  | MSG_MASTER_CREATE_PRIVATE_ZONE mapId cloneId password =>
      handle_CREATE_PRIVATE_ZONE mapId cloneId password st
  | MSG_MASTER_REQUEST_PRIVATE_ZONE requestID0 mythranShift0 password =>
      handle_REQUEST_PRIVATE_ZONE packet requestID0 mythranShift0 password st
  | MSG_MASTER_WORLD_READY zoneID0 instanceID0 =>
      handle_WORLD_READY zoneID0 instanceID0 st
  | MSG_MASTER_PREP_ZONE zoneID0 => handle_PREP_ZONE zoneID0 st
  | MSG_MASTER_AFFIRM_TRANSFER_RESPONSE requestID0 =>
      handle_AFFIRM_TRANSFER_RESPONSE packet requestID0 st
  | MSG_MASTER_SHUTDOWN_RESPONSE => handle_SHUTDOWN_RESPONSE packet st
  | MSG_MASTER_SHUTDOWN_UNIVERSE => handle_SHUTDOWN_UNIVERSE st
  | MSG_MASTER_SHUTDOWN_INSTANCE zoneID0 instanceID0 =>
      handle_SHUTDOWN_INSTANCE zoneID0 instanceID0 st
  | MSG_MASTER_GET_INSTANCES objectID zoneID_read respondingZoneID respondingInstanceID =>
      handle_GET_INSTANCES objectID zoneID_read respondingZoneID
        respondingInstanceID st
  | MSG_MASTER_UNKNOWN _ => Some st
  end.

Definition HandlePacket (packet : Packet) (st : Master) : option Master :=
  st1 ← (if bool_decide (data0 packet = ID_DISCONNECTION_NOTIFICATION)
         then on_peer_gone packet st else Some st);
  st2 ← (if bool_decide (data0 packet = ID_CONNECTION_LOST)
         then on_peer_gone packet st1 else Some st1);
  if bool_decide (data1 packet = MASTER) then handle_master packet st2
  else Some st2.

(** *** The control loop of [main] *)

Record LoopCounters := mkLoopCounters {
  framesSinceLastFlush : Z;
  framesSinceLastSQLPing : Z;
  framesSinceKillUniverseCommand : Z
}.

(** The body of the first [for] loop over the instances: advance the
    affirmation counter, and give up on the instance when the counter
    reaches 1000. *)
Definition tick_instance (l : loc) (st : Master) : option Master :=
  instance ← objects st !! l;
  let affirmTimeout :=
    if bool_decide (pendingAffirmations instance ≠ [])
    then to_u32 (affirmationTimeout instance + 1)
    else 0 in
  st1 ← update (Some l) (SetAffirmationTimeout affirmTimeout) st;
  if Z.eqb affirmTimeout 1000 then
    st2 ← Shutdown (Some l) st1;
    st3 ← update (Some l) (SetIsShuttingDown true) st2;
    RedirectPendingRequests (Some l) st3
  else Some st1.

(** [for (auto* instance : instances)] with its [break] on the first null
    entry. *)
Fixpoint advance_affirmations (instances : list ptr) (st : Master) : option Master :=
  match instances with
  | [] => Some st
  | None :: _ => Some st
  | Some l :: rest => st1 ← tick_instance l st; advance_affirmations rest st1
  end.

(** The second loop: remove dead instances. *)
Fixpoint remove_dead (instances : list ptr) (st : Master) : option Master :=
  match instances with
  | [] => Some st
  | None :: _ => Some st
  | Some l :: rest =>
      instance ← objects st !! l;
      remove_dead rest
        (if shutdownComplete instance then RemoveInstance (Some l) st else st)
  end.

Inductive LoopStep :=
  | Continue (c : LoopCounters) (st : Master)
  | Break (c : LoopCounters) (st : Master).

(** [Game::server->Receive()] followed by the dispatch. *)
Definition receive (packet : option Packet) (st : Master) : option Master :=
  match packet with
  | Some p => HandlePacket p st
  | None => Some st
  end.

(** One iteration of [while (true)] in [main]; [packet] is what
    [Receive] returns in this iteration. *)
Definition main_iteration (packet : option Packet) (c : LoopCounters)
    (st : Master) : option LoopStep :=
  st1 ← receive packet st;
  let flushing := 900 <=? framesSinceLastFlush c in
  let st2 := if flushing then emit LoggerFlush st1 else st1 in
  let flush := if flushing then 0 else framesSinceLastFlush c + 1 in
  let pinging := 40000 <=? framesSinceLastSQLPing c in
  let st3 := if pinging then emit SqlPing st2 else st2 in
  let ping := if pinging then 0 else framesSinceLastSQLPing c + 1 in
  if shouldShutdown st3 && (40000 <=? framesSinceKillUniverseCommand c) then
    Some (Break (mkLoopCounters flush ping (framesSinceKillUniverseCommand c)) st3)
  else
    let kill := if shouldShutdown st3 then framesSinceKillUniverseCommand c + 1
                else framesSinceKillUniverseCommand c in
    let instances := GetInstances st3 in
    st4 ← advance_affirmations instances st3;
    st5 ← remove_dead instances st4;
    Some (Continue (mkLoopCounters flush ping kill) st5).

Inductive RunResult :=
  | Running (c : LoopCounters) (st : Master)
  | Broke (completed : N) (c : LoopCounters) (st : Master).

(** The loop over the packets received in successive iterations, after
    [completed] iterations: [Broke n] when the loop left through [break]
    after [n] complete iterations, [Running] when the inputs ran out
    first. *)
Fixpoint run_main_from (completed : N) (packets : list (option Packet))
    (c : LoopCounters) (st : Master) : option RunResult :=
  match packets with
  | [] => Some (Running c st)
  | packet :: rest =>
      match main_iteration packet c st with
      | None => None
      | Some (Break c1 st1) => Some (Broke completed c1 st1)
      | Some (Continue c1 st1) => run_main_from (N.succ completed) rest c1 st1
      end
  end.

Definition run_main : list (option Packet) → LoopCounters → Master → option RunResult :=
  run_main_from 0.

(** *** [ShutdownSequence] *)

(** [for (auto* instance : Game::im->GetInstances())] sending [Shutdown],
    with its [continue] on null entries. *)
Fixpoint shutdown_all (instances : list ptr) (st : Master) : option Master :=
  match instances with
  | [] => Some st
  | None :: rest => shutdown_all rest st
  | Some l :: rest => st1 ← Shutdown (Some l) st; shutdown_all rest st1
  end.

(** The flag [done] of one drain iteration. *)
Fixpoint all_complete (instances : list ptr) (st : Master) : option bool :=
  match instances with
  | [] => Some true
  | None :: rest => all_complete rest st
  | Some l :: rest =>
      instance ← objects st !! l;
      rest_done ← all_complete rest st;
      Some (shutdownComplete instance && rest_done)
  end.

Inductive ShutdownOutcome :=
  | AlreadyStarted
  | ExitedWithoutInstanceManager (st : Master)
  | FinishedShuttingDown (ticks : Z) (st : Master)
  | FinishedByTimeout (ticks : Z) (st : Master)
  | OutOfFuel.

(** The drain loop; [packets] are the results of the successive calls of
    [Receive] (none once the list is used up). *)
Fixpoint drain_loop (fuel : nat) (packets : list (option Packet)) (ticks : Z)
    (st : Master) : option ShutdownOutcome :=
  match fuel with
  | O => Some OutOfFuel
  | S fuel1 =>
      st1 ← receive (mjoin (head packets)) st;
      all_done ← all_complete (GetInstances st1) st1;
      if (all_done : bool) then Some (FinishedShuttingDown ticks st1)
      else
        let ticks1 := ticks + 1 in
        if Z.eqb ticks1 (600 * 6) then Some (FinishedByTimeout ticks1 st1)
        else drain_loop fuel1 (tail packets) ticks1 st1
  end.

(** [shutdownSequenceStarted], and whether [Game::im] and
    [ObjectIDManager::TryInstance()] are non-null, are arguments. *)
Definition ShutdownSequence (shutdownSequenceStarted Game_im objIdManager : bool)
    (fuel : nat) (packets : list (option Packet)) (st : Master)
    : option ShutdownOutcome :=
  if shutdownSequenceStarted then Some AlreadyStarted
  else
    st1 ← (if Game_im then shutdown_all (GetInstances st) st else Some st);
    let st2 := if objIdManager then ObjectIDManager_SaveToDatabase st1 else st1 in
    if negb Game_im then Some (ExitedWithoutInstanceManager st2)
    else drain_loop fuel packets 0 st2.

(** The state after the first [n] iterations of the drain loop have received
  and dispatched their packet. *)
Fixpoint drain_state (n : nat) (packets : list (option Packet)) (st : Master)
  : option Master :=
match n with
| O => Some st
| S n1 =>
    st1 ← receive (mjoin (head packets)) st;
    drain_state n1 (tail packets) st1
end.

(** The [Shutdown] messages for the instances of a vector, in order. *)
Definition shutdown_notices (instances : list ptr) (st : Master) : list Effect :=
omap (λ p, i ← deref p st; Some (Send SHUTDOWN (sysAddr i))) instances.


(** [frame l st st']: from [st] to [st'] the trace and the registry have
    only grown and, when [l] designates an instance in [st], it still does
    in [st'], with the same affirmation counter, shutting-down flag, peer
    and zone, and with at least the requests it held. *)
Definition frame (l : loc) (st st' : Master) : Prop :=
  (∃ more, effects st' = effects st ++ more)
  ∧ (∀ p, p ∈ m_Instances st → p ∈ m_Instances st')
  ∧ ∀ i, objects st !! l = Some i →
      ∃ i', objects st' !! l = Some i'
            ∧ affirmationTimeout i' = affirmationTimeout i
            ∧ shuttingDown i' = shuttingDown i
            ∧ sysAddr i' = sysAddr i
            ∧ zoneID i' = zoneID i
            ∧ (∀ r, r ∈ pendingAffirmations i → r ∈ pendingAffirmations i')
            ∧ (∀ r, r ∈ pendingRequests i → r ∈ pendingRequests i').

(** A member function that leaves alone what [frame] is about. *)
Definition quiet (f : Instance → Instance) : Prop :=
  ∀ i, affirmationTimeout (f i) = affirmationTimeout i
       ∧ shuttingDown (f i) = shuttingDown i
       ∧ sysAddr (f i) = sysAddr i
       ∧ zoneID (f i) = zoneID i
       ∧ (∀ r, r ∈ pendingAffirmations i → r ∈ pendingAffirmations (f i))
       ∧ (∀ r, r ∈ pendingRequests i → r ∈ pendingRequests (f i)).

(** [held_elsewhere l m req st]: a registered instance other than [l], on
  map [m], holds the request [req] in one of its two containers. *)
Definition held_elsewhere (l : loc) (m : Z) (req : TransferRequest) (st : Master)
  : Prop :=
∃ l' i', l' ≠ l ∧ Some l' ∈ m_Instances st ∧ objects st !! l' = Some i'
         ∧ GetMapID i' = m
         ∧ (req ∈ pendingRequests i' ∨ req ∈ pendingAffirmations i').


(** [good l st]: [l] designates an instance whose map id fits its field. *)
Definition good (l : loc) (st : Master) : Prop :=
  ∃ i, objects st !! l = Some i ∧ to_u16 (GetMapID i) = GetMapID i.

(** [carries l st st']: when [l] designates an instance in [st], it still
    does in [st'], with the same affirmation counter. *)
Definition carries (l : loc) (st st' : Master) : Prop :=
  ∀ i, objects st !! l = Some i →
    ∃ i', objects st' !! l = Some i'
          ∧ affirmationTimeout i' = affirmationTimeout i.

(** A packet is either a transport event or a master message, not both. *)
Definition proper (packet : option Packet) : bool :=
  match packet with
  | None => true
  | Some p =>
      negb (bool_decide (data1 p = MASTER))
      || (negb (bool_decide (data0 p = ID_DISCONNECTION_NOTIFICATION))
          && negb (bool_decide (data0 p = ID_CONNECTION_LOST)))
  end.

(** Whether [l] is registered and holds pending affirmations. *)
Definition awaits_affirmation (l : loc) (st : Master) : bool :=
  bool_decide (Some l ∈ m_Instances st)
  && match objects st !! l with
     | Some i => negb (bool_decide (pendingAffirmations i = []))
     | None => false
     end.

(** [pending_throughout l n packets c st]: over the next [n] iterations of
    the control loop, the packets are proper, the loop does not break, and
    in each iteration the registry is in good order and the instance [l]
    is registered, has pending affirmations when the affirmation loop
    starts, and is still there when the iteration ends. *)
Fixpoint pending_throughout (l : loc) (n : nat) (packets : list (option Packet))
    (c : LoopCounters) (st : Master) : bool :=
  match n with
  | O => true
  | S n1 =>
      match packets with
      | [] => false
      | packet :: rest =>
          proper packet
          && match receive packet st with
             | Some st1 => well_formed st1 && awaits_affirmation l st1
             | None => false
             end
          && match main_iteration packet c st with
             | Some (Continue c1 st1) =>
                 bool_decide (is_Some (objects st1 !! l))
                 && pending_throughout l n1 rest c1 st1
             | _ => false
             end
      end
  end.

(** [same_globals st st']: the globals of [MasterServer.cpp] other than the
  instance manager and the trace are the same in [st'] as in [st]. *)
Definition same_globals (st st' : Master) : Prop :=
activeSessions st' = activeSessions st
∧ shouldShutdown st' = shouldShutdown st
∧ chatServerMasterPeerSysAddr st' = chatServerMasterPeerSysAddr st
∧ currentPersistentID st' = currentPersistentID st
∧ mExternalIP st' = mExternalIP st.

(** Whether a received packet is a [SHUTDOWN_UNIVERSE] master message. *)
Definition is_shutdown_universe (packet : option Packet) : bool :=
match packet with
| Some p =>
    bool_decide (data1 p = MASTER)
    && match body p with
       | MSG_MASTER_SHUTDOWN_UNIVERSE => true
       | _ => false
       end
| None => false
end.


(** The session registry in good order: a map (strictly ascending keys) in
  which no user name occurs twice. *)
Definition sessions_ok (m : list (Z * string)) : bool :=
keys_ascending m && bool_decide (NoDup (snd <$> m)).


(** The two housekeeping actions of the control loop, as opposed to what
    the handlers and the instance loops emit. *)
Definition is_housekeeping (e : Effect) : bool :=
  match e with
  | LoggerFlush | SqlPing => true
  | _ => false
  end.

(** A registry in working order: every entry designates a live object,
    and no entry occurs twice. *)
Definition sound (st : Master) : bool :=
  registry_live st && bool_decide (NoDup (m_Instances st)).

(** [persists st st']: every pointer that can be dereferenced in [st] can
    be dereferenced in [st']. *)
Definition persists (st st' : Master) : Prop :=
  ∀ p, is_Some (deref p st) → is_Some (deref p st').


(** The state a loop step, or a run of the loop, ends in. *)
Definition step_state (s : LoopStep) : Master :=
  match s with
  | Continue _ st | Break _ st => st
  end.

Definition result_state (r : RunResult) : Master :=
  match r with
  | Running _ st | Broke _ _ st => st
  end.

(** Whether a received packet is a [GET_INSTANCES] master message. *)
Definition is_get_instances (packet : option Packet) : bool :=
  match packet with
  | Some p =>
      bool_decide (data1 p = MASTER)
      && match body p with
         | MSG_MASTER_GET_INSTANCES _ _ _ _ => true
         | _ => false
         end
  | None => false
  end.


(** How often an action occurs in the trace. *)
Definition count_effect (e : Effect) (st : Master) : nat :=
  length (filter (λ x, x = e) (effects st)).


(** The instance objects of the registry, in registry order. *)
Definition registered (st : Master) : list Instance :=
  omap (λ p, deref p st) (m_Instances st).


(** *** The start-up block of [main]

    With [prestart_servers] set to "1", [main] starts the chat server,
    resolves an instance for zone 0 and one for zone 1000 and marks each
    ready, and starts the auth server. *)
Definition prestart (prestart_servers : bool) (st : Master) : option Master :=
  if prestart_servers then
    let st1 := StartChatServer st in
    let '(p0, st2) := GetInstance 0 false 0 st1 in
    st3 ← update p0 (SetIsReady true) st2;
    let '(p1, st4) := GetInstance 1000 false 0 st3 in
    st5 ← update p1 (SetIsReady true) st4;
    Some (StartAuthServer st5)
  else Some st.


(** ** Properties *)

(** *** Registry scans *)

Lemma find_ptr_Some P o v l :
  find_ptr P o v = Some l →
  ∃ i, o !! l = Some i ∧ P i = true ∧ Some l ∈ v.
Proof.
  induction v as [|p v IH]; simpl; [discriminate|].
  destruct (p ≫= λ l0, o !! l0) as [i|] eqn:Hp.
  - destruct (P i) eqn:HP.
    + intros ->. simpl in Hp. exists i. split_and!; [done|done|left].
    + intros H. destruct (IH H) as (j & ? & ? & ?).
      exists j. split_and!; [done|done|by right].
  - intros H. destruct (IH H) as (j & ? & ? & ?).
    exists j. split_and!; [done|done|by right].
Qed.

Lemma find_ptr_None P o v :
  find_ptr P o v = None ↔
  ∀ l i, Some l ∈ v → o !! l = Some i → P i = false.
Proof.
  induction v as [|p v IH]; simpl.
  - split; [|done]. intros _ l i Hin. by apply elem_of_nil in Hin.
  - destruct (p ≫= λ l0, o !! l0) as [i|] eqn:Hp.
    + destruct (P i) eqn:HP.
      * split.
        -- intros ->. discriminate.
        -- intros H. destruct p as [l|]; [|discriminate]. simpl in Hp.
           specialize (H l i (list_elem_of_here _ _) Hp). congruence.
      * rewrite IH. split.
        -- intros H l j Hin Hl. apply elem_of_cons in Hin as [Heq|Hin].
           ++ subst p. simpl in Hp. congruence.
           ++ by eapply H.
        -- intros H l j Hin Hl. eapply H; [by right|done].
    + rewrite IH. split.
      * intros H l j Hin Hl. apply elem_of_cons in Hin as [Heq|Hin].
        -- subst p. simpl in Hp. congruence.
        -- by eapply H.
      * intros H l j Hin Hl. eapply H; [by right|done].
Qed.

Lemma find_ptr_deref P st l :
  find_ptr P (objects st) (m_Instances st) = Some l →
  ∃ i, deref (Some l) st = Some i ∧ P i = true.
Proof.
  intros H. apply find_ptr_Some in H as (i & ? & ? & _). by exists i.
Qed.

(** A peer has no instance exactly when the lookup by address is null. *)
Lemma GetInstanceBySysAddr_None a st :
  GetInstanceBySysAddr a st = nullptr ↔
  ∀ l i, Some l ∈ m_Instances st → objects st !! l = Some i → sysAddr i ≠ a.
Proof.
  unfold GetInstanceBySysAddr, nullptr. rewrite find_ptr_None.
  split; intros H l i Hin Hl; specialize (H l i Hin Hl).
  - by apply bool_decide_eq_false in H.
  - by apply bool_decide_eq_false.
Qed.

(** *** Replies from unknown peers *)

(** C8.  An [AFFIRM_TRANSFER_RESPONSE] or a [SHUTDOWN_RESPONSE] whose
    sender has no registered instance is ignored: the handler returns the
    state it was given, so nothing is sent and the registry, the session
    map and every instance are as before. *)
Theorem unknown_peer_reply_ignored (packet : Packet) (st : Master) :
  data0 packet ≠ ID_DISCONNECTION_NOTIFICATION →
  data0 packet ≠ ID_CONNECTION_LOST →
  data1 packet = MASTER →
  (∃ requestID0, body packet = MSG_MASTER_AFFIRM_TRANSFER_RESPONSE requestID0)
  ∨ body packet = MSG_MASTER_SHUTDOWN_RESPONSE →
  GetInstanceBySysAddr (systemAddress packet) st = nullptr →
  HandlePacket packet st = Some st.
Proof.
  intros Hd Hl Hm Hbody Hnone. unfold HandlePacket.
  rewrite (bool_decide_eq_false_2 _ Hd), (bool_decide_eq_false_2 _ Hl). simpl.
  rewrite (bool_decide_eq_true_2 _ Hm). unfold handle_master.
  destruct Hbody as [[requestID0 ->] | ->].
  - unfold handle_AFFIRM_TRANSFER_RESPONSE. by rewrite Hnone.
  - unfold handle_SHUTDOWN_RESPONSE. by rewrite Hnone.
Qed.

(** *** Object store *)

Lemma registry_live_spec st :
  registry_live st = true ↔ ∀ p, p ∈ m_Instances st → is_Some (deref p st).
Proof.
  unfold registry_live. rewrite forallb_forall. split.
  - intros H p Hp. apply list_elem_of_In in Hp. specialize (H p Hp).
    destruct (deref p st); [by eexists|discriminate].
  - intros H p Hp. apply list_elem_of_In in Hp.
    by destruct (H p Hp) as [i ->].
Qed.

Lemma update_Some l i f st :
  objects st !! l = Some i →
  update (Some l) f st = Some (set_objects (<[l := f i]> (objects st)) st).
Proof. intros H. unfold update. simpl. by rewrite H. Qed.

Lemma update_inv p f st st' :
  update p f st = Some st' →
  ∃ l i, p = Some l ∧ objects st !! l = Some i
         ∧ st' = set_objects (<[l := f i]> (objects st)) st.
Proof.
  unfold update. destruct p as [l|]; simpl; [|discriminate].
  destruct (objects st !! l) as [i|] eqn:Hl; simpl; [|discriminate].
  intros [= <-]. by exists l, i.
Qed.

Lemma deref_set_objects_insert p l j st :
  is_Some (deref p st) →
  is_Some (deref p (set_objects (<[l := j]> (objects st)) st)).
Proof.
  destruct p as [l'|]; simpl; [|done].
  intros H. destruct (decide (l = l')) as [->|Hne].
  - rewrite lookup_insert_eq. by eexists.
  - by rewrite lookup_insert_ne.
Qed.

Lemma deref_emit p e st : deref p (emit e st) = deref p st.
Proof. done. Qed.

Lemma registry_live_emit e st : registry_live (emit e st) = registry_live st.
Proof. done. Qed.

Lemma registry_live_insert l j st :
  registry_live st = true →
  registry_live (set_objects (<[l := j]> (objects st)) st) = true.
Proof.
  rewrite !registry_live_spec. intros H p Hp.
  apply deref_set_objects_insert. by apply H.
Qed.

Lemma registry_live_update p f st st' :
  update p f st = Some st' → registry_live st = true → registry_live st' = true.
Proof.
  intros Hu H. apply update_inv in Hu as (l & i & -> & Hl & ->).
  by apply registry_live_insert.
Qed.

Lemma registry_live_set_sessions s st :
  registry_live (set_activeSessions s st) = registry_live st.
Proof. done. Qed.

Lemma registry_live_RemoveInstance p st :
  registry_live st = true → registry_live (RemoveInstance p st) = true.
Proof.
  destruct p as [l|]; simpl; [|done].
  rewrite !registry_live_spec. simpl. intros H p Hp.
  apply list_elem_of_filter in Hp as [Hne Hp].
  destruct (H p Hp) as [i Hi]. destruct p as [l'|]; simpl in *; [|done].
  rewrite lookup_delete_ne; [by eexists|congruence].
Qed.

Lemma fresh_not_live st : objects st !! fresh (dom (objects st)) = None.
Proof. apply not_elem_of_dom, is_fresh. Qed.

Lemma registry_live_launch mapID0 cloneID0 pw st p st' :
  launch mapID0 cloneID0 pw st = (p, st') →
  registry_live st = true →
  registry_live st' = true ∧ p ≠ nullptr ∧ is_Some (deref p st').
Proof.
  unfold launch, alloc. intros [= <- <-] H. split_and!.
  - apply registry_live_spec. simpl. intros p Hp.
    apply elem_of_app in Hp as [Hp|Hp].
    + rewrite registry_live_spec in H.
      by apply (deref_set_objects_insert p _ _ st), H.
    + apply list_elem_of_singleton in Hp as ->. simpl.
      rewrite lookup_insert_eq. by eexists.
  - done.
  - simpl. rewrite lookup_insert_eq. by eexists.
Qed.

Lemma registry_live_GetInstance mapID0 b cloneID0 st p st' :
  GetInstance mapID0 b cloneID0 st = (p, st') →
  registry_live st = true →
  registry_live st' = true ∧ is_Some (deref p st').
Proof.
  unfold GetInstance.
  destruct (find_ptr _ _ _) as [l|] eqn:Hf.
  - intros [= <- <-] H. split; [done|].
    apply find_ptr_deref in Hf as (i & -> & _). by eexists.
  - intros Hl H. by destruct (registry_live_launch _ _ _ _ _ _ Hl H) as (? & _ & ?).
Qed.

(** *** Handlers are defined on a registry of live objects *)

(** [safe_step h st]: on [st] the operation [h] returns, and the registry
    of the state it returns is again made of live objects. *)
Definition safe_step (r : option Master) : Prop :=
  ∃ st', r = Some st' ∧ registry_live st' = true.

Lemma safe_step_Some st : registry_live st = true → safe_step (Some st).
Proof. intros H. by exists st. Qed.

Lemma safe_update p f st :
  registry_live st = true → is_Some (deref p st) → safe_step (update p f st).
Proof.
  intros H [i Hi]. destruct p as [l|]; [|done]. simpl in Hi.
  rewrite (update_Some _ _ _ _ Hi). eexists. split; [done|].
  by apply registry_live_insert.
Qed.

Lemma update_keeps_live p f q st st' :
  update p f st = Some st' → is_Some (deref q st) → is_Some (deref q st').
Proof.
  intros Hu Hq. apply update_inv in Hu as (l & i & -> & Hl & ->).
  by apply deref_set_objects_insert.
Qed.

Lemma safe_RequestAffirmation p req st :
  registry_live st = true → is_Some (deref p st) →
  ∃ st', RequestAffirmation p req st = Some st'
         ∧ registry_live st' = true ∧ is_Some (deref p st').
Proof.
  intros H [i Hi]. unfold RequestAffirmation. rewrite Hi. simpl.
  destruct (safe_update p (add_affirmation req)
              (emit (Send (PREP_ZONE (GetMapID i)) (sysAddr i)) st))
    as (st' & Hu & Hlive); [done|by eexists|].
  exists st'. split_and!; [done|done|].
  eapply update_keeps_live; [done|]. rewrite deref_emit. by eexists.
Qed.

Lemma safe_affirm_all p reqs st :
  registry_live st = true → is_Some (deref p st) →
  safe_step (affirm_all p reqs st).
Proof.
  revert st. induction reqs as [|req reqs IH]; intros st H Hp; simpl.
  - by apply safe_step_Some.
  - destruct (safe_RequestAffirmation p req st H Hp) as (st1 & -> & H1 & Hp1).
    simpl. by apply IH.
Qed.

Lemma safe_ReadyInstance p st :
  registry_live st = true → is_Some (deref p st) →
  safe_step (ReadyInstance p st).
Proof.
  intros H [i Hi]. unfold ReadyInstance. rewrite Hi. simpl.
  destruct (safe_update p (λ j, SetPendingRequests [] (SetIsReady true j)) st)
    as (st1 & Hu & H1); [done|by eexists|].
  rewrite Hu. simpl. apply safe_affirm_all; [done|].
  eapply update_keeps_live; [done|by eexists].
Qed.

Lemma safe_AffirmTransfer p requestID0 st :
  registry_live st = true → is_Some (deref p st) →
  safe_step (AffirmTransfer p requestID0 st).
Proof.
  intros H [i Hi]. unfold AffirmTransfer. rewrite Hi. simpl.
  destruct (List.find _ _) as [r|].
  - apply safe_update; [done|]. rewrite deref_emit. by eexists.
  - by apply safe_step_Some.
Qed.

Lemma safe_Shutdown p st :
  registry_live st = true → is_Some (deref p st) → safe_step (Shutdown p st).
Proof.
  intros H [i Hi]. unfold Shutdown. rewrite Hi. simpl. by apply safe_step_Some.
Qed.

Lemma mapM_deref_live st :
  registry_live st = true →
  is_Some (mapM (λ p, deref p st) (m_Instances st)).
Proof.
  rewrite registry_live_spec. intros H. apply mapM_is_Some.
  apply Forall_forall. intros p Hp. apply list_elem_of_In in Hp. simpl. by apply H.
Qed.

Lemma safe_on_peer_gone packet st :
  registry_live st = true → safe_step (on_peer_gone packet st).
Proof.
  intros H. unfold on_peer_gone. eexists. split; [done|].
  set (st1 := match GetInstanceBySysAddr _ _ with Some _ => _ | None => _ end).
  assert (registry_live st1 = true) as H1.
  { subst st1. destruct (GetInstanceBySysAddr _ _); [|done].
    by apply registry_live_RemoveInstance. }
  by destruct (_ && _).
Qed.

Lemma safe_REQUEST_ZONE_TRANSFER packet requestID0 mythranShift0 zoneID0 zoneClone st :
  registry_live st = true →
  safe_step (handle_REQUEST_ZONE_TRANSFER packet requestID0 mythranShift0
               zoneID0 zoneClone st).
Proof.
  intros H. unfold handle_REQUEST_ZONE_TRANSFER.
  destruct (GetInstance _ _ _ _) as [p st1] eqn:Hg.
  destruct (registry_live_GetInstance _ _ _ _ _ _ Hg H) as [H1 [i Hi]].
  unfold GetInstances. destruct (mapM_deref_live st1 H1) as [xs ->]. simpl. rewrite Hi. simpl.
  destruct (ready i); simpl.
  - destruct (safe_RequestAffirmation p
                (mkTransferRequest requestID0 (negb (mythranShift0 =? 0))
                   (systemAddress packet)) st1 H1)
      as (st' & -> & ? & _); [by eexists|]. by eexists.
  - apply safe_update; [done|by eexists].
Qed.

Lemma safe_SERVER_INFO packet theirPort theirZoneID theirInstanceID ty theirIP st :
  registry_live st = true →
  safe_step (handle_SERVER_INFO packet theirPort theirZoneID theirInstanceID
               ty theirIP st).
Proof.
  intros H. unfold handle_SERVER_INFO.
  assert (∀ st1, registry_live st1 = true →
            registry_live (if bool_decide (ty = ServerType_Chat)
                           then set_chatServerMasterPeerSysAddr
                                  (mkSystemAddress
                                     (binaryAddress (systemAddress packet))
                                     (sa_port (systemAddress packet))) st1
                           else st1) = true) as Hchat.
  { intros st1 H1. by destruct (bool_decide _). }
  destruct (_ && _).
  - unfold alloc. rewrite (update_Some _ _ _ _ (lookup_insert_eq _ _ _)).
    simpl. eexists. split; [done|]. apply Hchat.
    apply registry_live_spec. simpl. intros p Hp.
    apply elem_of_app in Hp as [Hp|Hp].
    + rewrite registry_live_spec in H. destruct (H p Hp) as [i Hi].
      destruct p as [l'|]; [|done]. simpl in *.
      destruct (decide (fresh (dom (objects st)) = l')) as [<-|Hne].
      * rewrite lookup_insert_eq. by eexists.
      * rewrite !lookup_insert_ne by done. by eexists.
    + apply list_elem_of_singleton in Hp as ->. simpl.
      rewrite lookup_insert_eq. by eexists.
  - destruct (FindInstance _ _ _) as [l|] eqn:Hf.
    + apply find_ptr_deref in Hf as (i & Hi & _).
      destruct (safe_update (Some l) (SetSysAddr (systemAddress packet)) st H)
        as (st1 & -> & H1); [by eexists|].
      simpl. eexists. split; [done|]. by apply Hchat.
    + simpl. eexists. split; [done|]. by apply Hchat.
Qed.

Lemma safe_find_update P f st :
  registry_live st = true →
  safe_step (match find_ptr P (objects st) (m_Instances st) with
             | Some _ => update (find_ptr P (objects st) (m_Instances st)) f st
             | None => Some st
             end).
Proof.
  intros H. destruct (find_ptr _ _ _) as [l|] eqn:Hf.
  - apply find_ptr_deref in Hf as (i & Hi & _).
    apply safe_update; [done|by eexists].
  - by apply safe_step_Some.
Qed.

(** The safety of every case of the switch except [GET_INSTANCES]. *)
Lemma safe_handle_master packet st :
  registry_live st = true →
  (∀ objectID zoneID_read rz ri,
     body packet ≠ MSG_MASTER_GET_INSTANCES objectID zoneID_read rz ri) →
  safe_step (handle_master packet st).
Proof.
  intros H Hbody. unfold handle_master.
  destruct (body packet) eqn:Hb.
  - by apply safe_step_Some.
  - by apply safe_REQUEST_ZONE_TRANSFER.
  - by apply safe_SERVER_INFO.
  - unfold handle_SET_SESSION_KEY. apply safe_step_Some.
    by destruct (find_username _ _).
  - unfold handle_REQUEST_SESSION_KEY.
    destruct (find_username _ _); by apply safe_step_Some.
  - by apply (safe_find_update _ AddPlayer).
  - by apply (safe_find_update _ RemovePlayer).
  - unfold handle_CREATE_PRIVATE_ZONE, CreatePrivateInstance.
    destruct (launch _ _ _ _) as [p st1] eqn:Hl.
    destruct (registry_live_launch _ _ _ _ _ _ Hl H) as (H1 & _).
    by apply safe_step_Some.
  - unfold handle_REQUEST_PRIVATE_ZONE.
    destruct (FindPrivateInstance _ _) as [l|] eqn:Hf.
    + apply find_ptr_deref in Hf as (i & -> & _). simpl.
      by apply safe_step_Some.
    + by apply safe_step_Some.
  - unfold handle_WORLD_READY.
    destruct (FindInstance _ _ _) as [l|] eqn:Hf.
    + apply find_ptr_deref in Hf as (i & Hi & _).
      apply safe_ReadyInstance; [done|by eexists].
    + by apply safe_step_Some.
  - unfold handle_PREP_ZONE.
    destruct (GetInstance _ _ _ _) as [p st1] eqn:Hg.
    destruct (registry_live_GetInstance _ _ _ _ _ _ Hg H) as [H1 _].
    by apply safe_step_Some.
  - unfold handle_AFFIRM_TRANSFER_RESPONSE.
    destruct (GetInstanceBySysAddr _ _) as [l|] eqn:Hf.
    + apply find_ptr_deref in Hf as (i & Hi & _).
      apply safe_AffirmTransfer; [done|by eexists].
    + by apply safe_step_Some.
  - by apply (safe_find_update _ (SetIsShuttingDown true)).
  - by apply safe_step_Some.
  - unfold handle_SHUTDOWN_INSTANCE.
    destruct (FindInstance _ _ _) as [l|] eqn:Hf.
    + apply find_ptr_deref in Hf as (i & Hi & _).
      apply safe_Shutdown; [done|by eexists].
    + by apply safe_step_Some.
  - by destruct (Hbody objectID zoneID0 respondingZoneID respondingInstanceID).
  - by apply safe_step_Some.
Qed.

(** *** [GET_INSTANCES] *)

(** C10.  [GET_INSTANCES] dereferences the result of [FindInstance]
    without a null check: when no registered instance has the responding
    [(zoneID, instanceID)] the handler runs into undefined behaviour
    before anything is sent, and [RESPOND_INSTANCES] is produced only when
    the responding instance exists.  Every other packet is handled
    without undefined behaviour on any registry of live objects. *)
Theorem get_instances_null_dereference (packet : Packet) (st : Master)
    (objectID : Z) (zoneID_read : option Z) (rz ri : Z) :
  data0 packet ≠ ID_DISCONNECTION_NOTIFICATION →
  data0 packet ≠ ID_CONNECTION_LOST →
  data1 packet = MASTER →
  body packet = MSG_MASTER_GET_INSTANCES objectID zoneID_read rz ri →
  (FindInstance rz ri st = nullptr → HandlePacket packet st = None)
  ∧ (∀ l, FindInstance rz ri st = Some l → registry_live st = true →
       ∃ responding listed,
         objects st !! l = Some responding
         ∧ GetMapID responding = rz ∧ GetInstanceID responding = ri
         ∧ HandlePacket packet st =
             Some (emit (Send (RESPOND_INSTANCES objectID listed)
                           (sysAddr responding)) st))
  ∧ (∀ other : Packet,
       (∀ o z a b, body other ≠ MSG_MASTER_GET_INSTANCES o z a b) →
       registry_live st = true →
       is_Some (HandlePacket other st)).
Proof.
  intros Hd Hl Hm Hbody. split_and!.
  - intros Hnone. unfold HandlePacket.
    rewrite (bool_decide_eq_false_2 _ Hd), (bool_decide_eq_false_2 _ Hl). simpl.
    rewrite (bool_decide_eq_true_2 _ Hm). unfold handle_master.
    rewrite Hbody. unfold handle_GET_INSTANCES. by rewrite Hnone.
  - intros l Hf Hlive. unfold HandlePacket.
    rewrite (bool_decide_eq_false_2 _ Hd), (bool_decide_eq_false_2 _ Hl). simpl.
    rewrite (bool_decide_eq_true_2 _ Hm). unfold handle_master.
    rewrite Hbody. unfold handle_GET_INSTANCES. rewrite Hf.
    apply find_ptr_Some in Hf as (i & Hi & HP & _).
    apply andb_true_iff in HP as [Hz Hn].
    apply bool_decide_eq_true in Hz, Hn.
    simpl. rewrite Hi. simpl.
    assert (is_Some (mapM (λ p, deref p st)
              (if default LWOMAPID_INVALID zoneID_read =? LWOMAPID_INVALID
               then GetInstances st
               else FindInstancesByMapID
                      (default LWOMAPID_INVALID zoneID_read) st))) as [xs Hxs].
    { destruct (_ =? _).
      - by apply mapM_deref_live.
      - apply mapM_is_Some, Forall_forall. intros p Hp.
        apply list_elem_of_In in Hp. simpl.
        unfold FindInstancesByMapID in Hp. clear -Hp.
        induction (m_Instances st) as [|q v IH]; simpl in Hp.
        + by apply elem_of_nil in Hp.
        + destruct (q ≫= λ l0, objects st !! l0) as [j|] eqn:Hq; [|by apply IH].
          destruct (bool_decide _); [|by apply IH].
          apply elem_of_cons in Hp as [->|Hp]; [|by apply IH].
          unfold deref. rewrite Hq. by eexists. }
    rewrite Hxs. simpl. by eexists i, _.
  - intros other Hother Hlive. unfold HandlePacket.
    assert (safe_step (if bool_decide (data0 other = ID_DISCONNECTION_NOTIFICATION)
                       then on_peer_gone other st else Some st))
      as (st1 & -> & H1).
    { destruct (bool_decide _); [by apply safe_on_peer_gone|by apply safe_step_Some]. }
    simpl.
    assert (safe_step (if bool_decide (data0 other = ID_CONNECTION_LOST)
                       then on_peer_gone other st1 else Some st1))
      as (st2 & -> & H2).
    { destruct (bool_decide _); [by apply safe_on_peer_gone|by apply safe_step_Some]. }
    simpl. destruct (bool_decide _); [|by eexists].
    destruct (safe_handle_master other st2 H2 Hother) as (st3 & -> & _).
    by eexists.
Qed.

(** *** Peer loss *)

Lemma RemoveInstance_gone l st :
  (Some l ∉ m_Instances (RemoveInstance (Some l) st))
  ∧ objects (RemoveInstance (Some l) st) !! l = None.
Proof.
  simpl. split.
  - intros Hin. apply list_elem_of_filter in Hin as [Hne _]. by apply Hne.
  - apply lookup_delete_eq.
Qed.

Lemma find_ptr_first P o v l :
  find_ptr P o v = Some l →
  ∃ pre post,
    v = pre ++ Some l :: post
    ∧ ∀ l' i', Some l' ∈ pre → o !! l' = Some i' → P i' = false.
Proof.
  induction v as [|p v IH]; simpl; [discriminate|].
  destruct (p ≫= λ l0, o !! l0) as [i|] eqn:Hp.
  - destruct (P i) eqn:HP.
    + intros ->. exists [], v. split; [done|].
      intros l' i' Hin. by apply elem_of_nil in Hin.
    + intros H. destruct (IH H) as (pre & post & -> & Hpre).
      exists (p :: pre), post. split; [done|].
      intros l' i' Hin Hl'. apply elem_of_cons in Hin as [<-|Hin]; [|by eapply Hpre].
      simpl in Hp. congruence.
  - intros H. destruct (IH H) as (pre & post & -> & Hpre).
    exists (p :: pre), post. split; [done|].
    intros l' i' Hin Hl'. apply elem_of_cons in Hin as [<-|Hin]; [|by eapply Hpre].
    simpl in Hp. congruence.
Qed.

(** C9.  On [DISCONNECTION_NOTIFICATION] and on [CONNECTION_LOST], whatever
    the rest of the packet: a chat server is started exactly when the lost
    peer is the remembered chat peer and no universe shutdown is in
    progress; and when some registered instance has the lost peer as its
    peer, the first such instance in registry order is removed from the
    registry and destroyed, the rest of the registry staying as it was,
    while the registry is untouched when no registered instance has that
    peer.  The state [st1] so reached is the result when byte 1 of the
    packet is not [MASTER], and the state the switch over the master
    messages starts from when it is. *)
Theorem peer_loss_handling (packet : Packet) (st : Master) :
  data0 packet = ID_DISCONNECTION_NOTIFICATION
  ∨ data0 packet = ID_CONNECTION_LOST →
  ∃ st1,
    HandlePacket packet st
    = (if bool_decide (data1 packet = MASTER) then handle_master packet st1
       else Some st1)
    ∧ (systemAddress packet = chatServerMasterPeerSysAddr st
       ∧ shouldShutdown st = false →
       effects st1 = effects st ++ [SpawnChatServer])
    ∧ (¬ (systemAddress packet = chatServerMasterPeerSysAddr st
          ∧ shouldShutdown st = false) →
       effects st1 = effects st)
    ∧ ((∃ l i, Some l ∈ m_Instances st ∧ objects st !! l = Some i
               ∧ sysAddr i = systemAddress packet) →
       ∃ l i pre post,
         m_Instances st = pre ++ Some l :: post
         ∧ (∀ l' i', Some l' ∈ pre → objects st !! l' = Some i' →
              sysAddr i' ≠ systemAddress packet)
         ∧ objects st !! l = Some i ∧ sysAddr i = systemAddress packet
         ∧ (Some l ∉ m_Instances st1) ∧ objects st1 !! l = None
         ∧ m_Instances st1 = filter (λ q, q ≠ Some l) (m_Instances st)
         ∧ objects st1 = delete l (objects st))
    ∧ ((∀ l i, Some l ∈ m_Instances st → objects st !! l = Some i →
          sysAddr i ≠ systemAddress packet) →
       m_Instances st1 = m_Instances st ∧ objects st1 = objects st)
    ∧ activeSessions st1 = activeSessions st
    ∧ shouldShutdown st1 = shouldShutdown st
    ∧ chatServerMasterPeerSysAddr st1 = chatServerMasterPeerSysAddr st
    ∧ currentPersistentID st1 = currentPersistentID st.
Proof.
  intros Hev.
  assert (HandlePacket packet st
          = st1 ← on_peer_gone packet st;
            if bool_decide (data1 packet = MASTER) then handle_master packet st1
            else Some st1) as ->.
  { unfold HandlePacket. destruct Hev as [Hev|Hev]; rewrite Hev; simpl.
    - by destruct (on_peer_gone packet st).
    - done. }
  unfold on_peer_gone. cbn [mbind option_bind]. eexists. split; [done|].
  set (st1 := match GetInstanceBySysAddr _ _ with Some _ => _ | None => _ end).
  assert (chatServerMasterPeerSysAddr st1 = chatServerMasterPeerSysAddr st
          ∧ shouldShutdown st1 = shouldShutdown st
          ∧ effects st1 = effects st
          ∧ activeSessions st1 = activeSessions st
          ∧ currentPersistentID st1 = currentPersistentID st)
    as (Hc & Hs & Heff & Hses & Hpid).
  { subst st1. by destruct (GetInstanceBySysAddr _ _). }
  rewrite Hc, Hs. split_and!.
  - intros [Ha Hs']. rewrite (bool_decide_eq_true_2 _ Ha), Hs'. simpl.
    by rewrite Heff.
  - intros Hn. destruct (bool_decide _) eqn:Ha; simpl; [|done].
    destruct (shouldShutdown st) eqn:Hs'; simpl; [done|].
    apply bool_decide_eq_true in Ha. by destruct Hn.
  - intros (l0 & i0 & Hin0 & Hi0 & Ha0). subst st1.
    destruct (GetInstanceBySysAddr (systemAddress packet) st) as [l|] eqn:Hg.
    + unfold GetInstanceBySysAddr in Hg.
      destruct (find_ptr_first _ _ _ _ Hg) as (pre & post & Hreg & Hpre).
      apply find_ptr_Some in Hg as (i & Hi & HP & _).
      apply bool_decide_eq_true in HP.
      destruct (RemoveInstance_gone l st) as [H1 H2].
      exists l, i, pre, post. split_and!; [done| |done|done| | | |].
      * intros l' i' Hin Hl'. specialize (Hpre l' i' Hin Hl').
        by apply bool_decide_eq_false in Hpre.
      * by destruct (_ && _).
      * by destruct (_ && _).
      * by destruct (_ && _).
      * by destruct (_ && _).
    + exfalso. by apply (proj1 (GetInstanceBySysAddr_None _ _) Hg l0 i0).
  - intros Hnone. subst st1.
    destruct (GetInstanceBySysAddr (systemAddress packet) st) as [l|] eqn:Hg.
    + exfalso. unfold GetInstanceBySysAddr in Hg.
      apply find_ptr_Some in Hg as (i & Hi & HP & Hin).
      apply bool_decide_eq_true in HP. by apply (Hnone l i).
    + by destruct (_ && _).
  - rewrite <- Hses. by destruct (_ && _).
  - rewrite <- Hs. by destruct (_ && _).
  - rewrite <- Hc. by destruct (_ && _).
  - rewrite <- Hpid. by destruct (_ && _).
Qed.

(** *** Private zones *)


(** The private lookup is null exactly when the password belongs to no
    registered instance. *)
Lemma FindPrivateInstance_None password st :
  FindPrivateInstance password st = nullptr ↔
  ∀ l i, Some l ∈ m_Instances st → objects st !! l = Some i →
         privatePassword i ≠ Some password.
Proof.
  unfold FindPrivateInstance, nullptr. rewrite find_ptr_None.
  split; intros H l i Hin Hl; specialize (H l i Hin Hl).
  - by apply bool_decide_eq_false in H.
  - by apply bool_decide_eq_false.
Qed.

(** *** Zone transfer requests *)

Lemma GetInstance_effects mapID0 b cloneID0 st p st1 :
  GetInstance mapID0 b cloneID0 st = (p, st1) →
  ∃ spawned, effects st1 = effects st ++ spawned
             ∧ Forall (λ e, is_spawn e = true) spawned.
Proof.
  unfold GetInstance. destruct (find_ptr _ _ _) as [l|].
  - intros [= <- <-]. exists []. by rewrite app_nil_r.
  - unfold launch, alloc. intros [= <- <-]. simpl. eexists. split; [done|].
    by apply Forall_singleton.
Qed.

Lemma GetInstance_not_null mapID0 b cloneID0 st p st1 :
  GetInstance mapID0 b cloneID0 st = (p, st1) → ∃ l, p = Some l.
Proof.
  unfold GetInstance. destruct (find_ptr _ _ _) as [l|].
  - intros [= <- <-]. by eexists.
  - unfold launch, alloc. intros [= <- <-]. by eexists.
Qed.

(** C1.  [REQUEST_ZONE_TRANSFER]: the handler resolves an instance for
    the zone and the clone.  When that instance is not ready, the request
    [{requestID, mythranShift, requester}] is appended to its
    [pendingRequests] and, apart from the launch of a world server by the
    resolution, nothing is emitted: no message goes to the requester.
    When it is ready, the handler is [RequestAffirmation] on that instance
    with that request. *)
Theorem zone_transfer_request (packet : Packet) (st : Master)
    (requestID0 mythranShift0 zoneID0 zoneClone : Z) :
  data0 packet ≠ ID_DISCONNECTION_NOTIFICATION →
  data0 packet ≠ ID_CONNECTION_LOST →
  data1 packet = MASTER →
  body packet =
    MSG_MASTER_REQUEST_ZONE_TRANSFER requestID0 mythranShift0 zoneID0 zoneClone →
  registry_live st = true →
  let req := mkTransferRequest requestID0 (negb (mythranShift0 =? 0))
               (systemAddress packet) in
  ∃ l st1 i,
    GetInstance (to_u16 zoneID0) false zoneClone st = (Some l, st1)
    ∧ objects st1 !! l = Some i
    ∧ (ready i = false →
       ∃ st' spawned,
         HandlePacket packet st = Some st'
         ∧ objects st' = <[l := push_back_PendingRequest req i]> (objects st1)
         ∧ (pendingRequests <$> objects st' !! l) = Some (pendingRequests i ++ [req])
         ∧ (pendingAffirmations <$> objects st' !! l) = Some (pendingAffirmations i)
         ∧ effects st' = effects st ++ spawned
         ∧ Forall (λ e, is_spawn e = true) spawned)
    ∧ (ready i = true →
       HandlePacket packet st = RequestAffirmation (Some l) req st1
       ∧ ∃ st', RequestAffirmation (Some l) req st1 = Some st'
                ∧ (∃ i', objects st' !! l = Some i' ∧ req ∈ pendingAffirmations i')
                ∧ effects st' =
                    effects st1 ++ [Send (PREP_ZONE (GetMapID i)) (sysAddr i)]).
Proof.
  intros Hd Hl Hm Hbody Hlive req.
  assert (HandlePacket packet st =
          handle_REQUEST_ZONE_TRANSFER packet requestID0 mythranShift0
            zoneID0 zoneClone st) as ->.
  { unfold HandlePacket.
    rewrite (bool_decide_eq_false_2 _ Hd), (bool_decide_eq_false_2 _ Hl). simpl.
    rewrite (bool_decide_eq_true_2 _ Hm). unfold handle_master. by rewrite Hbody. }
  unfold handle_REQUEST_ZONE_TRANSFER.
  destruct (GetInstance _ _ _ _) as [p st1] eqn:Hg.
  destruct (GetInstance_not_null _ _ _ _ _ _ Hg) as [l ->].
  destruct (registry_live_GetInstance _ _ _ _ _ _ Hg Hlive) as [H1 [i Hi]].
  destruct (GetInstance_effects _ _ _ _ _ _ Hg) as (spawned & Heff & Hsp).
  exists l, st1, i. split_and!; [done|done| |].
  - intros Hr. unfold GetInstances.
    destruct (mapM_deref_live st1 H1) as [xs ->]. simpl.
    simpl in Hi. rewrite Hi. simpl. rewrite Hr. simpl.
    eexists _, spawned. split_and!; [done|done| | |done|done].
    + simpl. by rewrite lookup_insert_eq.
    + simpl. by rewrite lookup_insert_eq.
  - intros Hr. unfold GetInstances.
    destruct (mapM_deref_live st1 H1) as [xs ->]. simpl.
    simpl in Hi. rewrite Hi. simpl. rewrite Hr. simpl. split; [done|].
    unfold RequestAffirmation. simpl. rewrite Hi. simpl.
    eexists. split; [done|]. simpl. split; [|done].
    rewrite lookup_insert_eq. eexists. split; [done|]. simpl.
    case_bool_decide; [done|]. apply elem_of_app. right. by left.
Qed.

(** *** [SERVER_INFO] *)

Lemma find_ptr_snoc_fresh P o v l i :
  o !! l = None → P i = true → find_ptr P o v = None →
  find_ptr P (<[l := i]> o) (v ++ [Some l]) = Some l.
Proof.
  intros Hfresh HP. induction v as [|p v IH]; simpl.
  - intros _. rewrite lookup_insert_eq. by rewrite HP.
  - destruct p as [l'|]; simpl; [|done].
    destruct (decide (l = l')) as [<-|Hne].
    + rewrite lookup_insert_eq, HP. done.
    + rewrite lookup_insert_ne by done.
      destruct (o !! l') as [j|]; [|done].
      destruct (P j); [discriminate|done].
Qed.

(** C5.  [SERVER_INFO(port, zoneID, instanceID, serverType, ip)].
    - From a world whose port no registered instance uses: an instance
      constructed from that ip, port, zone and instance id, carrying the
      sender's address, is added at the end of the registry; when no
      instance had this [(zoneID, instanceID)] before, [FindInstance] on
      the pair now returns the new instance.
    - From a world whose port is in use: no instance is added, and the
      only change is the address of the instance [FindInstance] returns
      for the pair, if there is one.
    - From a chat server: the remembered chat peer becomes the sender. *)
Theorem server_info_handling (packet : Packet) (st : Master)
    (theirPort theirZoneID theirInstanceID : Z) (theirServerType : ServerType)
    (theirIP : string) :
  data0 packet ≠ ID_DISCONNECTION_NOTIFICATION →
  data0 packet ≠ ID_CONNECTION_LOST →
  data1 packet = MASTER →
  body packet = MSG_MASTER_SERVER_INFO theirPort theirZoneID theirInstanceID
                  theirServerType theirIP →
  (theirServerType = ServerType_World → IsPortInUse theirPort st = false →
   ∃ l,
     objects st !! l = None
     ∧ HandlePacket packet st =
         Some (set_registry (m_Instances st ++ [Some l])
                 (<[l := SetSysAddr (systemAddress packet)
                           (new_Instance theirIP theirPort theirZoneID
                              theirInstanceID 0 12 12)]> (objects st)) st)
     ∧ (FindInstance (to_u16 theirZoneID) (to_u16 theirInstanceID) st = nullptr →
        ∀ st', HandlePacket packet st = Some st' →
          FindInstance (to_u16 theirZoneID) (to_u16 theirInstanceID) st' = Some l))
  ∧ (theirServerType = ServerType_World → IsPortInUse theirPort st = true →
     match FindInstance (to_u16 theirZoneID) (to_u16 theirInstanceID) st with
     | Some l =>
         ∃ i, objects st !! l = Some i
              ∧ HandlePacket packet st =
                  Some (set_objects
                          (<[l := SetSysAddr (systemAddress packet) i]> (objects st))
                          st)
     | None => HandlePacket packet st = Some st
     end)
  ∧ (theirServerType = ServerType_Chat →
     ∃ st', HandlePacket packet st = Some st'
            ∧ chatServerMasterPeerSysAddr st' = systemAddress packet
            ∧ m_Instances st' = m_Instances st).
Proof.
  intros Hd Hl Hm Hbody.
  assert (HandlePacket packet st =
          handle_SERVER_INFO packet theirPort theirZoneID theirInstanceID
            theirServerType theirIP st) as ->.
  { unfold HandlePacket.
    rewrite (bool_decide_eq_false_2 _ Hd), (bool_decide_eq_false_2 _ Hl). simpl.
    rewrite (bool_decide_eq_true_2 _ Hm). unfold handle_master. by rewrite Hbody. }
  unfold handle_SERVER_INFO.
  assert (mkSystemAddress (binaryAddress (systemAddress packet))
            (sa_port (systemAddress packet)) = systemAddress packet) as ->.
  { by destruct (systemAddress packet). }
  split_and!.
  - intros -> Hport. rewrite Hport. simpl.
    exists (fresh (dom (objects st))). split; [apply fresh_not_live|].
    unfold update. simpl. rewrite lookup_insert_eq. simpl.
    rewrite insert_insert_eq. split; [done|].
    intros Hnone st' [= <-]. unfold FindInstance. simpl.
    apply find_ptr_snoc_fresh; [apply fresh_not_live| |done].
    simpl. by rewrite !bool_decide_eq_true_2.
  - intros -> Hport. rewrite Hport. simpl.
    destruct (FindInstance _ _ _) as [l|] eqn:Hf; [|done].
    apply find_ptr_Some in Hf as (i & Hi & _).
    exists i. split; [done|]. unfold update. simpl. by rewrite Hi.
  - intros ->. simpl.
    destruct (FindInstance _ _ _) as [l|] eqn:Hf.
    + apply find_ptr_Some in Hf as (i & Hi & _).
      unfold update. simpl. rewrite Hi. simpl. by eexists.
    + simpl. by eexists.
Qed.

(** The port test is negative exactly when no registered instance has the
    port. *)
Lemma IsPortInUse_false port0 st :
  IsPortInUse port0 st = false ↔
  ∀ l i, Some l ∈ m_Instances st → objects st !! l = Some i → port i ≠ port0.
Proof.
  unfold IsPortInUse. rewrite bool_decide_eq_false.
  rewrite <- not_eq_None_Some.
  split.
  - intros H l i Hin Hl. apply dec_stable in H.
    rewrite find_ptr_None in H. specialize (H l i Hin Hl).
    by apply bool_decide_eq_false in H.
  - intros H Hn. apply Hn. apply find_ptr_None. intros l i Hin Hl.
    apply bool_decide_eq_false. by eapply H.
Qed.

(** *** Session registry *)

Lemma find_username_None u m :
  find_username u m = None ↔ u ∉ snd <$> m.
Proof.
  induction m as [|[k v] m IH]; simpl.
  - split; [|done]. intros _ H. by apply elem_of_nil in H.
  - destruct (String.eqb_spec v u) as [->|Hne].
    + split; [discriminate|]. intros H. destruct H. by left.
    + rewrite IH, not_elem_of_cons.
      split; [intros H; split; [congruence|done] | by intros [_ H]].
Qed.

Lemma keys_ascending_cons k v m :
  keys_ascending ((k, v) :: m) = true →
  keys_ascending m = true ∧ ∀ e, e ∈ m → k < e.1.
Proof.
  revert k v. induction m as [|[k' v'] m IH]; intros k v; simpl.
  - intros _. split; [done|]. intros e He. by apply elem_of_nil in He.
  - intros H. apply andb_true_iff in H as [Hlt Hasc].
    apply Z.ltb_lt in Hlt. split; [done|].
    destruct (IH k' v' Hasc) as [_ Hall].
    intros e He. apply elem_of_cons in He as [->|He]; [done|].
    specialize (Hall e He). lia.
Qed.

Lemma map_erase_subseteq k0 m e : e ∈ map_erase k0 m → e ∈ m.
Proof.
  induction m as [|[k v] m IH]; simpl; [done|].
  destruct (k =? k0).
  - intros H. by right.
  - intros H. apply elem_of_cons in H as [->|H]; [by left|right; by apply IH].
Qed.

(** Erasing the key of the entry the scan found removes the user. *)
Lemma find_username_erase u m e :
  keys_ascending m = true → NoDup (snd <$> m) →
  find_username u m = Some e →
  e.2 = u ∧ e ∈ m ∧ u ∉ snd <$> map_erase e.1 m.
Proof.
  induction m as [|[k v] m IH]; intros Hasc Hnd; [simpl; discriminate|].
  rewrite fmap_cons in Hnd. apply list.NoDup_cons in Hnd as [Hv Hnd].
  destruct (keys_ascending_cons _ _ _ Hasc) as [Hasc' Hlt].
  simpl. destruct (String.eqb_spec v u) as [->|Hne].
  - intros [= <-]. simpl. rewrite Z.eqb_refl. split_and!; [done|by left|done].
  - intros Hf. destruct (IH Hasc' Hnd Hf) as (He & Hin & Hout).
    split_and!; [done|by right|].
    specialize (Hlt e Hin).
    destruct (k =? e.1) eqn:Hk; [apply Z.eqb_eq in Hk; lia|].
    simpl. rewrite not_elem_of_cons. split; [congruence|done].
Qed.

Lemma filter_user_absent u (m : list (Z * string)) :
  u ∉ snd <$> m → filter (λ e, e.2 = u) m = [].
Proof.
  induction m as [|[k v] m IH]; simpl; [done|].
  rewrite not_elem_of_cons. intros [Hne Hm].
  rewrite filter_cons_False by (simpl; congruence). by apply IH.
Qed.

Lemma map_insert_fresh k u m :
  k ∉ fst <$> m → u ∉ snd <$> m →
  filter (λ e, e.2 = u) (map_insert k u m) = [(k, u)].
Proof.
  induction m as [|[k' v'] m IH]; simpl.
  - intros _ _. by rewrite filter_cons_True.
  - rewrite !not_elem_of_cons. intros [Hk Hkm] [Hu Hum].
    destruct (k <? k').
    + rewrite filter_cons_True by done.
      rewrite filter_cons_False by (simpl; congruence).
      by rewrite filter_user_absent.
    + destruct (k =? k') eqn:Heq; [apply Z.eqb_eq in Heq; congruence|].
      rewrite filter_cons_False by (simpl; congruence). by apply IH.
Qed.

(** When [insert] finds the key taken, the map stays as it is. *)
Lemma map_insert_taken k u v m :
  keys_ascending m = true → (k, v) ∈ m → map_insert k u m = m.
Proof.
  induction m as [|[k' v'] m IH]; intros Hasc Hin.
  - by apply elem_of_nil in Hin.
  - destruct (keys_ascending_cons _ _ _ Hasc) as [Hasc' Hlt]. simpl.
    apply elem_of_cons in Hin as [[= -> ->]|Hin].
    + by rewrite Z.ltb_irrefl, Z.eqb_refl.
    + specialize (Hlt _ Hin). simpl in Hlt.
      destruct (k <? k') eqn:H1; [apply Z.ltb_lt in H1; lia|].
      destruct (k =? k') eqn:H2; [done|]. f_equal. by apply IH.
Qed.

(** What [SET_SESSION_KEY(k, u)] establishes when the key [k] is not held
    by another user: [u] has exactly the entry [(k, u)], and the alert is
    broadcast exactly when [u] had an entry before. *)
Lemma set_session_key_registers (k : Z) (u : string) (st : Master) :
  keys_ascending (activeSessions st) = true →
  NoDup (snd <$> activeSessions st) →
  (∀ v, (k, v) ∈ activeSessions st → v = u) →
  ∃ st',
    handle_SET_SESSION_KEY k u st = Some st'
    ∧ filter (λ e, e.2 = u) (activeSessions st') = [(k, u)]
    ∧ (u ∈ snd <$> activeSessions st →
       effects st' = effects st ++ [Broadcast (NEW_SESSION_ALERT k u)])
    ∧ (u ∉ snd <$> activeSessions st → effects st' = effects st).
Proof.
  intros Hasc Hnd Hkey. unfold handle_SET_SESSION_KEY.
  destruct (find_username u (activeSessions st)) as [e|] eqn:Hf.
  - destruct (find_username_erase _ _ _ Hasc Hnd Hf) as (He & Hin & Hout).
    eexists. split; [done|]. simpl. split_and!.
    + apply map_insert_fresh; [|done].
      intros Hk. apply list_elem_of_fmap in Hk as ([k' v] & -> & Hkv).
      simpl in *. pose proof (map_erase_subseteq _ _ _ Hkv) as Hkv'.
      rewrite (Hkey v Hkv') in Hkv. apply Hout.
      apply list_elem_of_fmap. by exists (k', u).
    + done.
    + intros Hn. apply find_username_None in Hn. congruence.
  - pose proof (proj1 (find_username_None _ _) Hf) as Hn.
    eexists. split; [done|]. simpl. split_and!.
    + apply map_insert_fresh; [|done].
      intros Hk. apply list_elem_of_fmap in Hk as ([k' v] & -> & Hkv).
      simpl in *. rewrite (Hkey v Hkv) in Hkv. apply Hn.
      apply list_elem_of_fmap. by exists (k', u).
    + done.
    + done.
Qed.

(** C3, on the code.  With the session [1 ↦ "alice"] registered,
    [SET_SESSION_KEY(1, "bob")] finds no entry of "bob", so nothing is
    erased or broadcast, and [insert] then finds the key 1 taken: the
    registry is returned as it was and holds no entry for "bob". *)
Theorem set_session_key_collision :
  let st := set_activeSessions [(1, "alice")] master_empty in
  HandlePacket (master_packet client_peer (MSG_MASTER_SET_SESSION_KEY 1 "bob")) st
  = Some st
  ∧ filter (λ e, e.2 = "bob") (activeSessions st) = [].
Proof. split; reflexivity. Qed.

(** *** The universe-shutdown flag is never cleared *)

Lemma update_flag p f st st' :
  update p f st = Some st' → shouldShutdown st' = shouldShutdown st.
Proof. intros H. by apply update_inv in H as (l & i & -> & _ & ->). Qed.

Lemma Shutdown_flag p st st' :
  Shutdown p st = Some st' → shouldShutdown st' = shouldShutdown st.
Proof. unfold Shutdown. intros H. by simplify_option_eq. Qed.

Lemma RequestAffirmation_flag p req st st' :
  RequestAffirmation p req st = Some st' →
  shouldShutdown st' = shouldShutdown st.
Proof.
  unfold RequestAffirmation. intros H.
  destruct (deref p st) as [i|]; simpl in H; [|done].
  by apply update_flag in H.
Qed.

Lemma AffirmTransfer_flag p requestID0 st st' :
  AffirmTransfer p requestID0 st = Some st' →
  shouldShutdown st' = shouldShutdown st.
Proof.
  unfold AffirmTransfer. intros H.
  destruct (deref p st) as [i|]; simpl in H; [|done].
  destruct (List.find _ _); [by apply update_flag in H|by injection H as <-].
Qed.

Lemma GetInstance_flag mapID0 b cloneID0 st :
  shouldShutdown (GetInstance mapID0 b cloneID0 st).2 = shouldShutdown st.
Proof. unfold GetInstance. by destruct (find_ptr _ _ _). Qed.

Lemma submit_flag mapID0 cloneID0 req st st' :
  submit mapID0 cloneID0 req st = Some st' →
  shouldShutdown st' = shouldShutdown st.
Proof.
  unfold submit. pose proof (GetInstance_flag mapID0 false cloneID0 st) as Hg.
  destruct (GetInstance _ _ _ _) as [p st1]. simpl in Hg. intros H.
  destruct (deref p st1) as [i|]; simpl in H; [|done].
  destruct (ready i).
  - apply RequestAffirmation_flag in H. congruence.
  - apply update_flag in H. congruence.
Qed.

Lemma submit_all_flag mapID0 cloneID0 reqs st st' :
  submit_all mapID0 cloneID0 reqs st = Some st' →
  shouldShutdown st' = shouldShutdown st.
Proof.
  revert st. induction reqs as [|req reqs IH]; intros st; simpl.
  - by intros [= <-].
  - destruct (submit _ _ _ _) as [st1|] eqn:Hs; simpl; [|done].
    intros H. apply IH in H. apply submit_flag in Hs. congruence.
Qed.

Lemma RedirectPendingRequests_flag p st st' :
  RedirectPendingRequests p st = Some st' →
  shouldShutdown st' = shouldShutdown st.
Proof.
  unfold RedirectPendingRequests. intros H.
  destruct (deref p st) as [i|]; simpl in H; [|done].
  destruct (update _ _ _) as [st1|] eqn:Hu; simpl in H; [|done].
  apply submit_all_flag in H. apply update_flag in Hu. congruence.
Qed.

Lemma affirm_all_flag p reqs st st' :
  affirm_all p reqs st = Some st' → shouldShutdown st' = shouldShutdown st.
Proof.
  revert st. induction reqs as [|req reqs IH]; intros st; simpl.
  - by intros [= <-].
  - destruct (RequestAffirmation _ _ _) as [st1|] eqn:Hs; simpl; [|done].
    intros H. apply IH in H. apply RequestAffirmation_flag in Hs. congruence.
Qed.

Lemma ReadyInstance_flag p st st' :
  ReadyInstance p st = Some st' → shouldShutdown st' = shouldShutdown st.
Proof.
  unfold ReadyInstance. intros H.
  destruct (deref p st) as [i|]; simpl in H; [|done].
  destruct (update _ _ _) as [st1|] eqn:Hu; simpl in H; [|done].
  apply affirm_all_flag in H. apply update_flag in Hu. congruence.
Qed.

Lemma tick_instance_flag l st st' :
  tick_instance l st = Some st' → shouldShutdown st' = shouldShutdown st.
Proof.
  unfold tick_instance. intros H.
  destruct (objects st !! l) as [i|]; cbn -[update Shutdown] in H; [|done].
  destruct (update _ _ _) as [st1|] eqn:Hu; cbn -[update Shutdown] in H; [|done].
  apply update_flag in Hu. destruct (_ =? 1000).
  - destruct (Shutdown _ _) as [st2|] eqn:Hs; cbn -[update Shutdown] in H; [|done].
    destruct (update _ _ st2) as [st3|] eqn:Hu3; cbn -[update Shutdown] in H; [|done].
    apply RedirectPendingRequests_flag in H.
    apply Shutdown_flag in Hs. apply update_flag in Hu3. congruence.
  - injection H as <-. done.
Qed.

Lemma advance_affirmations_flag instances st st' :
  advance_affirmations instances st = Some st' →
  shouldShutdown st' = shouldShutdown st.
Proof.
  revert st. induction instances as [|[l|] rest IH]; intros st; simpl.
  - by intros [= <-].
  - destruct (tick_instance _ _) as [st1|] eqn:Ht; simpl; [|done].
    intros H. apply IH in H. apply tick_instance_flag in Ht. congruence.
  - by intros [= <-].
Qed.

Lemma RemoveInstance_flag p st :
  shouldShutdown (RemoveInstance p st) = shouldShutdown st.
Proof. by destruct p. Qed.

Lemma remove_dead_flag instances st st' :
  remove_dead instances st = Some st' →
  shouldShutdown st' = shouldShutdown st.
Proof.
  revert st. induction instances as [|[l|] rest IH]; intros st; simpl.
  - by intros [= <-].
  - destruct (objects st !! l) as [i|]; simpl; [|done].
    intros H. apply IH in H. rewrite H. by destruct (shutdownComplete i).
  - by intros [= <-].
Qed.

Lemma on_peer_gone_flag packet st st' :
  on_peer_gone packet st = Some st' → shouldShutdown st' = shouldShutdown st.
Proof.
  unfold on_peer_gone. intros [= <-].
  destruct (GetInstanceBySysAddr _ _); by destruct (_ && _).
Qed.

Lemma find_update_flag P f st st' :
  match find_ptr P (objects st) (m_Instances st) with
  | Some _ => update (find_ptr P (objects st) (m_Instances st)) f st
  | None => Some st
  end = Some st' →
  shouldShutdown st' = shouldShutdown st.
Proof.
  destruct (find_ptr _ _ _); [apply update_flag|by intros [= <-]].
Qed.

Lemma handle_master_flag packet st st' :
  handle_master packet st = Some st' →
  shouldShutdown st = true → shouldShutdown st' = true.
Proof.
  unfold handle_master. intros H Hflag. destruct (body packet).
  - by injection H as <-.
  - unfold handle_REQUEST_ZONE_TRANSFER in H.
    pose proof (GetInstance_flag (to_u16 zoneID0) false zoneClone st) as Hg.
    destruct (GetInstance _ _ _ _) as [p st1]. simpl in Hg.
    destruct (mapM _ _); simpl in H; [|done].
    destruct (deref p st1) as [i|]; simpl in H; [|done].
    destruct (negb (ready i)).
    + apply update_flag in H. congruence.
    + apply RequestAffirmation_flag in H. congruence.
  - unfold handle_SERVER_INFO in H.
    destruct (_ && _).
    + unfold alloc in H. rewrite (update_Some _ _ _ _ (lookup_insert_eq _ _ _)) in H.
      simpl in H. injection H as <-. by destruct (bool_decide _).
    + destruct (FindInstance _ _ _).
      * destruct (update _ _ _) as [st1|] eqn:Hu; simpl in H; [|done].
        apply update_flag in Hu. injection H as <-.
        destruct (bool_decide _); simpl; congruence.
      * simpl in H. injection H as <-. by destruct (bool_decide _).
  - unfold handle_SET_SESSION_KEY in H. injection H as <-.
    by destruct (find_username _ _).
  - unfold handle_REQUEST_SESSION_KEY in H.
    destruct (find_username _ _); by injection H as <-.
  - apply find_update_flag in H. congruence.
  - apply find_update_flag in H. congruence.
  - by injection H as <-.
  - unfold handle_REQUEST_PRIVATE_ZONE in H.
    destruct (FindPrivateInstance _ _) as [l|]; [|by injection H as <-].
    destruct (deref _ _); simpl in H; [|done]. by injection H as <-.
  - unfold handle_WORLD_READY in H.
    destruct (FindInstance _ _ _); [|by injection H as <-].
    apply ReadyInstance_flag in H. congruence.
  - unfold handle_PREP_ZONE in H. injection H as <-.
    by rewrite GetInstance_flag.
  - unfold handle_AFFIRM_TRANSFER_RESPONSE in H.
    destruct (GetInstanceBySysAddr _ _); [|by injection H as <-].
    apply AffirmTransfer_flag in H. congruence.
  - apply find_update_flag in H. congruence.
  - by injection H as <-.
  - unfold handle_SHUTDOWN_INSTANCE in H.
    destruct (FindInstance _ _ _); [|by injection H as <-].
    apply Shutdown_flag in H. congruence.
  - unfold handle_GET_INSTANCES in H.
    destruct (deref _ _); simpl in H; [|done].
    destruct (mapM _ _); simpl in H; [|done]. by injection H as <-.
  - by injection H as <-.
Qed.

Lemma HandlePacket_flag packet st st' :
  HandlePacket packet st = Some st' →
  shouldShutdown st = true → shouldShutdown st' = true.
Proof.
  unfold HandlePacket. intros H Hflag.
  destruct (if bool_decide (data0 packet = ID_DISCONNECTION_NOTIFICATION)
            then _ else _) as [st1|] eqn:H1; simpl in H; [|done].
  destruct (if bool_decide (data0 packet = ID_CONNECTION_LOST)
            then _ else _) as [st2|] eqn:H2; simpl in H; [|done].
  assert (shouldShutdown st1 = true) as Hf1.
  { destruct (bool_decide _); [apply on_peer_gone_flag in H1|injection H1 as <-];
      congruence. }
  assert (shouldShutdown st2 = true) as Hf2.
  { destruct (bool_decide (data0 packet = ID_CONNECTION_LOST));
      [apply on_peer_gone_flag in H2|injection H2 as <-]; congruence. }
  destruct (bool_decide (data1 packet = MASTER)).
  - by eapply handle_master_flag.
  - by injection H as <-.
Qed.

Lemma receive_flag packet st st' :
  receive packet st = Some st' →
  shouldShutdown st = true → shouldShutdown st' = true.
Proof.
  destruct packet as [p|]; simpl.
  - apply HandlePacket_flag.
  - by intros [= <-].
Qed.

(** *** The universe-shutdown deadline *)

(** An iteration that runs with the flag set either leaves the loop, when
    the counter has reached 40000, or counts one more frame. *)
Lemma main_iteration_flagged packet c st st1 step :
  receive packet st = Some st1 → shouldShutdown st1 = true →
  main_iteration packet c st = Some step →
  (40000 ≤ framesSinceKillUniverseCommand c →
   ∃ c' st', step = Break c' st')
  ∧ (framesSinceKillUniverseCommand c < 40000 →
     ∃ c' st', step = Continue c' st'
               ∧ framesSinceKillUniverseCommand c' =
                   framesSinceKillUniverseCommand c + 1
               ∧ shouldShutdown st' = true).
Proof.
  intros Hr Hflag. unfold main_iteration. rewrite Hr. simpl.
  set (st2 := if 900 <=? framesSinceLastFlush c then emit LoggerFlush st1 else st1).
  set (st3 := if 40000 <=? framesSinceLastSQLPing c then emit SqlPing st2 else st2).
  assert (shouldShutdown st3 = true) as Hflag3.
  { subst st3 st2. destruct (_ <=? _); destruct (_ <=? _); done. }
  rewrite Hflag3. simpl. intros H. split.
  - intros Hge. rewrite (proj2 (Z.leb_le _ _) Hge) in H.
    injection H as <-. by eexists _, _.
  - intros Hlt. rewrite (proj2 (Z.leb_gt _ _) Hlt) in H.
    destruct (advance_affirmations _ _) as [st4|] eqn:Ha; simpl in H; [|done].
    destruct (remove_dead _ _) as [st5|] eqn:Hd; simpl in H; [|done].
    injection H as <-. eexists _, _. split_and!; [done|done|].
    apply remove_dead_flag in Hd. apply advance_affirmations_flag in Ha.
    congruence.
Qed.

Lemma run_main_flagged n packets c st r :
  shouldShutdown st = true →
  0 ≤ framesSinceKillUniverseCommand c ≤ 40000 →
  run_main_from n packets c st = Some r →
  ((length packets ≤ Z.to_nat (40000 - framesSinceKillUniverseCommand c))%nat →
   ∃ c' st', r = Running c' st')
  ∧ ((Z.to_nat (40000 - framesSinceKillUniverseCommand c) < length packets)%nat →
     ∃ c' st',
       r = Broke (n + Z.to_N (40000 - framesSinceKillUniverseCommand c)) c' st').
Proof.
  revert n c st r. induction packets as [|packet rest IH]; intros n c st r Hflag Hc.
  - simpl. intros [= <-]. split; [by eexists _, _|lia].
  - simpl. destruct (main_iteration packet c st) as [step|] eqn:Hstep; [|done].
    assert (∃ st1, receive packet st = Some st1) as [st1 Hr].
    { unfold main_iteration in Hstep.
      destruct (receive packet st); [by eexists|done]. }
    pose proof (receive_flag _ _ _ Hr Hflag) as Hflag1.
    destruct (main_iteration_flagged _ _ _ _ _ Hr Hflag1 Hstep) as [Hbreak Hcont].
    destruct (decide (40000 ≤ framesSinceKillUniverseCommand c)) as [Hge|Hlt].
    + destruct (Hbreak Hge) as (c' & st' & ->). intros [= <-].
      replace (Z.to_nat (40000 - framesSinceKillUniverseCommand c)) with 0%nat by lia.
      replace (Z.to_N (40000 - framesSinceKillUniverseCommand c)) with 0%N by lia.
      split; [lia|]. intros _. rewrite N.add_0_r. by eexists _, _.
    + destruct Hcont as (c' & st' & -> & Hc' & Hflag'); [lia|].
      intros Hrest.
      destruct (IH (N.succ n) c' st' r Hflag' ltac:(lia) Hrest) as [Hrun Hbroke].
      replace (Z.to_nat (40000 - framesSinceKillUniverseCommand c))
        with (S (Z.to_nat (40000 - framesSinceKillUniverseCommand c'))) by lia.
      split.
      * intros Hlen. destruct Hrun as (c2 & st2 & ->); [lia|]. by eexists _, _.
      * intros Hlen. destruct Hbroke as (c2 & st2 & ->); [lia|].
        replace (N.succ n + Z.to_N (40000 - framesSinceKillUniverseCommand c'))%N
          with (n + Z.to_N (40000 - framesSinceKillUniverseCommand c))%N by lia.
        by eexists _, _.
Qed.

(** C7.  [SHUTDOWN_UNIVERSE] sets [shouldShutdown] and emits nothing.
    From the iteration that receives it, with the frame counter at 0, the
    control loop completes exactly 40000 iterations and leaves through
    [break] in the next one, whatever packets arrive meanwhile: the
    deadline is a count of iterations, and no input of the loop is a
    clock. *)
Theorem universe_shutdown_deadline (packet : Packet) (rest : list (option Packet))
    (c : LoopCounters) (st : Master) :
  data0 packet ≠ ID_DISCONNECTION_NOTIFICATION →
  data0 packet ≠ ID_CONNECTION_LOST →
  data1 packet = MASTER →
  body packet = MSG_MASTER_SHUTDOWN_UNIVERSE →
  framesSinceKillUniverseCommand c = 0 →
  is_Some (run_main (Some packet :: rest) c st) →
  HandlePacket packet st = Some (set_shouldShutdown true st)
  ∧ ((length rest < Z.to_nat 40000)%nat →
     ∃ c' st', run_main (Some packet :: rest) c st = Some (Running c' st'))
  ∧ ((Z.to_nat 40000 ≤ length rest)%nat →
     ∃ c' st', run_main (Some packet :: rest) c st = Some (Broke 40000 c' st')).
Proof.
  intros Hd Hl Hm Hbody Hc [r Hrun].
  assert (HandlePacket packet st = Some (set_shouldShutdown true st)) as Hh.
  { unfold HandlePacket.
    rewrite (bool_decide_eq_false_2 _ Hd), (bool_decide_eq_false_2 _ Hl). simpl.
    rewrite (bool_decide_eq_true_2 _ Hm). unfold handle_master. by rewrite Hbody. }
  split; [done|]. rewrite Hrun. unfold run_main in Hrun. simpl in Hrun.
  destruct (main_iteration (Some packet) c st) as [step|] eqn:Hstep; [|done].
  destruct (main_iteration_flagged (Some packet) c st _ step Hh eq_refl Hstep)
    as [_ Hcont].
  destruct Hcont as (c1 & st1 & -> & Hc1 & Hflag1); [lia|].
  destruct (run_main_flagged 1 rest c1 st1 r Hflag1 ltac:(lia) Hrun)
    as [Hrunning Hbroke].
  replace (1 + Z.to_N (40000 - framesSinceKillUniverseCommand c1))%N
    with 40000%N in * by lia.
  replace (Z.to_nat (40000 - framesSinceKillUniverseCommand c1))
    with (Z.to_nat 39999) in * by lia.
  split.
  - intros Hlen. destruct Hrunning as (c2 & st2 & ->); [lia|]. by eexists _, _.
  - intros Hlen. destruct Hbroke as (c2 & st2 & ->); [lia|]. by eexists _, _.
Qed.

(** *** The shutdown coordinator *)

Lemma shutdown_all_effects instances st st1 :
  shutdown_all instances st = Some st1 →
  effects st1 = effects st ++ shutdown_notices instances st
  ∧ m_Instances st1 = m_Instances st ∧ objects st1 = objects st
  ∧ currentPersistentID st1 = currentPersistentID st.
Proof.
  revert st. induction instances as [|[l|] rest IH]; intros st; simpl.
  - intros [= <-]. by rewrite app_nil_r.
  - unfold Shutdown. simpl. destruct (objects st !! l) as [i|] eqn:Hi; simpl; [|done].
    intros H. destruct (IH _ H) as (He & Hm & Ho & Hp).
    unfold shutdown_notices in *. simpl.
    rewrite He. simpl. by rewrite <- app_assoc.
  - intros H. destruct (IH _ H) as (He & Hm & Ho & Hp).
    unfold shutdown_notices in *. by simpl.
Qed.

Lemma shutdown_notices_complete instances st l i :
  Some l ∈ instances → objects st !! l = Some i →
  Send SHUTDOWN (sysAddr i) ∈ shutdown_notices instances st.
Proof.
  intros Hin Hi. unfold shutdown_notices. apply list_elem_of_omap.
  exists (Some l). split; [done|]. simpl. by rewrite Hi.
Qed.

(** The drain loop leaves at the first iteration after whose dispatch
    every instance is complete, and otherwise when [ticks] reaches 3600. *)
Lemma drain_loop_exit fuel packets ticks st out :
  0 ≤ ticks < 3600 → (Z.to_nat (3600 - ticks) ≤ fuel)%nat →
  drain_loop fuel packets ticks st = Some out →
  ∃ (n : nat) st',
    (1 ≤ n)%nat ∧ ticks + Z.of_nat n ≤ 3600
    ∧ drain_state n packets st = Some st'
    ∧ (∀ k st_k, (1 ≤ k < n)%nat → drain_state k packets st = Some st_k →
         all_complete (GetInstances st_k) st_k = Some false)
    ∧ ((all_complete (GetInstances st') st' = Some true
        ∧ out = FinishedShuttingDown (ticks + Z.of_nat n - 1) st')
       ∨ (all_complete (GetInstances st') st' = Some false
          ∧ ticks + Z.of_nat n = 3600
          ∧ out = FinishedByTimeout 3600 st')).
Proof.
  revert packets ticks st. induction fuel as [|fuel IH]; intros packets ticks st Ht Hf.
  - lia.
  - simpl.
    destruct (receive (mjoin (head packets)) st) as [st1|] eqn:Hr; simpl; [|done].
    destruct (all_complete (GetInstances st1) st1) as [b|] eqn:Hc; simpl; [|done].
    destruct b.
    + intros [= <-]. exists 1%nat, st1. split_and!; [lia|lia| | |].
      * simpl. by rewrite Hr.
      * intros k st_k Hk. lia.
      * left. split; [done|]. f_equal. lia.
    + destruct (ticks + 1 =? 600 * 6) eqn:Hlast.
      * apply Z.eqb_eq in Hlast. intros [= <-].
        exists 1%nat, st1. split_and!; [lia|lia| | |].
        -- simpl. by rewrite Hr.
        -- intros k st_k Hk. lia.
        -- right. split_and!; [done|lia|]. f_equal. lia.
      * apply Z.eqb_neq in Hlast. intros H.
        destruct (IH (tail packets) (ticks + 1) st1 ltac:(lia) ltac:(lia) H)
          as (n & st' & Hn & Hle & Hst & Hbefore & Hout).
        exists (S n), st'. split_and!; [lia|lia| | |].
        -- simpl. by rewrite Hr.
        -- intros k st_k Hk. destruct k as [|k]; [lia|]. simpl. rewrite Hr. simpl.
           destruct k as [|k].
           ++ simpl. by intros [= <-].
           ++ intros Hk'. apply (Hbefore (S k)); [lia|done].
        -- destruct Hout as [[Hd ->]|(Hd & Hlast' & ->)].
           ++ left. split; [done|]. f_equal. lia.
           ++ right. split_and!; [done|lia|done].
Qed.

Lemma ShutdownSequence_first_call fuel packets st :
  ShutdownSequence false true true fuel packets st =
  st1 ← shutdown_all (GetInstances st) st;
  drain_loop fuel packets 0 (ObjectIDManager_SaveToDatabase st1).
Proof. reflexivity. Qed.

(** The coordinator with any fuel that covers the 3600 drain ticks. *)
Lemma shutdown_sequence_fuel (fuel : nat) (packets : list (option Packet))
    (st : Master) :
  (Z.to_nat 3600 ≤ fuel)%nat →
  is_Some (ShutdownSequence false true true fuel packets st) →
  ∃ st2 (n : nat) st' out,
    ShutdownSequence false true true fuel packets st = Some out
    ∧ effects st2 =
        effects st ++ shutdown_notices (GetInstances st) st
          ++ [SaveToDatabase (currentPersistentID st)]
    ∧ (∀ l i, Some l ∈ m_Instances st → objects st !! l = Some i →
         Send SHUTDOWN (sysAddr i) ∈ effects st2)
    ∧ m_Instances st2 = m_Instances st ∧ objects st2 = objects st
    ∧ 1 ≤ Z.of_nat n ≤ 3600
    ∧ drain_state n packets st2 = Some st'
    ∧ (∀ k st_k, (1 ≤ k < n)%nat → drain_state k packets st2 = Some st_k →
         all_complete (GetInstances st_k) st_k = Some false)
    ∧ ((all_complete (GetInstances st') st' = Some true
        ∧ out = FinishedShuttingDown (Z.of_nat n - 1) st')
       ∨ (all_complete (GetInstances st') st' = Some false
          ∧ Z.of_nat n = 3600
          ∧ out = FinishedByTimeout 3600 st')).
Proof.
  intros Hfuel. rewrite ShutdownSequence_first_call. intros [out Hout].
  destruct (shutdown_all (GetInstances st) st) as [st1|] eqn:Hs; [|done].
  simpl in Hout. simpl.
  destruct (shutdown_all_effects _ _ _ Hs) as (He & Hm & Ho & Hp).
  destruct (drain_loop_exit fuel packets 0 _ out ltac:(lia) ltac:(lia) Hout)
    as (n & st' & Hn & Hle & Hst & Hbefore & Hexit).
  exists (ObjectIDManager_SaveToDatabase st1), n, st', out.
  split_and!.
  - exact Hout.
  - simpl. rewrite He, Hp. by rewrite <- app_assoc.
  - intros l i Hin Hi. simpl. rewrite He.
    apply elem_of_app. left. apply elem_of_app. right.
    by apply (shutdown_notices_complete _ _ l).
  - exact Hm.
  - exact Ho.
  - lia.
  - lia.
  - exact Hst.
  - exact Hbefore.
  - destruct Hexit as [[Hd ->]|(Hd & Hlast & ->)].
    + left. split; [done|]. f_equal.
    + right. split_and!; [done|lia|done].
Qed.

(** C6.  Once the coordinator starts (first call, instance manager and
    id allocator in place), it sends [Shutdown] to every instance of the
    registry, then saves the persistent-id high-water mark, and then
    drains: each iteration receives and dispatches a packet, and the loop
    ends with the first iteration that finds every remaining instance
    complete, or with the 3600th iteration, whichever comes first. *)
Theorem shutdown_sequence_drain (packets : list (option Packet)) (st : Master) :
  is_Some (ShutdownSequence false true true 3600 packets st) →
  ∃ st2 (n : nat) st' out,
    ShutdownSequence false true true 3600 packets st = Some out
    ∧ effects st2 =
        effects st ++ shutdown_notices (GetInstances st) st
          ++ [SaveToDatabase (currentPersistentID st)]
    ∧ (∀ l i, Some l ∈ m_Instances st → objects st !! l = Some i →
         Send SHUTDOWN (sysAddr i) ∈ effects st2)
    ∧ m_Instances st2 = m_Instances st ∧ objects st2 = objects st
    ∧ (1 ≤ n ≤ 3600)%nat
    ∧ drain_state n packets st2 = Some st'
    ∧ (∀ k st_k, (1 ≤ k < n)%nat → drain_state k packets st2 = Some st_k →
         all_complete (GetInstances st_k) st_k = Some false)
    ∧ ((all_complete (GetInstances st') st' = Some true
        ∧ out = FinishedShuttingDown (Z.of_nat n - 1) st')
       ∨ (all_complete (GetInstances st') st' = Some false
          ∧ n = 3600%nat
          ∧ out = FinishedByTimeout 3600 st')).
Proof.
  intros Hsome.
  destruct (shutdown_sequence_fuel 3600 packets st) as
    (st2 & n & st' & out & H1 & H2 & H3 & H4 & H5 & H6 & H7 & H8 & H9);
    [lia | exact Hsome |].
  exists st2, n, st', out.
  split_and!; [exact H1|exact H2|exact H3|exact H4|exact H5|lia|lia|exact H7|exact H8|].
  destruct H9 as [H9|(Ha & Hb & Hc)]; [by left|right].
  split_and!; [exact Ha|lia|exact Hc].
Qed.

(** *** What the operations leave alone *)

Lemma frame_refl l st : frame l st st.
Proof.
  split_and!; [exists []; by rewrite app_nil_r|done|].
  intros i Hi. by exists i.
Qed.

Lemma frame_trans l st1 st2 st3 :
  frame l st1 st2 → frame l st2 st3 → frame l st1 st3.
Proof.
  intros ([m1 He1] & Hr1 & H1) ([m2 He2] & Hr2 & H2). split_and!.
  - exists (m1 ++ m2). by rewrite He2, He1, app_assoc.
  - auto.
  - intros i Hi. destruct (H1 i Hi) as (i2 & Hi2 & Ht & Hs & Ha & Hz & Hp & Hq).
    destruct (H2 i2 Hi2) as (i3 & Hi3 & Ht' & Hs' & Ha' & Hz' & Hp' & Hq').
    exists i3. split_and!; [done|congruence|congruence|congruence|congruence|auto|auto].
Qed.

Lemma frame_emit l e st : frame l st (emit e st).
Proof. split_and!; [by exists [e]|done|]. intros i Hi. by exists i. Qed.

Lemma frame_update_other l p f st st' :
  p ≠ Some l → update p f st = Some st' → frame l st st'.
Proof.
  intros Hne Hu. apply update_inv in Hu as (l0 & i0 & -> & Hl0 & ->).
  split_and!; [exists []; by rewrite app_nil_r|done|].
  intros i Hi. exists i. simpl.
  rewrite lookup_insert_ne by congruence. done.
Qed.

Lemma frame_update_quiet l p f st st' :
  quiet f → update p f st = Some st' → frame l st st'.
Proof.
  intros Hq Hu. destruct (decide (p = Some l)) as [->|Hne];
    [|by eapply frame_update_other].
  apply update_inv in Hu as (l0 & i0 & [= <-] & Hl0 & ->).
  split_and!; [exists []; by rewrite app_nil_r|done|].
  intros i Hi. assert (i0 = i) as -> by congruence.
  exists (f i). simpl. rewrite lookup_insert_eq.
  destruct (Hq i) as (? & ? & ? & ? & ? & ?). done.
Qed.

Lemma quiet_add_affirmation req : quiet (add_affirmation req).
Proof.
  intros i. unfold add_affirmation. simpl. split_and!; try done.
  intros r Hr. case_bool_decide; [done|]. apply elem_of_app. by left.
Qed.

Lemma quiet_push_back req : quiet (push_back_PendingRequest req).
Proof.
  intros i. simpl. split_and!; try done.
  intros r Hr. apply elem_of_app. by left.
Qed.

Lemma frame_launch l mapID0 cloneID0 pw st :
  frame l st (launch mapID0 cloneID0 pw st).2.
Proof.
  unfold launch, alloc. simpl. split_and!; [by eexists| |].
  - intros p Hp. apply elem_of_app. by left.
  - intros i Hi. exists i. simpl. split; [|done].
    rewrite lookup_insert_ne; [done|].
    intros Heq. pose proof (fresh_not_live st) as Hf. congruence.
Qed.

Lemma frame_GetInstance l mapID0 b cloneID0 st :
  frame l st (GetInstance mapID0 b cloneID0 st).2.
Proof.
  unfold GetInstance. destruct (find_ptr _ _ _); [apply frame_refl|apply frame_launch].
Qed.

Lemma frame_Shutdown l p st st' : Shutdown p st = Some st' → frame l st st'.
Proof.
  unfold Shutdown. destruct (deref p st); simpl; [|done].
  intros [= <-]. apply frame_emit.
Qed.

Lemma frame_RequestAffirmation l p req st st' :
  RequestAffirmation p req st = Some st' → frame l st st'.
Proof.
  unfold RequestAffirmation. destruct (deref p st) as [i|]; simpl; [|done].
  intros Hu. eapply frame_trans; [apply frame_emit|].
  eapply frame_update_quiet; [apply quiet_add_affirmation|done].
Qed.

Lemma frame_submit l mapID0 cloneID0 req st st' :
  submit mapID0 cloneID0 req st = Some st' → frame l st st'.
Proof.
  unfold submit. pose proof (frame_GetInstance l mapID0 false cloneID0 st) as Hg.
  destruct (GetInstance _ _ _ _) as [p st1]. simpl in Hg.
  destruct (deref p st1) as [i|]; simpl; [|done].
  destruct (ready i); intros H; (eapply frame_trans; [exact Hg|]).
  - by eapply frame_RequestAffirmation.
  - eapply frame_update_quiet; [apply quiet_push_back|done].
Qed.

Lemma frame_submit_all l mapID0 cloneID0 reqs st st' :
  submit_all mapID0 cloneID0 reqs st = Some st' → frame l st st'.
Proof.
  revert st. induction reqs as [|req reqs IH]; intros st; simpl.
  - intros [= <-]. apply frame_refl.
  - destruct (submit _ _ _ _) as [st1|] eqn:Hs; simpl; [|done].
    intros H. eapply frame_trans; [by eapply frame_submit|by apply IH].
Qed.

Lemma frame_affirm_all l p reqs st st' :
  affirm_all p reqs st = Some st' → frame l st st'.
Proof.
  revert st. induction reqs as [|req reqs IH]; intros st; simpl.
  - intros [= <-]. apply frame_refl.
  - destruct (RequestAffirmation _ _ _) as [st1|] eqn:Hs; simpl; [|done].
    intros H. eapply frame_trans; [by eapply frame_RequestAffirmation|by apply IH].
Qed.

(** The visit of another instance. *)
Lemma frame_tick_other l l' st st' :
  l' ≠ l → tick_instance l' st = Some st' → frame l st st'.
Proof.
  intros Hne. unfold tick_instance.
  destruct (objects st !! l') as [i|]; cbn -[update Shutdown]; [|done].
  destruct (update _ _ _) as [st1|] eqn:Hu; cbn -[update Shutdown]; [|done].
  assert (frame l st st1) as H1.
  { eapply frame_update_other; [|done]. congruence. }
  destruct (_ =? 1000).
  - destruct (Shutdown _ _) as [st2|] eqn:Hs; cbn -[update Shutdown]; [|done].
    destruct (update _ _ st2) as [st3|] eqn:Hu3; cbn -[update Shutdown]; [|done].
    unfold RedirectPendingRequests.
    cbn -[update]. destruct (objects st3 !! l') as [i3|]; cbn -[update]; [|done].
    destruct (update _ _ st3) as [st4|] eqn:Hu4; cbn -[update]; [|done].
    intros H.
    eapply frame_trans; [exact H1|].
    eapply frame_trans; [by eapply frame_Shutdown|].
    eapply frame_trans; [eapply frame_update_other; [|done]; congruence|].
    eapply frame_trans; [eapply frame_update_other; [|done]; congruence|].
    by eapply frame_submit_all.
  - by intros [= <-].
Qed.

(** *** Redirection *)

Lemma held_elsewhere_frame l m req st st' :
  held_elsewhere l m req st → (∀ l', frame l' st st') →
  held_elsewhere l m req st'.
Proof.
  intros (l' & i' & Hne & Hin & Hi & Hm & Hreq) Hf.
  destruct (Hf l') as (_ & Hreg & Hobj).
  destruct (Hobj i' Hi) as (j & Hj & _ & _ & _ & Hz & Hpa & Hpr).
  exists l', j. split_and!; [done|by apply Hreg|done| |].
  - unfold GetMapID. by rewrite Hz.
  - destruct Hreq; [left; by apply Hpr|right; by apply Hpa].
Qed.

Lemma GetInstance_resolves l i0 m c st p st1 :
  objects st !! l = Some i0 → shuttingDown i0 = true → to_u16 m = m →
  GetInstance m false c st = (p, st1) →
  ∃ l' i', p = Some l' ∧ l' ≠ l ∧ Some l' ∈ m_Instances st1
           ∧ objects st1 !! l' = Some i' ∧ GetMapID i' = m
           ∧ shuttingDown i' = false.
Proof.
  intros Hl Hs Hm16. unfold GetInstance.
  destruct (find_ptr _ _ _) as [l'|] eqn:Hf.
  - intros [= <- <-]. apply find_ptr_Some in Hf as (i' & Hi' & HP & Hin).
    unfold is_available in HP.
    apply andb_true_iff in HP as [HP _]. apply andb_true_iff in HP as [HP Hm].
    apply andb_true_iff in HP as [Hsd _].
    apply bool_decide_eq_true in Hm. apply negb_true_iff in Hsd.
    exists l', i'. split_and!; try done. intros ->. congruence.
  - unfold launch, alloc. intros [= <- <-].
    eexists _, _. split_and!; [done| | | | |].
    + intros Heq. pose proof (fresh_not_live st) as Hf'. congruence.
    + simpl. apply elem_of_app. right. by left.
    + simpl. apply lookup_insert_eq.
    + done.
    + done.
Qed.

Lemma submit_places l i0 m c req st :
  objects st !! l = Some i0 → shuttingDown i0 = true → to_u16 m = m →
  ∃ st', submit m c req st = Some st' ∧ held_elsewhere l m req st'.
Proof.
  intros Hl Hs Hm16. unfold submit.
  destruct (GetInstance m false c st) as [p st1] eqn:Hg.
  destruct (GetInstance_resolves _ _ _ _ _ _ _ Hl Hs Hm16 Hg)
    as (l' & i' & -> & Hne & Hin & Hi' & Hm & _).
  simpl. rewrite Hi'. simpl. destruct (ready i').
  - unfold RequestAffirmation. simpl. rewrite ?Hi'. simpl.
    unfold update. simpl. rewrite ?Hi'. simpl.
    eexists. split; [done|]. exists l', (add_affirmation req i').
    simpl. rewrite lookup_insert_eq. split_and!; try done.
    right. case_bool_decide; [done|]. apply elem_of_app. right. by left.
  - unfold update. simpl. rewrite ?Hi'. simpl.
    eexists. split; [done|]. exists l', (push_back_PendingRequest req i').
    simpl. rewrite lookup_insert_eq. split_and!; try done.
    left. apply elem_of_app. right. by left.
Qed.

Lemma submit_all_places l i0 m c reqs st :
  objects st !! l = Some i0 → shuttingDown i0 = true → to_u16 m = m →
  ∃ st', submit_all m c reqs st = Some st'
         ∧ frame l st st'
         ∧ ∀ req, req ∈ reqs → held_elsewhere l m req st'.
Proof.
  intros Hl Hs Hm16. revert st i0 Hl Hs.
  induction reqs as [|req reqs IH]; intros st i0 Hl Hs; simpl.
  - exists st. split_and!; [done|apply frame_refl|].
    intros req Hreq. by apply elem_of_nil in Hreq.
  - destruct (submit_places l i0 m c req st Hl Hs Hm16) as (st1 & Hs1 & Hheld).
    rewrite Hs1. simpl.
    pose proof (frame_submit l _ _ _ _ _ Hs1) as Hf1.
    destruct Hf1 as (He & Hr & Ho).
    destruct (Ho i0 Hl) as (i1 & Hl1 & _ & Hsd & _).
    destruct (IH st1 i1 Hl1 ltac:(congruence)) as (st' & Hall & Hf & Hrest).
    exists st'. split_and!; [done| |].
    + eapply frame_trans; [|exact Hf]. by eapply frame_submit.
    + intros r Hr'. apply elem_of_cons in Hr' as [->|Hr'].
      * eapply held_elsewhere_frame; [done|].
        intros l'. by eapply frame_submit_all.
      * by apply Hrest.
Qed.

(** One visit of the affirmation loop. *)
Lemma tick_instance_visit l st i :
  objects st !! l = Some i →
  to_u16 (GetMapID i) = GetMapID i →
  let t := if bool_decide (pendingAffirmations i ≠ [])
           then to_u32 (affirmationTimeout i + 1) else 0 in
  ∃ st',
    tick_instance l st = Some st'
    ∧ (t ≠ 1000 →
       st' = set_objects (<[l := SetAffirmationTimeout t i]> (objects st)) st)
    ∧ (t = 1000 →
       (∃ more, effects st' = effects st ++ Send SHUTDOWN (sysAddr i) :: more)
       ∧ (∃ i', objects st' !! l = Some i'
                ∧ affirmationTimeout i' = 1000
                ∧ shuttingDown i' = true
                ∧ sysAddr i' = sysAddr i)
       ∧ ∀ req, req ∈ pendingAffirmations i ++ pendingRequests i →
           held_elsewhere l (GetMapID i) req st').
Proof.
  intros Hi Hm16 t. unfold tick_instance. rewrite Hi. cbn -[update Shutdown].
  fold t. rewrite (update_Some _ _ _ _ Hi). cbn -[update Shutdown].
  destruct (t =? 1000) eqn:Ht.
  - apply Z.eqb_eq in Ht.
    unfold Shutdown, RedirectPendingRequests, update. simpl.
    repeat (rewrite lookup_insert_eq; simpl).
    match goal with
    | |- ∃ st', submit_all _ _ _ ?s = Some st' ∧ _ =>
        destruct (submit_all_places l
                    (SetPendingRequests [] (SetPendingAffirmations []
                       (SetIsShuttingDown true (SetAffirmationTimeout t i))))
                    (GetMapID i) (GetCloneID i)
                    (pendingAffirmations i ++ pendingRequests i) s)
          as (st' & Hall & Hf & Hheld);
          [apply lookup_insert_eq|done..|]
    end.
    exists st'. split_and!; [done|congruence|].
    intros _. split_and!; [| |done].
    + destruct Hf as ([more Hmore] & _ & _).
      exists more. rewrite Hmore. simpl. by rewrite <- app_assoc.
    + destruct Hf as (_ & _ & Ho).
      destruct (Ho _ (lookup_insert_eq _ _ _)) as (i' & Hi' & Ht' & Hs' & Ha' & _).
      simpl in Ht', Hs', Ha'. exists i'. split_and!; [done|congruence|done|done].
  - apply Z.eqb_neq in Ht. eexists. split_and!; [done|done|done].
Qed.

(** *** The affirmation loop over the registry *)

Lemma good_frame l st st' : good l st → frame l st st' → good l st'.
Proof.
  intros (i & Hi & Hm) (_ & _ & Ho).
  destruct (Ho i Hi) as (i' & Hi' & _ & _ & _ & Hz & _).
  exists i'. split; [done|]. unfold GetMapID in *. by rewrite Hz.
Qed.

Lemma well_formed_spec st :
  well_formed st = true →
  ∃ ls, m_Instances st = Some <$> ls ∧ NoDup ls ∧ ∀ l, l ∈ ls → good l st.
Proof.
  unfold well_formed. intros H. apply andb_true_iff in H as [Hall Hnd].
  apply bool_decide_eq_true in Hnd. rewrite forallb_forall in Hall.
  revert Hall Hnd. generalize (m_Instances st). intros v.
  induction v as [|p v IH]; intros Hall Hnd.
  - exists []. split_and!; [done|constructor|]. intros l Hl. by apply elem_of_nil in Hl.
  - apply list.NoDup_cons in Hnd as [Hp Hnd].
    destruct IH as (ls & -> & Hls & Hgood); [|done|].
    { intros q Hq. apply Hall. by right. }
    pose proof (Hall p (or_introl eq_refl)) as Hp'.
    destruct p as [l|]; [|done]. simpl in Hp'.
    destruct (objects st !! l) as [i|] eqn:Hi; [|done].
    apply Z.eqb_eq in Hp'.
    exists (l :: ls). split_and!.
    + done.
    + apply list.NoDup_cons. split; [|done].
      intros Hin. apply Hp. apply list_elem_of_fmap. by exists l.
    + intros l' Hl'. apply elem_of_cons in Hl' as [->|Hl']; [by exists i|by apply Hgood].
Qed.

(** The loop is defined on a registry in good order, and leaves alone
    every instance it does not visit. *)
Lemma advance_affirmations_others ls st :
  NoDup ls → (∀ l, l ∈ ls → good l st) →
  ∃ st', advance_affirmations (Some <$> ls) st = Some st'
         ∧ ∀ l, l ∉ ls → frame l st st'.
Proof.
  revert st. induction ls as [|l0 rest IH]; intros st Hnd Hgood; simpl.
  - exists st. split; [done|]. intros l _. apply frame_refl.
  - apply list.NoDup_cons in Hnd as [Hl0 Hnd].
    destruct (Hgood l0) as (i0 & Hi0 & Hm0); [by left|].
    destruct (tick_instance_visit l0 st i0 Hi0 Hm0) as (st1 & Ht & _).
    rewrite Ht. simpl.
    destruct (IH st1 Hnd) as (st' & Hadv & Hframe).
    { intros l Hl. eapply good_frame; [apply Hgood; by right|].
      eapply frame_tick_other; [|done]. intros ->. done. }
    exists st'. split; [done|]. intros l Hl. apply not_elem_of_cons in Hl as [Hne Hl].
    eapply frame_trans; [by eapply frame_tick_other|by apply Hframe].
Qed.

(** Each instance of the registry is visited once in a tick: up to its
    visit and after it, the loop leaves it alone. *)
Lemma advance_affirmations_visit ls st l :
  NoDup ls → l ∈ ls → (∀ l', l' ∈ ls → good l' st) →
  ∃ pre post st',
    advance_affirmations (Some <$> ls) st = Some st'
    ∧ frame l st pre ∧ tick_instance l pre = Some post ∧ frame l post st'.
Proof.
  revert st. induction ls as [|l0 rest IH]; intros st Hnd Hin Hgood.
  - by apply elem_of_nil in Hin.
  - apply list.NoDup_cons in Hnd as [Hl0 Hnd]. simpl.
    destruct (Hgood l0) as (i0 & Hi0 & Hm0); [by left|].
    destruct (tick_instance_visit l0 st i0 Hi0 Hm0) as (st1 & Ht & _).
    rewrite Ht. simpl.
    assert (∀ l', l' ∈ rest → good l' st1) as Hgood1.
    { intros l' Hl'. eapply good_frame; [apply Hgood; by right|].
      eapply frame_tick_other; [|done]. intros ->. done. }
    destruct (decide (l0 = l)) as [->|Hne].
    + destruct (advance_affirmations_others rest st1 Hnd Hgood1)
        as (st' & Hadv & Hframe).
      exists st, st1, st'. split_and!; [done|apply frame_refl|done|by apply Hframe].
    + apply elem_of_cons in Hin as [->|Hin]; [done|].
      destruct (IH st1 Hnd Hin Hgood1) as (pre & post & st' & Hadv & Hf1 & Hv & Hf2).
      exists pre, post, st'. split_and!; [done| |done|done].
      eapply frame_trans; [by eapply frame_tick_other|done].
Qed.

(** What one tick does to the counter of a registered instance. *)
Lemma tick_counter st l i :
  well_formed st = true → Some l ∈ m_Instances st → objects st !! l = Some i →
  ∃ st' i',
    advance_affirmations (GetInstances st) st = Some st'
    ∧ objects st' !! l = Some i'
    ∧ sysAddr i' = sysAddr i
    ∧ (pendingAffirmations i ≠ [] →
       affirmationTimeout i' = to_u32 (affirmationTimeout i + 1))
    ∧ (affirmationTimeout i' = 0
       ∨ affirmationTimeout i' = to_u32 (affirmationTimeout i + 1))
    ∧ (affirmationTimeout i' = 1000 →
       shuttingDown i' = true ∧ Send SHUTDOWN (sysAddr i) ∈ effects st')
    ∧ (affirmationTimeout i' ≠ 1000 → shuttingDown i' = shuttingDown i).
Proof.
  intros Hwf Hin Hi. destruct (well_formed_spec st Hwf) as (ls & Hreg & Hnd & Hgood).
  unfold GetInstances. rewrite Hreg in *.
  apply list_elem_of_fmap in Hin as (l' & [= <-] & Hin).
  destruct (advance_affirmations_visit ls st l Hnd Hin Hgood)
    as (pre & post & st' & Hadv & Hf1 & Hv & Hf2).
  destruct Hf1 as (_ & _ & Ho1).
  destruct (Ho1 i Hi) as (ipre & Hipre & Htpre & Hspre & Hapre & Hzpre & Hpa & _).
  assert (to_u16 (GetMapID ipre) = GetMapID ipre) as Hm16.
  { destruct (Hgood l Hin) as (i0 & Hi0 & Hm0).
    assert (i0 = i) as -> by congruence. unfold GetMapID in *. by rewrite Hzpre. }
  destruct (tick_instance_visit l pre ipre Hipre Hm16) as (post' & Hv' & Hquiet & Hfire).
  assert (post' = post) as -> by congruence.
  set (t := if bool_decide (pendingAffirmations ipre ≠ [])
            then to_u32 (affirmationTimeout ipre + 1) else 0) in *.
  assert (∃ ipost, objects post !! l = Some ipost
                   ∧ affirmationTimeout ipost = t
                   ∧ sysAddr ipost = sysAddr i
                   ∧ (t = 1000 → shuttingDown ipost = true
                                 ∧ Send SHUTDOWN (sysAddr i) ∈ effects post)
                   ∧ (t ≠ 1000 → shuttingDown ipost = shuttingDown i))
    as (ipost & Hipost & Htpost & Hapost & Hfired & Hnot).
  { destruct (decide (t = 1000)) as [Heq|Hne].
    - destruct (Hfire Heq) as ([more Hmore] & (i' & Hi' & Ht' & Hs' & Ha') & _).
      exists i'. split_and!; [done|congruence|congruence| |done].
      intros _. split; [done|]. rewrite Hmore, Hapre.
      apply elem_of_app. right. by left.
    - rewrite (Hquiet Hne). simpl. rewrite lookup_insert_eq.
      eexists. split_and!; [done|done|done|done|]. intros _. by simpl. }
  destruct Hf2 as ([more Hmore] & _ & Ho2).
  destruct (Ho2 ipost Hipost) as (i' & Hi' & Ht' & Hs' & Ha' & _).
  exists st', i'. split_and!; [done|done|congruence| | | |].
  - intros Hne. rewrite Ht', Htpost. subst t.
    rewrite bool_decide_eq_true_2; [by rewrite Htpre|].
    destruct (pendingAffirmations i) as [|r q] eqn:Hq; [done|].
    intros Hnil. specialize (Hpa r (list_elem_of_here _ _)).
    rewrite Hnil in Hpa. by apply elem_of_nil in Hpa.
  - rewrite Ht', Htpost. subst t. case_bool_decide; [right; by rewrite Htpre|by left].
  - intros H1000. rewrite Ht', Htpost in H1000.
    destruct (Hfired H1000) as [Hsd Hsent]. split; [congruence|].
    rewrite Hmore. apply elem_of_app. by left.
  - intros H1000. rewrite Ht', Htpost in H1000. rewrite Hs'. by apply Hnot.
Qed.

(** *** The counter between two ticks *)

Lemma carries_refl l st : carries l st st.
Proof. intros i Hi. by exists i. Qed.

Lemma carries_trans l st1 st2 st3 :
  carries l st1 st2 → carries l st2 st3 → carries l st1 st3.
Proof.
  intros H1 H2 i Hi. destruct (H1 i Hi) as (i2 & Hi2 & Ht).
  destruct (H2 i2 Hi2) as (i3 & Hi3 & Ht'). exists i3. split; [done|congruence].
Qed.

Lemma carries_frame l st st' : frame l st st' → carries l st st'.
Proof.
  intros (_ & _ & Ho) i Hi. destruct (Ho i Hi) as (i' & Hi' & Ht & _).
  by exists i'.
Qed.

Lemma carries_same_objects l st st' :
  objects st' = objects st → carries l st st'.
Proof. intros Ho i Hi. exists i. by rewrite Ho. Qed.

Lemma carries_update l p f st st' :
  (∀ i, affirmationTimeout (f i) = affirmationTimeout i) →
  update p f st = Some st' → carries l st st'.
Proof.
  intros Hf Hu. apply update_inv in Hu as (l0 & i0 & -> & Hl0 & ->).
  intros i Hi. simpl. destruct (decide (l0 = l)) as [->|Hne].
  - rewrite lookup_insert_eq. eexists. split; [done|].
    rewrite Hf. congruence.
  - rewrite lookup_insert_ne by done. by exists i.
Qed.

Lemma carries_find_update l P f st st' :
  (∀ i, affirmationTimeout (f i) = affirmationTimeout i) →
  match find_ptr P (objects st) (m_Instances st) with
  | Some _ => update (find_ptr P (objects st) (m_Instances st)) f st
  | None => Some st
  end = Some st' →
  carries l st st'.
Proof.
  intros Hf. destruct (find_ptr _ _ _).
  - by apply carries_update.
  - intros [= <-]. apply carries_refl.
Qed.

Lemma handle_master_carries l packet st st' :
  handle_master packet st = Some st' → carries l st st'.
Proof.
  unfold handle_master. intros H. destruct (body packet).
  - injection H as <-. by apply carries_same_objects.
  - unfold handle_REQUEST_ZONE_TRANSFER in H.
    pose proof (frame_GetInstance l (to_u16 zoneID0) false zoneClone st) as Hg.
    destruct (GetInstance _ _ _ _) as [p st1]. simpl in Hg.
    destruct (mapM _ _); simpl in H; [|done].
    destruct (deref p st1) as [i|]; simpl in H; [|done].
    apply carries_frame. eapply frame_trans; [exact Hg|].
    destruct (negb (ready i)).
    + eapply frame_update_quiet; [apply quiet_push_back|done].
    + by eapply frame_RequestAffirmation.
  - unfold handle_SERVER_INFO in H. destruct (_ && _).
    + unfold alloc in H.
      rewrite (update_Some _ _ _ _ (lookup_insert_eq _ _ _)) in H.
      simpl in H. injection H as <-.
      intros i Hi. exists i. split; [|done].
      assert (fresh (dom (objects st)) ≠ l) as Hne.
      { intros Heq. pose proof (fresh_not_live st) as Hf. congruence. }
      destruct (bool_decide _); simpl; by rewrite !lookup_insert_ne.
    + destruct (FindInstance _ _ _).
      * destruct (update _ _ _) as [st1|] eqn:Hu; simpl in H; [|done].
        injection H as <-. eapply carries_trans.
        -- eapply carries_update; [|done]. done.
        -- apply carries_same_objects. by destruct (bool_decide _).
      * simpl in H. injection H as <-.
        apply carries_same_objects. by destruct (bool_decide _).
  - unfold handle_SET_SESSION_KEY in H. injection H as <-.
    apply carries_same_objects. by destruct (find_username _ _).
  - unfold handle_REQUEST_SESSION_KEY in H.
    destruct (find_username _ _); injection H as <-; by apply carries_same_objects.
  - eapply carries_find_update; [|done]. done.
  - eapply carries_find_update; [|done]. done.
  - injection H as <-. apply carries_frame. apply frame_launch.
  - unfold handle_REQUEST_PRIVATE_ZONE in H.
    destruct (FindPrivateInstance _ _) as [l0|];
      [|injection H as <-; apply carries_refl].
    destruct (deref _ _); simpl in H; [|done].
    injection H as <-. by apply carries_same_objects.
  - unfold handle_WORLD_READY in H.
    destruct (FindInstance _ _ _); [|injection H as <-; apply carries_refl].
    unfold ReadyInstance in H.
    destruct (deref _ _) as [i|]; cbn -[update] in H; [|done].
    destruct (update _ _ _) as [st1|] eqn:Hu; cbn -[update] in H; [|done].
    eapply carries_trans; [eapply carries_update; [|done]; done|].
    apply carries_frame. by eapply frame_affirm_all.
  - unfold handle_PREP_ZONE in H. injection H as <-.
    apply carries_frame. apply frame_GetInstance.
  - unfold handle_AFFIRM_TRANSFER_RESPONSE in H.
    destruct (GetInstanceBySysAddr _ _); [|injection H as <-; apply carries_refl].
    unfold AffirmTransfer in H.
    destruct (deref _ _) as [i|]; cbn -[update] in H; [|done].
    destruct (List.find _ _); [|injection H as <-; apply carries_refl].
    eapply carries_trans; [apply carries_frame, frame_emit|].
    eapply carries_update; [|done]. done.
  - eapply carries_find_update; [|done]. done.
  - injection H as <-. by apply carries_same_objects.
  - unfold handle_SHUTDOWN_INSTANCE in H.
    destruct (FindInstance _ _ _); [|injection H as <-; apply carries_refl].
    apply carries_frame. by eapply frame_Shutdown.
  - unfold handle_GET_INSTANCES in H.
    destruct (deref _ _); simpl in H; [|done].
    destruct (mapM _ _); simpl in H; [|done].
    injection H as <-. by apply carries_same_objects.
  - injection H as <-. apply carries_refl.
Qed.

(** Removal only takes objects away. *)
Lemma RemoveInstance_objects p st l i :
  objects (RemoveInstance p st) !! l = Some i → objects st !! l = Some i.
Proof.
  destruct p as [l0|]; simpl; [|done].
  intros H. apply lookup_delete_Some in H as [_ H]. done.
Qed.

Lemma on_peer_gone_objects packet st st' l i :
  on_peer_gone packet st = Some st' →
  objects st' !! l = Some i → objects st !! l = Some i.
Proof.
  unfold on_peer_gone. intros [= <-].
  set (st1 := match GetInstanceBySysAddr _ _ with Some _ => _ | None => _ end).
  assert (objects st1 !! l = Some i → objects st !! l = Some i) as H1.
  { subst st1. destruct (GetInstanceBySysAddr _ _); [|done].
    apply RemoveInstance_objects. }
  by destruct (_ && _).
Qed.

Lemma remove_dead_objects instances st st' l i :
  remove_dead instances st = Some st' →
  objects st' !! l = Some i →
  objects st !! l = Some i ∧ effects st' = effects st.
Proof.
  revert st. induction instances as [|[l0|] rest IH]; intros st; simpl.
  - by intros [= <-].
  - destruct (objects st !! l0) as [i0|]; simpl; [|done].
    intros H Hl. destruct (IH _ H Hl) as [Ho He].
    destruct (shutdownComplete i0); [|done].
    split; [|done]. simpl in Ho. by apply lookup_delete_Some in Ho as [_ Ho].
  - by intros [= <-].
Qed.

(** A proper packet leaves the counter of an instance that is there
    before and after its dispatch. *)
Lemma receive_counter l packet st st' i i' :
  proper packet = true → receive packet st = Some st' →
  objects st !! l = Some i → objects st' !! l = Some i' →
  affirmationTimeout i' = affirmationTimeout i.
Proof.
  destruct packet as [p|]; simpl; [|intros _ [= <-]; congruence].
  intros Hp H Hi Hi'. unfold HandlePacket in H.
  apply orb_true_iff in Hp as [Hp|Hp].
  - apply negb_true_iff in Hp. rewrite Hp in H.
    destruct (if bool_decide (data0 p = ID_DISCONNECTION_NOTIFICATION)
              then _ else _) as [st1|] eqn:H1; simpl in H; [|done].
    destruct (if bool_decide (data0 p = ID_CONNECTION_LOST)
              then _ else _) as [st2|] eqn:H2; simpl in H; [|done].
    injection H as <-.
    assert (objects st1 !! l = Some i') as Hi1.
    { destruct (bool_decide (data0 p = ID_CONNECTION_LOST)).
      - by eapply on_peer_gone_objects.
      - by injection H2 as <-. }
    assert (objects st !! l = Some i') as Hi0.
    { destruct (bool_decide (data0 p = ID_DISCONNECTION_NOTIFICATION)).
      - by eapply on_peer_gone_objects.
      - by injection H1 as <-. }
    congruence.
  - apply andb_true_iff in Hp as [Hd Hl].
    apply negb_true_iff in Hd, Hl. rewrite Hd, Hl in H. simpl in H.
    destruct (bool_decide (data1 p = MASTER)).
    + destruct (handle_master_carries l _ _ _ H i Hi) as (j & Hj & Ht). congruence.
    + injection H as <-. congruence.
Qed.

(** *** Who writes the globals *)

Lemma same_globals_refl st : same_globals st st.
Proof. by repeat split. Qed.

Lemma same_globals_trans st1 st2 st3 :
  same_globals st1 st2 → same_globals st2 st3 → same_globals st1 st3.
Proof.
  intros (? & ? & ? & ? & ?) (? & ? & ? & ? & ?).
  repeat split; congruence.
Qed.

Lemma same_globals_emit e st : same_globals st (emit e st).
Proof. by repeat split. Qed.

Lemma same_globals_update p f st st' :
  update p f st = Some st' → same_globals st st'.
Proof.
  intros H. apply update_inv in H as (l & i & -> & _ & ->). by repeat split.
Qed.

Lemma same_globals_RemoveInstance p st : same_globals st (RemoveInstance p st).
Proof. destruct p; by repeat split. Qed.

Lemma same_globals_launch mapID0 cloneID0 pw st :
  same_globals st (launch mapID0 cloneID0 pw st).2.
Proof. by repeat split. Qed.

Lemma same_globals_GetInstance mapID0 b cloneID0 st :
  same_globals st (GetInstance mapID0 b cloneID0 st).2.
Proof.
  unfold GetInstance. destruct (find_ptr _ _ _);
    [apply same_globals_refl|apply same_globals_launch].
Qed.

Lemma same_globals_Shutdown p st st' :
  Shutdown p st = Some st' → same_globals st st'.
Proof.
  unfold Shutdown. destruct (deref p st); simpl; [|done].
  intros [= <-]. apply same_globals_emit.
Qed.

Lemma same_globals_RequestAffirmation p req st st' :
  RequestAffirmation p req st = Some st' → same_globals st st'.
Proof.
  unfold RequestAffirmation. destruct (deref p st) as [i|]; cbn -[update]; [|done].
  intros H. eapply same_globals_trans; [apply same_globals_emit|].
  by eapply same_globals_update.
Qed.

Lemma same_globals_AffirmTransfer p requestID0 st st' :
  AffirmTransfer p requestID0 st = Some st' → same_globals st st'.
Proof.
  unfold AffirmTransfer. destruct (deref p st) as [i|]; cbn -[update]; [|done].
  destruct (List.find _ _).
  - intros H. eapply same_globals_trans; [apply same_globals_emit|].
    by eapply same_globals_update.
  - intros [= <-]. apply same_globals_refl.
Qed.

Lemma same_globals_affirm_all p reqs st st' :
  affirm_all p reqs st = Some st' → same_globals st st'.
Proof.
  revert st. induction reqs as [|req reqs IH]; intros st; simpl.
  - intros [= <-]. apply same_globals_refl.
  - destruct (RequestAffirmation _ _ _) as [st1|] eqn:Hs; simpl; [|done].
    intros H. eapply same_globals_trans;
      [by eapply same_globals_RequestAffirmation|by apply IH].
Qed.

Lemma same_globals_ReadyInstance p st st' :
  ReadyInstance p st = Some st' → same_globals st st'.
Proof.
  unfold ReadyInstance. destruct (deref p st) as [i|]; cbn -[update]; [|done].
  destruct (update _ _ _) as [st1|] eqn:Hu; cbn -[update]; [|done].
  intros H. eapply same_globals_trans;
    [by eapply same_globals_update|by eapply same_globals_affirm_all].
Qed.

Lemma same_globals_submit_all mapID0 cloneID0 reqs st st' :
  submit_all mapID0 cloneID0 reqs st = Some st' → same_globals st st'.
Proof.
  revert st. induction reqs as [|req reqs IH]; intros st; simpl.
  - intros [= <-]. apply same_globals_refl.
  - destruct (submit _ _ _ _) as [st1|] eqn:Hs; simpl; [|done].
    intros H. eapply same_globals_trans; [|by apply IH].
    unfold submit in Hs.
    pose proof (same_globals_GetInstance mapID0 false cloneID0 st) as Hg.
    destruct (GetInstance _ _ _ _) as [p st0]. simpl in Hg.
    destruct (deref p st0) as [i|]; cbn -[update] in Hs; [|done].
    eapply same_globals_trans; [exact Hg|].
    destruct (ready i).
    + by eapply same_globals_RequestAffirmation.
    + by eapply same_globals_update.
Qed.

Lemma same_globals_tick_instance l st st' :
  tick_instance l st = Some st' → same_globals st st'.
Proof.
  unfold tick_instance.
  destruct (objects st !! l) as [i|]; cbn -[update Shutdown RedirectPendingRequests];
    [|done].
  destruct (update _ _ _) as [st1|] eqn:Hu;
    cbn -[update Shutdown RedirectPendingRequests]; [|done].
  apply same_globals_update in Hu. destruct (_ =? 1000).
  - destruct (Shutdown _ _) as [st2|] eqn:Hs;
      cbn -[update Shutdown RedirectPendingRequests]; [|done].
    destruct (update _ _ st2) as [st3|] eqn:Hu3;
      cbn -[update Shutdown RedirectPendingRequests]; [|done].
    unfold RedirectPendingRequests.
    destruct (deref _ st3) as [i3|]; cbn -[update]; [|done].
    destruct (update _ _ st3) as [st4|] eqn:Hu4; cbn -[update]; [|done].
    intros H.
    eapply same_globals_trans; [exact Hu|].
    eapply same_globals_trans; [by eapply same_globals_Shutdown|].
    eapply same_globals_trans; [by eapply same_globals_update|].
    eapply same_globals_trans; [by eapply same_globals_update|].
    by eapply same_globals_submit_all.
  - by intros [= <-].
Qed.

Lemma same_globals_advance_affirmations instances st st' :
  advance_affirmations instances st = Some st' → same_globals st st'.
Proof.
  revert st. induction instances as [|[l|] rest IH]; intros st; simpl.
  - intros [= <-]. apply same_globals_refl.
  - destruct (tick_instance _ _) as [st1|] eqn:Ht; simpl; [|done].
    intros H. eapply same_globals_trans;
      [by eapply same_globals_tick_instance|by apply IH].
  - intros [= <-]. apply same_globals_refl.
Qed.

Lemma same_globals_remove_dead instances st st' :
  remove_dead instances st = Some st' → same_globals st st'.
Proof.
  revert st. induction instances as [|[l|] rest IH]; intros st; simpl.
  - intros [= <-]. apply same_globals_refl.
  - destruct (objects st !! l) as [i|]; simpl; [|done].
    intros H. apply IH in H. eapply same_globals_trans; [|exact H].
    destruct (shutdownComplete i);
      [apply (same_globals_RemoveInstance (Some l))|apply same_globals_refl].
  - intros [= <-]. apply same_globals_refl.
Qed.

Lemma same_globals_on_peer_gone packet st st' :
  on_peer_gone packet st = Some st' → same_globals st st'.
Proof.
  unfold on_peer_gone. intros [= <-].
  destruct (GetInstanceBySysAddr _ _) as [l|].
  - destruct (_ && _); by repeat split.
  - destruct (_ && _); by repeat split.
Qed.

Lemma same_globals_find_update P f st st' :
  match find_ptr P (objects st) (m_Instances st) with
  | Some _ => update (find_ptr P (objects st) (m_Instances st)) f st
  | None => Some st
  end = Some st' →
  same_globals st st'.
Proof.
  destruct (find_ptr _ _ _);
    [apply same_globals_update|intros [= <-]; apply same_globals_refl].
Qed.

Lemma server_info_writers packet p z i ty a st st1 :
  body packet = MSG_MASTER_SERVER_INFO p z i ty a →
  same_globals st st1 →
  let st' := if bool_decide (ty = ServerType_Chat)
             then set_chatServerMasterPeerSysAddr
                    (mkSystemAddress (binaryAddress (systemAddress packet))
                       (sa_port (systemAddress packet))) st1
             else st1 in
  (activeSessions st' ≠ activeSessions st →
   ∃ k u, body packet = MSG_MASTER_SET_SESSION_KEY k u)
  ∧ (shouldShutdown st' ≠ shouldShutdown st →
     body packet = MSG_MASTER_SHUTDOWN_UNIVERSE ∧ shouldShutdown st' = true)
  ∧ (chatServerMasterPeerSysAddr st' ≠ chatServerMasterPeerSysAddr st →
     (∃ p z i a, body packet = MSG_MASTER_SERVER_INFO p z i ServerType_Chat a)
     ∧ chatServerMasterPeerSysAddr st' = systemAddress packet)
  ∧ (currentPersistentID st' ≠ currentPersistentID st →
     ∃ r, body packet = MSG_MASTER_REQUEST_PERSISTENT_ID r)
  ∧ mExternalIP st' = mExternalIP st.
Proof.
  intros Hbody (Hs & Hf & Hc & Hp & Hi). simpl.
  case_bool_decide as Hty.
  - subst ty. simpl. split_and!; try done.
    intros _. split; [by eexists _, _, _, _|by destruct (systemAddress packet)].
  - by split_and!.
Qed.

Lemma handle_master_writers packet st st' :
  handle_master packet st = Some st' →
  (activeSessions st' ≠ activeSessions st →
   ∃ k u, body packet = MSG_MASTER_SET_SESSION_KEY k u)
  ∧ (shouldShutdown st' ≠ shouldShutdown st →
     body packet = MSG_MASTER_SHUTDOWN_UNIVERSE ∧ shouldShutdown st' = true)
  ∧ (chatServerMasterPeerSysAddr st' ≠ chatServerMasterPeerSysAddr st →
     (∃ p z i a, body packet = MSG_MASTER_SERVER_INFO p z i ServerType_Chat a)
     ∧ chatServerMasterPeerSysAddr st' = systemAddress packet)
  ∧ (currentPersistentID st' ≠ currentPersistentID st →
     ∃ r, body packet = MSG_MASTER_REQUEST_PERSISTENT_ID r)
  ∧ mExternalIP st' = mExternalIP st.
Proof.
  assert (∀ s s', same_globals s s' →
            (activeSessions s' ≠ activeSessions s →
             ∃ k u, body packet = MSG_MASTER_SET_SESSION_KEY k u)
            ∧ (shouldShutdown s' ≠ shouldShutdown s →
               body packet = MSG_MASTER_SHUTDOWN_UNIVERSE ∧ shouldShutdown s' = true)
            ∧ (chatServerMasterPeerSysAddr s' ≠ chatServerMasterPeerSysAddr s →
               (∃ p z i a, body packet = MSG_MASTER_SERVER_INFO p z i ServerType_Chat a)
               ∧ chatServerMasterPeerSysAddr s' = systemAddress packet)
            ∧ (currentPersistentID s' ≠ currentPersistentID s →
               ∃ r, body packet = MSG_MASTER_REQUEST_PERSISTENT_ID r)
            ∧ mExternalIP s' = mExternalIP s) as Hsame.
  { intros s s' (? & ? & ? & ? & ?). by split_and!. }
  unfold handle_master. intros H. destruct (body packet) eqn:Hbody.
  - unfold handle_REQUEST_PERSISTENT_ID in H. simpl in H. injection H as <-.
    split_and!; try done. intros _. by eexists.
  - apply Hsame. unfold handle_REQUEST_ZONE_TRANSFER in H.
    pose proof (same_globals_GetInstance (to_u16 zoneID0) false zoneClone st) as Hg.
    destruct (GetInstance _ _ _ _) as [p st1]. simpl in Hg.
    destruct (mapM _ _); cbn -[update] in H; [|done].
    destruct (deref p st1) as [i|]; cbn -[update] in H; [|done].
    eapply same_globals_trans; [exact Hg|].
    destruct (negb (ready i)).
    + by eapply same_globals_update.
    + by eapply same_globals_RequestAffirmation.
  - unfold handle_SERVER_INFO in H. destruct (_ && _).
    + unfold alloc in H.
      rewrite (update_Some _ _ _ _ (lookup_insert_eq _ _ _)) in H.
      simpl in H. injection H as <-.
      rewrite <- Hbody. eapply (server_info_writers packet); [done|]. by repeat split.
    + destruct (FindInstance _ _ _).
      * destruct (update _ _ _) as [s1|] eqn:Hu; simpl in H; [|done].
        injection H as <-.
        rewrite <- Hbody. eapply (server_info_writers packet); [done|].
        by eapply same_globals_update.
      * simpl in H. injection H as <-.
        rewrite <- Hbody. eapply (server_info_writers packet); [done|]. apply same_globals_refl.
  - unfold handle_SET_SESSION_KEY in H. injection H as <-.
    split_and!; try (by destruct (find_username _ _)).
    intros _. by eexists _, _.
  - apply Hsame. unfold handle_REQUEST_SESSION_KEY in H.
    destruct (find_username _ _); injection H as <-;
      [apply same_globals_emit|apply same_globals_refl].
  - apply Hsame. by eapply same_globals_find_update.
  - apply Hsame. by eapply same_globals_find_update.
  - apply Hsame. injection H as <-. apply same_globals_launch.
  - apply Hsame. unfold handle_REQUEST_PRIVATE_ZONE in H.
    destruct (FindPrivateInstance _ _);
      [|injection H as <-; apply same_globals_refl].
    destruct (deref _ _); simpl in H; [|done].
    injection H as <-. apply same_globals_emit.
  - apply Hsame. unfold handle_WORLD_READY in H.
    destruct (FindInstance _ _ _);
      [by eapply same_globals_ReadyInstance|injection H as <-; apply same_globals_refl].
  - apply Hsame. injection H as <-. apply same_globals_GetInstance.
  - apply Hsame. unfold handle_AFFIRM_TRANSFER_RESPONSE in H.
    destruct (GetInstanceBySysAddr _ _);
      [by eapply same_globals_AffirmTransfer|injection H as <-; apply same_globals_refl].
  - apply Hsame. by eapply same_globals_find_update.
  - injection H as <-. by split_and!.
  - apply Hsame. unfold handle_SHUTDOWN_INSTANCE in H.
    destruct (FindInstance _ _ _);
      [by eapply same_globals_Shutdown|injection H as <-; apply same_globals_refl].
  - apply Hsame. unfold handle_GET_INSTANCES in H.
    destruct (deref _ _); simpl in H; [|done].
    destruct (mapM _ _); simpl in H; [|done].
    injection H as <-. apply same_globals_emit.
  - apply Hsame. injection H as <-. apply same_globals_refl.
Qed.

(** [HandlePacket] as two stages: the transport events, which write no
    global, and then the switch over the master messages. *)
Lemma HandlePacket_inv packet st st' :
  HandlePacket packet st = Some st' →
  ∃ st2, same_globals st st2
         ∧ if bool_decide (data1 packet = MASTER)
           then handle_master packet st2 = Some st'
           else st' = st2.
Proof.
  unfold HandlePacket. intros H.
  destruct (if bool_decide (data0 packet = ID_DISCONNECTION_NOTIFICATION)
            then _ else _) as [st1|] eqn:H1; simpl in H; [|done].
  destruct (if bool_decide (data0 packet = ID_CONNECTION_LOST)
            then _ else _) as [st2|] eqn:H2; simpl in H; [|done].
  assert (same_globals st st1) as Hg1.
  { destruct (bool_decide _);
      [by eapply same_globals_on_peer_gone|injection H1 as <-; apply same_globals_refl]. }
  assert (same_globals st1 st2) as Hg2.
  { destruct (bool_decide (data0 packet = ID_CONNECTION_LOST));
      [by eapply same_globals_on_peer_gone|injection H2 as <-; apply same_globals_refl]. }
  exists st2. split; [by eapply same_globals_trans|].
  destruct (bool_decide (data1 packet = MASTER)); [done|by injection H as <-].
Qed.

(** Each global has one writer: the session registry is written by
    [SET_SESSION_KEY] only, the universe-shutdown flag by
    [SHUTDOWN_UNIVERSE] only (which sets it), the remembered chat peer by
    a [SERVER_INFO] of a chat server only (to the sender), and the
    persistent-id counter by [REQUEST_PERSISTENT_ID] only; transport
    events and packets of other subsystems write none of them. *)
Theorem globals_single_writer (packet : Packet) (st st' : Master) :
  HandlePacket packet st = Some st' →
  (activeSessions st' ≠ activeSessions st →
   data1 packet = MASTER ∧ ∃ k u, body packet = MSG_MASTER_SET_SESSION_KEY k u)
  ∧ (shouldShutdown st' ≠ shouldShutdown st →
     data1 packet = MASTER ∧ body packet = MSG_MASTER_SHUTDOWN_UNIVERSE
     ∧ shouldShutdown st' = true)
  ∧ (chatServerMasterPeerSysAddr st' ≠ chatServerMasterPeerSysAddr st →
     data1 packet = MASTER
     ∧ (∃ p z i a, body packet = MSG_MASTER_SERVER_INFO p z i ServerType_Chat a)
     ∧ chatServerMasterPeerSysAddr st' = systemAddress packet)
  ∧ (currentPersistentID st' ≠ currentPersistentID st →
     data1 packet = MASTER ∧ ∃ r, body packet = MSG_MASTER_REQUEST_PERSISTENT_ID r).
Proof.
  intros H.
  destruct (HandlePacket_inv _ _ _ H) as (st2 & (Hs & Hf & Hc & Hp & _) & H2).
  case_bool_decide as Hm.
  - destruct (handle_master_writers _ _ _ H2) as (Ws & Wf & Wc & Wp & _).
    rewrite Hs in Ws. rewrite Hf in Wf. rewrite Hc in Wc. rewrite Hp in Wp.
    split_and!.
    + intros Hne. split; [done|by apply Ws].
    + intros Hne. destruct (Wf Hne). by split_and!.
    + intros Hne. destruct (Wc Hne). by split_and!.
    + intros Hne. split; [done|by apply Wp].
  - subst st'. by split_and!.
Qed.

Lemma receive_keeps_flag_clear packet st st' :
  is_shutdown_universe packet = false → receive packet st = Some st' →
  shouldShutdown st = false → shouldShutdown st' = false.
Proof.
  destruct packet as [p|]; simpl; [|by intros _ [= <-]].
  intros Hnot H Hflag.
  destruct (HandlePacket_inv _ _ _ H) as (st2 & (_ & Hf & _) & H2).
  case_bool_decide as Hm; [|congruence].
  destruct (handle_master_writers _ _ _ H2) as (_ & Wf & _).
  destruct (decide (shouldShutdown st' = shouldShutdown st2)) as [Heq|Hne];
    [congruence|].
  destruct (Wf Hne) as (Hb & _).
  by rewrite Hb in Hnot.
Qed.

(** The control loop leaves through [break] only after a
    [SHUTDOWN_UNIVERSE]: while the flag is clear and no such message
    arrives, every iteration continues, the flag stays clear and the
    kill counter stays where it was. *)
Theorem no_break_without_shutdown_universe (n : N)
    (packets : list (option Packet)) (c : LoopCounters) (st : Master)
    (r : RunResult) :
  shouldShutdown st = false →
  forallb (λ p, negb (is_shutdown_universe p)) packets = true →
  run_main_from n packets c st = Some r →
  ∃ c' st',
    r = Running c' st'
    ∧ shouldShutdown st' = false
    ∧ framesSinceKillUniverseCommand c' = framesSinceKillUniverseCommand c.
Proof.
  revert n c st. induction packets as [|packet rest IH]; intros n c st Hflag Hall.
  - simpl. intros [= <-]. by eexists _, _.
  - simpl in Hall. apply andb_true_iff in Hall as [Hp Hrest].
    apply negb_true_iff in Hp. simpl.
    destruct (main_iteration packet c st) as [step|] eqn:Hstep; [|done].
    unfold main_iteration in Hstep.
    destruct (receive packet st) as [st1|] eqn:Hr; simpl in Hstep; [|done].
    pose proof (receive_keeps_flag_clear _ _ _ Hp Hr Hflag) as Hflag1.
    set (st2 := if 900 <=? framesSinceLastFlush c then emit LoggerFlush st1 else st1) in *.
    set (st3 := if 40000 <=? framesSinceLastSQLPing c then emit SqlPing st2 else st2) in *.
    assert (shouldShutdown st3 = false) as Hflag3.
    { subst st3 st2. by destruct (_ <=? _), (_ <=? _). }
    rewrite Hflag3 in Hstep. simpl in Hstep.
    destruct (advance_affirmations _ _) as [st4|] eqn:Ha; simpl in Hstep; [|done].
    destruct (remove_dead _ _) as [st5|] eqn:Hd; simpl in Hstep; [|done].
    injection Hstep as <-.
    apply advance_affirmations_flag in Ha. apply remove_dead_flag in Hd.
    intros Hrun. assert (shouldShutdown st5 = false) as Hflag5 by congruence.
    destruct (IH _ _ _ Hflag5 Hrest Hrun) as (c' & st' & -> & Hf & Hk).
    by eexists _, _.
Qed.

(** *** The session registry as a map *)

Lemma keys_ascending_intro k v m :
  keys_ascending m = true → (∀ e, e ∈ m → k < e.1) →
  keys_ascending ((k, v) :: m) = true.
Proof.
  destruct m as [|[k' v'] m]; [done|]. intros Hasc Hlt.
  change (((k <? k') && keys_ascending ((k', v') :: m)) = true).
  apply andb_true_iff. split; [|done].
  apply Z.ltb_lt. apply (Hlt (k', v')). by left.
Qed.

Lemma map_erase_elem k0 m e :
  keys_ascending m = true →
  e ∈ map_erase k0 m ↔ e ∈ m ∧ e.1 ≠ k0.
Proof.
  induction m as [|[k v] m IH]; intros Hasc.
  - simpl. split; [intros H; by apply elem_of_nil in H|intros [H _]; done].
  - destruct (keys_ascending_cons _ _ _ Hasc) as [Hasc' Hlt]. simpl.
    destruct (k =? k0) eqn:Hk.
    + apply Z.eqb_eq in Hk. subst k0. split.
      * intros He. split; [by right|]. specialize (Hlt e He). lia.
      * intros [He Hne]. apply elem_of_cons in He as [->|He]; [done|done].
    + apply Z.eqb_neq in Hk. rewrite !elem_of_cons, (IH Hasc'). split.
      * intros [->|[He Hne]]; [split; [by left|done]|split; [by right|done]].
      * intros [[->|He] Hne]; [by left|right; done].
Qed.

Lemma map_erase_ascending k0 m :
  keys_ascending m = true → keys_ascending (map_erase k0 m) = true.
Proof.
  induction m as [|[k v] m IH]; intros Hasc; [done|].
  destruct (keys_ascending_cons _ _ _ Hasc) as [Hasc' Hlt]. simpl.
  destruct (k =? k0); [done|].
  apply keys_ascending_intro; [by apply IH|].
  intros e He. apply Hlt. by eapply map_erase_subseteq.
Qed.

Lemma map_insert_elem k v m e :
  keys_ascending m = true →
  e ∈ map_insert k v m ↔ e ∈ m ∨ (e = (k, v) ∧ k ∉ fst <$> m).
Proof.
  induction m as [|[k' v'] m IH]; intros Hasc.
  - simpl. rewrite list_elem_of_singleton. split.
    + intros ->. right. split; [done|]. intros H. by apply elem_of_nil in H.
    + intros [H|[-> _]]; [by apply elem_of_nil in H|done].
  - destruct (keys_ascending_cons _ _ _ Hasc) as [Hasc' Hlt]. simpl.
    destruct (k <? k') eqn:Hk.
    + apply Z.ltb_lt in Hk. rewrite (elem_of_cons _ e (k, v)). split.
      * intros [->|He]; [|by left]. right. split; [done|].
        rewrite not_elem_of_cons. split; [lia|].
        intros Hin. apply list_elem_of_fmap in Hin as (e' & -> & He').
        specialize (Hlt e' He'). lia.
      * intros [He|[-> _]]; [by right|by left].
    + apply Z.ltb_ge in Hk. destruct (k =? k') eqn:Heq.
      * apply Z.eqb_eq in Heq. subst k'. split; [by left|].
        intros [He|[_ Hn]]; [done|]. destruct Hn. by left.
      * apply Z.eqb_neq in Heq. rewrite !elem_of_cons, (IH Hasc'). split.
        -- intros [->|[He|[-> Hn]]]; [left; by left|left; by right|].
           right. split; [done|]. by intros [?|?].
        -- intros [[->|He]|[-> Hn]]; [by left|right; by left|].
           right. right. split; [done|]. intros Hin. apply Hn. by right.
Qed.

Lemma map_insert_ascending k v m :
  keys_ascending m = true → keys_ascending (map_insert k v m) = true.
Proof.
  induction m as [|[k' v'] m IH]; intros Hasc; [done|].
  destruct (keys_ascending_cons _ _ _ Hasc) as [Hasc' Hlt]. simpl.
  destruct (k <? k') eqn:Hk.
  - change (((k <? k') && keys_ascending ((k', v') :: m)) = true).
    by rewrite Hk, Hasc.
  - apply Z.ltb_ge in Hk. destruct (k =? k') eqn:Heq; [done|].
    apply Z.eqb_neq in Heq.
    apply keys_ascending_intro; [by apply IH|].
    intros e He. apply (map_insert_elem _ _ _ _ Hasc') in He as [He|[-> _]].
    + by apply Hlt.
    + simpl. lia.
Qed.

Lemma find_username_In u m e :
  find_username u m = Some e → e ∈ m ∧ e.2 = u.
Proof.
  induction m as [|[k v] m IH]; simpl; [done|].
  destruct (String.eqb_spec v u) as [->|Hne].
  - intros [= <-]. split; [by left|done].
  - intros H. destruct (IH H). split; [by right|done].
Qed.

Lemma find_username_unique u k m :
  NoDup (snd <$> m) → (k, u) ∈ m → find_username u m = Some (k, u).
Proof.
  induction m as [|[k' v'] m IH]; intros Hnd Hin.
  - by apply elem_of_nil in Hin.
  - rewrite fmap_cons in Hnd. apply list.NoDup_cons in Hnd as [Hv Hnd]. simpl.
    apply elem_of_cons in Hin as [[= <- <-]|Hin].
    + by rewrite String.eqb_refl.
    + destruct (String.eqb_spec v' u) as [->|Hne]; [|by apply IH].
      destruct Hv. apply list_elem_of_fmap. by exists (k, u).
Qed.

Lemma sessions_ok_spec m :
  sessions_ok m = true ↔ keys_ascending m = true ∧ NoDup (snd <$> m).
Proof.
  unfold sessions_ok. rewrite andb_true_iff, bool_decide_eq_true. done.
Qed.

Lemma NoDup_users_erase k0 m :
  NoDup (snd <$> m) → NoDup (snd <$> map_erase k0 m).
Proof.
  induction m as [|[k v] m IH]; intros Hnd; [done|].
  rewrite fmap_cons in Hnd. apply list.NoDup_cons in Hnd as [Hv Hnd]. simpl.
  destruct (k =? k0); [done|]. rewrite fmap_cons. apply list.NoDup_cons.
  split; [|by apply IH]. intros Hin. apply Hv.
  apply list_elem_of_fmap in Hin as (e & -> & He).
  apply list_elem_of_fmap. exists e. split; [done|by eapply map_erase_subseteq].
Qed.

Lemma users_insert k u m x :
  x ∈ snd <$> map_insert k u m → x = u ∨ x ∈ snd <$> m.
Proof.
  induction m as [|[k' v'] m IH]; simpl.
  - rewrite list_elem_of_singleton. by left.
  - destruct (k <? k').
    + rewrite !fmap_cons, (elem_of_cons _ x u). simpl. intros [->|H]; [by left|by right].
    + destruct (k =? k'); [by right|].
      rewrite !fmap_cons, !elem_of_cons. simpl.
      intros [->|H]; [right; by left|]. destruct (IH H); [by left|right; by right].
Qed.

Lemma NoDup_users_insert k u m :
  u ∉ snd <$> m → NoDup (snd <$> m) → NoDup (snd <$> map_insert k u m).
Proof.
  induction m as [|[k' v'] m IH]; intros Hu Hnd.
  - simpl. apply NoDup_singleton.
  - rewrite fmap_cons in Hu, Hnd. apply not_elem_of_cons in Hu as [Hne Hu].
    pose proof Hnd as Hnd0.
    apply list.NoDup_cons in Hnd as [Hv Hnd]. simpl in *.
    destruct (k <? k').
    + rewrite !fmap_cons. apply list.NoDup_cons. split; [|done].
      rewrite not_elem_of_cons. done.
    + destruct (k =? k'); [done|].
      rewrite fmap_cons. apply list.NoDup_cons. split; [|by apply IH].
      simpl. intros Hin. apply users_insert in Hin as [->|Hin]; done.
Qed.

Lemma HandlePacket_master packet st :
  data0 packet ≠ ID_DISCONNECTION_NOTIFICATION →
  data0 packet ≠ ID_CONNECTION_LOST →
  data1 packet = MASTER →
  HandlePacket packet st = handle_master packet st.
Proof.
  intros Hd Hl Hm. unfold HandlePacket.
  rewrite (bool_decide_eq_false_2 _ Hd), (bool_decide_eq_false_2 _ Hl). simpl.
  by rewrite (bool_decide_eq_true_2 _ Hm).
Qed.

Lemma keys_ascending_unique m k v1 v2 :
  keys_ascending m = true → (k, v1) ∈ m → (k, v2) ∈ m → v1 = v2.
Proof.
  induction m as [|[k' v'] m IH]; intros Hasc H1 H2.
  - by apply elem_of_nil in H1.
  - destruct (keys_ascending_cons _ _ _ Hasc) as [Hasc' Hlt].
    apply elem_of_cons in H1 as [E1|H1]; apply elem_of_cons in H2 as [E2|H2].
    + congruence.
    + injection E1 as -> ->. specialize (Hlt _ H2). simpl in Hlt. lia.
    + injection E2 as -> ->. specialize (Hlt _ H1). simpl in Hlt. lia.
    + by apply IH.
Qed.

(** The registry after [SET_SESSION_KEY(k, u)], as a function of the
    registry before. *)
Lemma handle_SET_SESSION_KEY_sessions k u st st' :
  handle_SET_SESSION_KEY k u st = Some st' →
  activeSessions st' =
    map_insert k u
      (match find_username u (activeSessions st) with
       | Some it => map_erase it.1 (activeSessions st)
       | None => activeSessions st
       end).
Proof.
  unfold handle_SET_SESSION_KEY. intros [= <-].
  by destruct (find_username _ _).
Qed.

Lemma set_session_ok k u m :
  sessions_ok m = true →
  sessions_ok (map_insert k u
                 (match find_username u m with
                  | Some it => map_erase it.1 m
                  | None => m
                  end)) = true.
Proof.
  rewrite !sessions_ok_spec. intros [Hasc Hnd].
  destruct (find_username u m) as [e|] eqn:Hf.
  - destruct (find_username_erase _ _ _ Hasc Hnd Hf) as (He & Hin & Hout).
    split.
    + by apply map_insert_ascending, map_erase_ascending.
    + apply NoDup_users_insert; [done|by apply NoDup_users_erase].
  - apply find_username_None in Hf. split.
    + by apply map_insert_ascending.
    + by apply NoDup_users_insert.
Qed.

(** No packet breaks the session registry: it stays a map in which every
    user has at most one session. *)
Theorem session_registry_invariant (packet : Packet) (st st' : Master) :
  sessions_ok (activeSessions st) = true →
  HandlePacket packet st = Some st' →
  sessions_ok (activeSessions st') = true.
Proof.
  intros Hok H.
  destruct (HandlePacket_inv _ _ _ H) as (st2 & (Hs & _) & H2).
  rewrite <- Hs in Hok.
  case_bool_decide as Hm; [|by subst st'].
  destruct (decide (activeSessions st' = activeSessions st2)) as [->|Hne]; [done|].
  destruct (handle_master_writers _ _ _ H2) as (Ws & _).
  destruct (Ws Hne) as (k & u & Hbody).
  unfold handle_master in H2. rewrite Hbody in H2.
  apply handle_SET_SESSION_KEY_sessions in H2. rewrite H2. by apply set_session_ok.
Qed.

(** [SET_SESSION_KEY(k, u)] touches no session of another user: whatever
    the key, a pair [(k', u')] with [u' ≠ u] is registered afterwards
    exactly when it was before. *)
Theorem set_session_key_other_users (packet : Packet) (st st' : Master)
    (k : Z) (u : string) (k' : Z) (u' : string) :
  data0 packet ≠ ID_DISCONNECTION_NOTIFICATION →
  data0 packet ≠ ID_CONNECTION_LOST →
  data1 packet = MASTER →
  body packet = MSG_MASTER_SET_SESSION_KEY k u →
  keys_ascending (activeSessions st) = true →
  HandlePacket packet st = Some st' →
  u' ≠ u →
  (k', u') ∈ activeSessions st' ↔ (k', u') ∈ activeSessions st.
Proof.
  intros Hd Hl Hm Hbody Hasc H Hne.
  rewrite (HandlePacket_master _ _ Hd Hl Hm) in H. unfold handle_master in H.
  rewrite Hbody in H. apply handle_SET_SESSION_KEY_sessions in H. rewrite H.
  destruct (find_username u (activeSessions st)) as [e|] eqn:Hf.
  - rewrite map_insert_elem by by apply map_erase_ascending.
    rewrite map_erase_elem by done.
    destruct (find_username_In _ _ _ Hf) as [Hin He]. destruct e as [k0 u0].
    simpl in *. subst u0. split.
    + intros [[H' _]|[[= _ Hu] _]]; [done|congruence].
    + intros H'. left. split; [done|]. intros ->.
      apply Hne. by eapply keys_ascending_unique.
  - rewrite map_insert_elem by done. split.
    + intros [H'|[[= _ Hu] _]]; [done|congruence].
    + intros H'. by left.
Qed.

Lemma handle_REQUEST_SESSION_KEY_found packet u k st :
  NoDup (snd <$> activeSessions st) → (k, u) ∈ activeSessions st →
  handle_REQUEST_SESSION_KEY packet u st
  = Some (emit (Send (SESSION_KEY_RESPONSE k u) (systemAddress packet)) st).
Proof.
  intros Hnd Hk. unfold handle_REQUEST_SESSION_KEY.
  by rewrite (find_username_unique _ _ _ Hnd Hk).
Qed.

(** [REQUEST_SESSION_KEY(u)]: a user without a session gets no reply and
    nothing changes; a user with the session [(k, u)] gets
    [SESSION_KEY_RESPONSE(k, u)], sent to the requester, and nothing else
    changes. *)
Theorem request_session_key_reply (packet : Packet) (st : Master) (u : string) :
  data0 packet ≠ ID_DISCONNECTION_NOTIFICATION →
  data0 packet ≠ ID_CONNECTION_LOST →
  data1 packet = MASTER →
  body packet = MSG_MASTER_REQUEST_SESSION_KEY u →
  NoDup (snd <$> activeSessions st) →
  (u ∉ snd <$> activeSessions st → HandlePacket packet st = Some st)
  ∧ (∀ k, (k, u) ∈ activeSessions st →
       HandlePacket packet st =
         Some (emit (Send (SESSION_KEY_RESPONSE k u) (systemAddress packet)) st)).
Proof.
  intros Hd Hl Hm Hbody Hnd.
  rewrite (HandlePacket_master _ _ Hd Hl Hm). unfold handle_master.
  rewrite Hbody. split.
  - intros Hu. apply find_username_None in Hu.
    unfold handle_REQUEST_SESSION_KEY. by rewrite Hu.
  - intros k Hk. by apply handle_REQUEST_SESSION_KEY_found.
Qed.

(** Round trip through the registry: after [SET_SESSION_KEY(k, u)] with a
    key no other user holds, [REQUEST_SESSION_KEY(u)] is answered with
    [SESSION_KEY_RESPONSE(k, u)]. *)
Theorem session_key_round_trip (set request : Packet) (st : Master)
    (k : Z) (u : string) :
  data0 set ≠ ID_DISCONNECTION_NOTIFICATION → data0 set ≠ ID_CONNECTION_LOST →
  data1 set = MASTER → body set = MSG_MASTER_SET_SESSION_KEY k u →
  data0 request ≠ ID_DISCONNECTION_NOTIFICATION →
  data0 request ≠ ID_CONNECTION_LOST →
  data1 request = MASTER → body request = MSG_MASTER_REQUEST_SESSION_KEY u →
  sessions_ok (activeSessions st) = true →
  (∀ v, (k, v) ∈ activeSessions st → v = u) →
  ∃ st1,
    HandlePacket set st = Some st1
    ∧ HandlePacket request st1 =
        Some (emit (Send (SESSION_KEY_RESPONSE k u) (systemAddress request)) st1).
Proof.
  intros Hd Hl Hm Hbody Hd' Hl' Hm' Hbody' Hok Hkey.
  pose proof Hok as Hok0. apply sessions_ok_spec in Hok as [Hasc Hnd].
  destruct (set_session_key_registers k u st Hasc Hnd Hkey) as (st1 & Hset & Hone & _).
  assert (HandlePacket set st = Some st1) as Hset'.
  { rewrite (HandlePacket_master _ _ Hd Hl Hm). unfold handle_master.
    by rewrite Hbody. }
  exists st1. split; [done|].
  assert (NoDup (snd <$> activeSessions st1)) as Hnd1.
  { apply handle_SET_SESSION_KEY_sessions in Hset. rewrite Hset.
    by apply (proj1 (sessions_ok_spec _) (set_session_ok k u _ Hok0)). }
  rewrite (HandlePacket_master _ _ Hd' Hl' Hm'). unfold handle_master.
  rewrite Hbody'. apply handle_REQUEST_SESSION_KEY_found; [done|].
  assert ((k, u) ∈ filter (λ e, e.2 = u) (activeSessions st1)) as Hin
    by (rewrite Hone; by left).
  by apply list_elem_of_filter in Hin as [_ Hin].
Qed.

(** *** Invariants of the dispatch and of the instance loops

    A property of the state that the elementary steps keep (an emission
    other than the two housekeeping actions, a call of a member function
    on a live instance, the removal of an instance, the registration of a
    new one, a write of a global) is kept by every handler and by both
    loops over the instances. *)
Section Invariants.

Variable Inv : Master → Prop.

Hypothesis Inv_emit :
  ∀ e st, is_housekeeping e = false → Inv st → Inv (emit e st).
Hypothesis Inv_insert :
  ∀ l i f st,
    objects st !! l = Some i → Inv st →
    Inv (set_objects (<[l := f i]> (objects st)) st).
Hypothesis Inv_RemoveInstance :
  ∀ l st, Inv st → Inv (RemoveInstance (Some l) st).
Hypothesis Inv_new :
  ∀ i st, Inv st →
    Inv (set_registry (m_Instances st ++ [Some (fresh (dom (objects st)))])
           (<[fresh (dom (objects st)) := i]> (objects st)) st).
Hypothesis Inv_activeSessions : ∀ s st, Inv st → Inv (set_activeSessions s st).
Hypothesis Inv_shouldShutdown : ∀ b st, Inv st → Inv (set_shouldShutdown b st).
Hypothesis Inv_chatServer :
  ∀ a st, Inv st → Inv (set_chatServerMasterPeerSysAddr a st).
Hypothesis Inv_persistentID : ∀ n st, Inv st → Inv (set_currentPersistentID n st).

Lemma Inv_update p f st st' :
  update p f st = Some st' → Inv st → Inv st'.
Proof.
  intros Hu H. apply update_inv in Hu as (l & i & -> & Hl & ->).
  by apply Inv_insert.
Qed.

Lemma Inv_launch mapID0 cloneID0 pw st :
  Inv st → Inv (launch mapID0 cloneID0 pw st).2.
Proof.
  intros H.
  set (i := SetPrivatePassword pw
              (new_Instance (mExternalIP st) (GetFreePort st) mapID0
                 (NewInstanceID st) cloneID0 (GetSoftCap mapID0)
                 (GetHardCap mapID0))).
  exact (Inv_emit (SpawnWorldServer (ip i) (port i) (GetMapID i)
                     (GetInstanceID i) (GetCloneID i) (hardCap i))
           _ eq_refl (Inv_new i st H)).
Qed.

Lemma Inv_GetInstance mapID0 b cloneID0 st :
  Inv st → Inv (GetInstance mapID0 b cloneID0 st).2.
Proof.
  intros H. unfold GetInstance. destruct (find_ptr _ _ _); [done|].
  by apply Inv_launch.
Qed.

Lemma Inv_Shutdown p st st' : Shutdown p st = Some st' → Inv st → Inv st'.
Proof.
  unfold Shutdown. destruct (deref p st); simpl; [|done].
  intros [= <-] H. by apply Inv_emit.
Qed.

Lemma Inv_RequestAffirmation p req st st' :
  RequestAffirmation p req st = Some st' → Inv st → Inv st'.
Proof.
  unfold RequestAffirmation. destruct (deref p st) as [i|]; cbn -[update]; [|done].
  intros Hu H. eapply Inv_update; [exact Hu|by apply Inv_emit].
Qed.

Lemma Inv_AffirmTransfer p requestID0 st st' :
  AffirmTransfer p requestID0 st = Some st' → Inv st → Inv st'.
Proof.
  unfold AffirmTransfer. destruct (deref p st) as [i|]; cbn -[update]; [|done].
  destruct (List.find _ _).
  - intros Hu H. eapply Inv_update; [exact Hu|by apply Inv_emit].
  - by intros [= <-].
Qed.

Lemma Inv_affirm_all p reqs st st' :
  affirm_all p reqs st = Some st' → Inv st → Inv st'.
Proof.
  revert st. induction reqs as [|req reqs IH]; intros st; simpl.
  - by intros [= <-].
  - destruct (RequestAffirmation _ _ _) as [st1|] eqn:Hs; simpl; [|done].
    intros H H0. apply (IH _ H). by eapply Inv_RequestAffirmation.
Qed.

Lemma Inv_ReadyInstance p st st' :
  ReadyInstance p st = Some st' → Inv st → Inv st'.
Proof.
  unfold ReadyInstance. destruct (deref p st) as [i|]; cbn -[update]; [|done].
  destruct (update _ _ _) as [st1|] eqn:Hu; cbn -[update]; [|done].
  intros H H0. eapply Inv_affirm_all; [exact H|].
  eapply Inv_update; [exact Hu|exact H0].
Qed.

Lemma Inv_submit mapID0 cloneID0 req st st' :
  submit mapID0 cloneID0 req st = Some st' → Inv st → Inv st'.
Proof.
  unfold submit. intros Hs H.
  pose proof (Inv_GetInstance mapID0 false cloneID0 st H) as Hg.
  destruct (GetInstance _ _ _ _) as [p st0]. simpl in Hg.
  destruct (deref p st0) as [i|]; cbn -[update] in Hs; [|done].
  destruct (ready i).
  - by eapply Inv_RequestAffirmation.
  - eapply Inv_update; [exact Hs|exact Hg].
Qed.

Lemma Inv_submit_all mapID0 cloneID0 reqs st st' :
  submit_all mapID0 cloneID0 reqs st = Some st' → Inv st → Inv st'.
Proof.
  revert st. induction reqs as [|req reqs IH]; intros st; simpl.
  - by intros [= <-].
  - destruct (submit _ _ _ _) as [st1|] eqn:Hs; simpl; [|done].
    intros H H0. apply (IH _ H). by eapply Inv_submit.
Qed.

Lemma Inv_RedirectPendingRequests p st st' :
  RedirectPendingRequests p st = Some st' → Inv st → Inv st'.
Proof.
  unfold RedirectPendingRequests.
  destruct (deref p st) as [i|]; cbn -[update]; [|done].
  destruct (update _ _ _) as [st1|] eqn:Hu; cbn -[update]; [|done].
  intros H H0. eapply Inv_submit_all; [exact H|].
  eapply Inv_update; [exact Hu|exact H0].
Qed.

Lemma Inv_tick_instance l st st' :
  tick_instance l st = Some st' → Inv st → Inv st'.
Proof.
  unfold tick_instance.
  destruct (objects st !! l) as [i|]; cbn -[update Shutdown RedirectPendingRequests];
    [|done].
  destruct (update _ _ _) as [st1|] eqn:Hu;
    cbn -[update Shutdown RedirectPendingRequests]; [|done].
  intros H H0.
  assert (Inv st1) as H1 by (eapply Inv_update; [exact Hu|exact H0]).
  destruct (_ =? 1000); [|by injection H as <-].
  destruct (Shutdown _ _) as [st2|] eqn:Hs;
    cbn -[update Shutdown RedirectPendingRequests] in H; [|done].
  destruct (update _ _ st2) as [st3|] eqn:Hu3;
    cbn -[update Shutdown RedirectPendingRequests] in H; [|done].
  eapply Inv_RedirectPendingRequests; [exact H|].
  eapply Inv_update; [exact Hu3|by eapply Inv_Shutdown].
Qed.

Lemma Inv_advance_affirmations instances st st' :
  advance_affirmations instances st = Some st' → Inv st → Inv st'.
Proof.
  revert st. induction instances as [|[l|] rest IH]; intros st; simpl.
  - by intros [= <-].
  - destruct (tick_instance _ _) as [st1|] eqn:Ht; simpl; [|done].
    intros H H0. apply (IH _ H). by eapply Inv_tick_instance.
  - by intros [= <-].
Qed.

Lemma Inv_remove_dead instances st st' :
  remove_dead instances st = Some st' → Inv st → Inv st'.
Proof.
  revert st. induction instances as [|[l|] rest IH]; intros st; simpl.
  - by intros [= <-].
  - destruct (objects st !! l) as [i|]; simpl; [|done].
    intros H H0. apply (IH _ H).
    destruct (shutdownComplete i); [by apply Inv_RemoveInstance|done].
  - by intros [= <-].
Qed.

Lemma Inv_on_peer_gone packet st st' :
  on_peer_gone packet st = Some st' → Inv st → Inv st'.
Proof.
  unfold on_peer_gone. intros [= <-] H.
  set (st1 := match GetInstanceBySysAddr _ _ with Some _ => _ | None => _ end).
  assert (Inv st1) as H1.
  { subst st1. destruct (GetInstanceBySysAddr _ _); [|done].
    by apply Inv_RemoveInstance. }
  destruct (_ && _); [|done]. by apply Inv_emit.
Qed.

Lemma Inv_find_update P f st st' :
  match find_ptr P (objects st) (m_Instances st) with
  | Some _ => update (find_ptr P (objects st) (m_Instances st)) f st
  | None => Some st
  end = Some st' →
  Inv st → Inv st'.
Proof.
  destruct (find_ptr _ _ _); [by apply Inv_update|by intros [= <-]].
Qed.

Lemma Inv_SERVER_INFO packet theirPort theirZoneID theirInstanceID ty theirIP st st' :
  handle_SERVER_INFO packet theirPort theirZoneID theirInstanceID ty theirIP st
    = Some st' →
  Inv st → Inv st'.
Proof.
  unfold handle_SERVER_INFO. intros H H0.
  assert (∀ st1, Inv st1 →
            Inv (if bool_decide (ty = ServerType_Chat)
                 then set_chatServerMasterPeerSysAddr
                        (mkSystemAddress (binaryAddress (systemAddress packet))
                           (sa_port (systemAddress packet))) st1
                 else st1)) as Hchat.
  { intros st1 H1. destruct (bool_decide _); [by apply Inv_chatServer|done]. }
  destruct (_ && _).
  - unfold alloc in H.
    destruct (update _ _ _) as [s1|] eqn:Hu; simpl in H; [|done].
    injection H as <-. apply Hchat.
    apply update_inv in Hu as (l & i & [= <-] & Hl & ->).
    simpl in Hl. rewrite lookup_insert_eq in Hl. injection Hl as <-.
    unfold AddInstance, set_objects. simpl. rewrite insert_insert_eq.
    exact (Inv_new (SetSysAddr _ (new_Instance _ _ _ _ _ _ _)) st H0).
  - destruct (FindInstance _ _ _).
    + destruct (update _ _ _) as [s1|] eqn:Hu; simpl in H; [|done].
      injection H as <-. apply Hchat.
      eapply Inv_update; [exact Hu|exact H0].
    + simpl in H. injection H as <-. by apply Hchat.
Qed.

Lemma Inv_handle_master packet st st' :
  handle_master packet st = Some st' → Inv st → Inv st'.
Proof.
  unfold handle_master. intros H H0. destruct (body packet).
  - unfold handle_REQUEST_PERSISTENT_ID in H. simpl in H. injection H as <-.
    apply Inv_emit; [done|]. by apply Inv_persistentID.
  - unfold handle_REQUEST_ZONE_TRANSFER in H.
    pose proof (Inv_GetInstance (to_u16 zoneID0) false zoneClone st H0) as Hg.
    destruct (GetInstance _ _ _ _) as [p st1]. simpl in Hg.
    destruct (mapM _ _); cbn -[update] in H; [|done].
    destruct (deref p st1) as [i|]; cbn -[update] in H; [|done].
    destruct (negb (ready i)).
    + eapply Inv_update; [exact H|exact Hg].
    + by eapply Inv_RequestAffirmation.
  - by eapply Inv_SERVER_INFO.
  - unfold handle_SET_SESSION_KEY in H. injection H as <-.
    apply Inv_activeSessions. destruct (find_username _ _); [|done].
    apply Inv_emit; [done|]. by apply Inv_activeSessions.
  - unfold handle_REQUEST_SESSION_KEY in H.
    destruct (find_username _ _); injection H as <-; [by apply Inv_emit|done].
  - eapply Inv_find_update; [exact H|exact H0].
  - eapply Inv_find_update; [exact H|exact H0].
  - injection H as <-. by apply Inv_launch.
  - unfold handle_REQUEST_PRIVATE_ZONE in H.
    destruct (FindPrivateInstance _ _); [|by injection H as <-].
    destruct (deref _ _); simpl in H; [|done].
    injection H as <-. by apply Inv_emit.
  - unfold handle_WORLD_READY in H.
    destruct (FindInstance _ _ _);
      [by eapply Inv_ReadyInstance|by injection H as <-].
  - injection H as <-. by apply Inv_GetInstance.
  - unfold handle_AFFIRM_TRANSFER_RESPONSE in H.
    destruct (GetInstanceBySysAddr _ _);
      [by eapply Inv_AffirmTransfer|by injection H as <-].
  - eapply Inv_find_update; [exact H|exact H0].
  - injection H as <-. by apply Inv_shouldShutdown.
  - unfold handle_SHUTDOWN_INSTANCE in H.
    destruct (FindInstance _ _ _); [by eapply Inv_Shutdown|by injection H as <-].
  - unfold handle_GET_INSTANCES in H.
    destruct (deref _ _); simpl in H; [|done].
    destruct (mapM _ _); simpl in H; [|done].
    injection H as <-. by apply Inv_emit.
  - by injection H as <-.
Qed.

Lemma Inv_HandlePacket packet st st' :
  HandlePacket packet st = Some st' → Inv st → Inv st'.
Proof.
  unfold HandlePacket. intros H H0.
  destruct (if bool_decide (data0 packet = ID_DISCONNECTION_NOTIFICATION)
            then _ else _) as [st1|] eqn:E1; simpl in H; [|done].
  destruct (if bool_decide (data0 packet = ID_CONNECTION_LOST)
            then _ else _) as [st2|] eqn:E2; simpl in H; [|done].
  assert (Inv st1) as H1.
  { destruct (bool_decide _); [by eapply Inv_on_peer_gone|by injection E1 as <-]. }
  assert (Inv st2) as H2.
  { destruct (bool_decide (data0 packet = ID_CONNECTION_LOST));
      [by eapply Inv_on_peer_gone|by injection E2 as <-]. }
  destruct (bool_decide (data1 packet = MASTER));
    [by eapply Inv_handle_master|by injection H as <-].
Qed.

Lemma Inv_receive packet st st' :
  receive packet st = Some st' → Inv st → Inv st'.
Proof.
  destruct packet as [p|]; simpl; [by apply Inv_HandlePacket|by intros [= <-]].
Qed.

End Invariants.


(** *** The registry stays in working order *)

Lemma sound_spec st :
  sound st = true ↔ registry_live st = true ∧ NoDup (m_Instances st).
Proof. unfold sound. by rewrite andb_true_iff, bool_decide_eq_true. Qed.

Lemma sound_insert l i (f : Instance → Instance) st :
  objects st !! l = Some i → sound st = true →
  sound (set_objects (<[l := f i]> (objects st)) st) = true.
Proof.
  rewrite !sound_spec. intros _ [H Hnd]. split; [by apply registry_live_insert|done].
Qed.

Lemma sound_RemoveInstance l st :
  sound st = true → sound (RemoveInstance (Some l) st) = true.
Proof.
  rewrite !sound_spec. intros [H Hnd].
  split; [by apply registry_live_RemoveInstance|].
  simpl. by apply list.NoDup_filter.
Qed.

Lemma sound_new i st :
  sound st = true →
  sound (set_registry (m_Instances st ++ [Some (fresh (dom (objects st)))])
           (<[fresh (dom (objects st)) := i]> (objects st)) st) = true.
Proof.
  rewrite !sound_spec. intros [H Hnd]. rewrite registry_live_spec in H. split.
  - apply registry_live_spec. simpl. intros p Hp.
    apply elem_of_app in Hp as [Hp|Hp].
    + by apply (deref_set_objects_insert p _ _ st), H.
    + apply list_elem_of_singleton in Hp as ->. simpl.
      rewrite lookup_insert_eq. by eexists.
  - simpl. apply list.NoDup_app. split_and!; [done| |apply NoDup_singleton].
    intros q Hq Hq'. apply list_elem_of_singleton in Hq' as ->.
    destruct (H _ Hq) as [j Hj]. simpl in Hj. by rewrite fresh_not_live in Hj.
Qed.

Ltac sound_steps :=
  intros;
  first [ done | by apply sound_insert | by apply sound_RemoveInstance
        | by apply sound_new ].

Lemma HandlePacket_sound packet st st' :
  HandlePacket packet st = Some st' → sound st = true → sound st' = true.
Proof. apply (Inv_HandlePacket (λ s, sound s = true)); sound_steps. Qed.

Lemma advance_affirmations_sound instances st st' :
  advance_affirmations instances st = Some st' → sound st = true → sound st' = true.
Proof. apply (Inv_advance_affirmations (λ s, sound s = true)); sound_steps. Qed.

Lemma remove_dead_sound instances st st' :
  remove_dead instances st = Some st' → sound st = true → sound st' = true.
Proof. apply (Inv_remove_dead (λ s, sound s = true)); sound_steps. Qed.

(** *** The loops over the instances are defined on live entries *)

Lemma persists_refl st : persists st st.
Proof. by intros p. Qed.

Lemma persists_trans st1 st2 st3 :
  persists st1 st2 → persists st2 st3 → persists st1 st3.
Proof. intros H1 H2 p Hp. by apply H2, H1. Qed.

Lemma persists_update p f st st' : update p f st = Some st' → persists st st'.
Proof. intros Hu q. by eapply update_keeps_live. Qed.

Lemma persists_launch mapID0 cloneID0 pw st :
  persists st (launch mapID0 cloneID0 pw st).2.
Proof. intros q Hq. by apply (deref_set_objects_insert q _ _ st). Qed.

Lemma GetInstance_defined mapID0 b cloneID0 st :
  is_Some (deref (GetInstance mapID0 b cloneID0 st).1
             (GetInstance mapID0 b cloneID0 st).2)
  ∧ persists st (GetInstance mapID0 b cloneID0 st).2.
Proof.
  unfold GetInstance. destruct (find_ptr _ _ _) as [l|] eqn:Hf.
  - split; [|apply persists_refl].
    apply find_ptr_deref in Hf as (i & Hi & _). by exists i.
  - split; [|apply persists_launch].
    simpl. rewrite lookup_insert_eq. by eexists.
Qed.

Lemma RequestAffirmation_defined p req st :
  is_Some (deref p st) →
  ∃ st', RequestAffirmation p req st = Some st' ∧ persists st st'.
Proof.
  intros [i Hi]. unfold RequestAffirmation. rewrite Hi. cbn -[update].
  destruct p as [l|]; [|done]. simpl in Hi.
  rewrite (update_Some l i); [|done]. eexists. split; [done|].
  intros q Hq. by apply (deref_set_objects_insert q _ _ st).
Qed.

Lemma submit_defined mapID0 cloneID0 req st :
  ∃ st', submit mapID0 cloneID0 req st = Some st' ∧ persists st st'.
Proof.
  unfold submit.
  destruct (GetInstance_defined mapID0 false cloneID0 st) as [[i Hi] Hp].
  destruct (GetInstance _ _ _ _) as [p st1]. simpl in Hi, Hp.
  rewrite Hi. cbn -[update]. destruct (ready i).
  - destruct (RequestAffirmation_defined p req st1) as (st' & -> & Hp');
      [by eexists|].
    exists st'. split; [done|]. by eapply persists_trans.
  - destruct p as [l|]; [|done]. simpl in Hi.
    rewrite (update_Some l i); [|done]. eexists. split; [done|].
    eapply persists_trans; [exact Hp|].
    intros q Hq. by apply (deref_set_objects_insert q _ _ st1).
Qed.

Lemma submit_all_defined mapID0 cloneID0 reqs st :
  ∃ st', submit_all mapID0 cloneID0 reqs st = Some st' ∧ persists st st'.
Proof.
  revert st. induction reqs as [|req reqs IH]; intros st; simpl.
  - exists st. split; [done|apply persists_refl].
  - destruct (submit_defined mapID0 cloneID0 req st) as (st1 & -> & Hp1). simpl.
    destruct (IH st1) as (st' & -> & Hp'). exists st'.
    split; [done|]. by eapply persists_trans.
Qed.

(** The body of the affirmation loop is defined on every live instance,
    and destroys no object. *)
Lemma tick_instance_defined l st :
  is_Some (objects st !! l) →
  ∃ st', tick_instance l st = Some st' ∧ persists st st'.
Proof.
  intros [i Hi]. unfold tick_instance. rewrite Hi.
  cbn -[update Shutdown RedirectPendingRequests].
  rewrite (update_Some l i); [|done].
  cbn -[update Shutdown RedirectPendingRequests].
  set (t := if bool_decide (pendingAffirmations i ≠ []) then _ else _).
  set (st1 := set_objects _ st).
  assert (persists st st1) as P1.
  { intros q Hq. by apply (deref_set_objects_insert q _ _ st). }
  destruct (t =? 1000); [|by exists st1].
  unfold Shutdown, RedirectPendingRequests. simpl.
  repeat (rewrite lookup_insert_eq; simpl).
  match goal with
  | |- ∃ st', submit_all ?m ?c ?rs ?s = Some st' ∧ _ =>
      destruct (submit_all_defined m c rs s) as (st' & -> & Hp')
  end.
  exists st'. split; [done|].
  intros q Hq. apply Hp'.
  apply (deref_set_objects_insert q _ _ (set_objects _ (emit _ st1))).
  apply (deref_set_objects_insert q _ _ (emit _ st1)).
  by apply P1.
Qed.

Lemma advance_affirmations_defined instances st :
  (∀ p, p ∈ instances → is_Some (deref p st)) →
  ∃ st', advance_affirmations instances st = Some st' ∧ persists st st'.
Proof.
  revert st. induction instances as [|[l|] rest IH]; intros st Hlive; simpl.
  - exists st. split; [done|apply persists_refl].
  - destruct (tick_instance_defined l st) as (st1 & -> & P1).
    { apply (Hlive (Some l)). by left. }
    simpl. destruct (IH st1) as (st' & -> & P').
    { intros p Hp. apply P1, Hlive. by right. }
    exists st'. split; [done|]. by eapply persists_trans.
  - exists st. split; [done|apply persists_refl].
Qed.

(** The reaping loop is defined on a snapshot of live entries without
    duplicates: an instance it deletes is not visited again. *)
Lemma remove_dead_defined instances st :
  NoDup instances → (∀ p, p ∈ instances → is_Some (deref p st)) →
  is_Some (remove_dead instances st).
Proof.
  revert st. induction instances as [|[l|] rest IH]; intros st Hnd Hlive; simpl.
  - by eexists.
  - apply list.NoDup_cons in Hnd as [Hl Hnd].
    destruct (Hlive (Some l)) as [i Hi]; [by left|]. simpl in Hi. rewrite Hi. simpl.
    apply IH; [done|]. intros p Hp.
    destruct (Hlive p) as [j Hj]; [by right|].
    destruct (shutdownComplete i); [|by eexists].
    destruct p as [l'|]; [|done]. simpl in *.
    rewrite lookup_delete_ne; [by eexists|]. intros ->. by apply Hl.
  - by eexists.
Qed.

Lemma HandlePacket_defined packet st :
  registry_live st = true →
  is_get_instances (Some packet) = false →
  is_Some (HandlePacket packet st).
Proof.
  intros Hlive Hg. unfold HandlePacket.
  assert (safe_step (if bool_decide (data0 packet = ID_DISCONNECTION_NOTIFICATION)
                     then on_peer_gone packet st else Some st))
    as (st1 & -> & H1).
  { destruct (bool_decide _); [by apply safe_on_peer_gone|by apply safe_step_Some]. }
  simpl.
  assert (safe_step (if bool_decide (data0 packet = ID_CONNECTION_LOST)
                     then on_peer_gone packet st1 else Some st1))
    as (st2 & -> & H2).
  { destruct (bool_decide _); [by apply safe_on_peer_gone|by apply safe_step_Some]. }
  simpl. simpl in Hg. destruct (bool_decide (data1 packet = MASTER)); [|by eexists].
  destruct (safe_handle_master packet st2 H2) as (st3 & -> & _); [|by eexists].
  intros o z a b Hb. by rewrite Hb in Hg.
Qed.

Lemma main_iteration_sound packet c st :
  sound st = true → is_Some (receive packet st) →
  ∃ step, main_iteration packet c st = Some step
          ∧ sound (step_state step) = true.
Proof.
  intros H [st1 Hr]. unfold main_iteration. rewrite Hr. simpl.
  assert (sound st1 = true) as H1.
  { destruct packet as [p|]; simpl in Hr;
      [by eapply HandlePacket_sound|by injection Hr as <-]. }
  set (st3 := if 40000 <=? framesSinceLastSQLPing c then _ else _).
  assert (sound st3 = true) as H3.
  { subst st3. by destruct (40000 <=? _), (900 <=? _). }
  destruct (shouldShutdown st3 && _); [by eexists|].
  pose proof H3 as H3'. apply sound_spec in H3' as [Hlive Hnd].
  rewrite registry_live_spec in Hlive.
  destruct (advance_affirmations_defined (GetInstances st3) st3 Hlive)
    as (st4 & Ha & P4).
  rewrite Ha. simpl.
  destruct (remove_dead_defined (GetInstances st3) st4 Hnd) as [st5 Hd].
  { intros p Hp. by apply P4, Hlive. }
  rewrite Hd. simpl. eexists. split; [done|]. simpl.
  eapply remove_dead_sound; [exact Hd|].
  by eapply advance_affirmations_sound.
Qed.

(** Apart from [GET_INSTANCES], nothing in the control loop runs into a
    null or dangling pointer: from a registry of live entries without
    duplicates, whatever packets arrive, every iteration is defined, in
    its dispatch and in both loops over the instances, and leaves the
    registry in the same working order. *)
Theorem control_loop_defined (n : N) (packets : list (option Packet))
    (c : LoopCounters) (st : Master) :
  sound st = true →
  forallb (λ p, negb (is_get_instances p)) packets = true →
  ∃ r, run_main_from n packets c st = Some r
       ∧ sound (result_state r) = true.
Proof.
  revert n c st. induction packets as [|packet rest IH]; intros n c st H Hp; simpl.
  - by eexists.
  - simpl in Hp. apply andb_true_iff in Hp as [Hp Hrest].
    apply negb_true_iff in Hp.
    destruct (main_iteration_sound packet c st H) as (step & -> & Hs).
    { destruct packet as [p|]; simpl; [|by eexists].
      apply HandlePacket_defined; [by apply sound_spec in H as [? _]|done]. }
    destruct step as [c1 st1|c1 st1]; [by apply IH|by eexists].
Qed.

(** Every packet leaves the registry in working order: live entries, no
    duplicates. *)
Theorem registry_stays_sound (packet : Packet) (st st' : Master) :
  sound st = true → HandlePacket packet st = Some st' → sound st' = true.
Proof.
  intros H Hh.
  eapply (Inv_HandlePacket (λ s, sound s = true)); [sound_steps..|exact Hh|exact H].
Qed.


(** *** The housekeeping schedule *)

Lemma count_effect_emit e e' st :
  count_effect e (emit e' st)
  = (count_effect e st + (if bool_decide (e' = e) then 1 else 0))%nat.
Proof.
  unfold count_effect. simpl. rewrite list.filter_app, length_app. f_equal.
  rewrite filter_cons, filter_nil. by case_bool_decide; destruct (decide _).
Qed.

Ltac count_steps :=
  intros;
  first
    [ assumption
    | match goal with
      | He : is_housekeeping ?e = false, H : _ ∧ _ |- _ =>
          destruct H; rewrite !count_effect_emit;
          destruct e; try discriminate;
          rewrite !bool_decide_eq_false_2 by discriminate; simpl; lia
      end ].

Lemma HandlePacket_housekeeping packet st st' :
  HandlePacket packet st = Some st' →
  count_effect LoggerFlush st' = count_effect LoggerFlush st
  ∧ count_effect SqlPing st' = count_effect SqlPing st.
Proof.
  intros H.
  eapply (Inv_HandlePacket
            (λ s, count_effect LoggerFlush s = count_effect LoggerFlush st
                  ∧ count_effect SqlPing s = count_effect SqlPing st));
    [count_steps..|exact H|done].
Qed.

Lemma advance_affirmations_housekeeping instances st st' :
  advance_affirmations instances st = Some st' →
  count_effect LoggerFlush st' = count_effect LoggerFlush st
  ∧ count_effect SqlPing st' = count_effect SqlPing st.
Proof.
  intros H.
  eapply (Inv_advance_affirmations
            (λ s, count_effect LoggerFlush s = count_effect LoggerFlush st
                  ∧ count_effect SqlPing s = count_effect SqlPing st));
    [count_steps..|exact H|done].
Qed.

Lemma remove_dead_housekeeping instances st st' :
  remove_dead instances st = Some st' →
  count_effect LoggerFlush st' = count_effect LoggerFlush st
  ∧ count_effect SqlPing st' = count_effect SqlPing st.
Proof.
  intros H.
  eapply (Inv_remove_dead
            (λ s, count_effect LoggerFlush s = count_effect LoggerFlush st
                  ∧ count_effect SqlPing s = count_effect SqlPing st));
    [count_steps..|exact H|done].
Qed.

(** One iteration that does not leave the loop: the two counters, and how
    often the two housekeeping actions have been taken. *)
Lemma main_iteration_housekeeping packet c st c1 st1 :
  main_iteration packet c st = Some (Continue c1 st1) →
  framesSinceLastFlush c1
    = (if 900 <=? framesSinceLastFlush c then 0 else framesSinceLastFlush c + 1)
  ∧ framesSinceLastSQLPing c1
    = (if 40000 <=? framesSinceLastSQLPing c then 0
       else framesSinceLastSQLPing c + 1)
  ∧ count_effect LoggerFlush st1
    = (count_effect LoggerFlush st
       + (if (900 <=? framesSinceLastFlush c)%Z then 1 else 0))%nat
  ∧ count_effect SqlPing st1
    = (count_effect SqlPing st
       + (if (40000 <=? framesSinceLastSQLPing c)%Z then 1 else 0))%nat.
Proof.
  unfold main_iteration.
  destruct (receive packet st) as [s1|] eqn:Hr; simpl; [|done].
  assert (count_effect LoggerFlush s1 = count_effect LoggerFlush st
          ∧ count_effect SqlPing s1 = count_effect SqlPing st) as [Hf1 Hp1].
  { destruct packet as [p|]; simpl in Hr;
      [by eapply HandlePacket_housekeeping|by injection Hr as <-]. }
  set (s3 := if 40000 <=? framesSinceLastSQLPing c then _ else _).
  assert (count_effect LoggerFlush s3
          = (count_effect LoggerFlush st
             + (if (900 <=? framesSinceLastFlush c)%Z then 1 else 0))%nat
          ∧ count_effect SqlPing s3
            = (count_effect SqlPing st
               + (if (40000 <=? framesSinceLastSQLPing c)%Z then 1 else 0))%nat)
    as [Hf3 Hp3].
  { subst s3. destruct (40000 <=? _), (900 <=? _);
      rewrite ?count_effect_emit; simpl; lia. }
  destruct (shouldShutdown s3 && _); [done|].
  destruct (advance_affirmations _ _) as [s4|] eqn:Ha; simpl; [|done].
  destruct (remove_dead _ _) as [s5|] eqn:Hd; simpl; [|done].
  intros [= <- <-]. simpl.
  apply advance_affirmations_housekeeping in Ha as [Hf4 Hp4].
  apply remove_dead_housekeeping in Hd as [Hf5 Hp5].
  split_and!; [done|done|lia|lia].
Qed.

(** The housekeeping schedule does not depend on the traffic.  As long
    as the loop runs, the logger is flushed once every 901 iterations and
    the SQL connection is pinged once every 40001 iterations: after [k]
    iterations from counters [f] and [p], there have been [(f + k) / 901]
    flushes and [(p + k) / 40001] pings, and the counters stand at
    [(f + k) mod 901] and [(p + k) mod 40001]. *)
Theorem housekeeping_schedule (n : N) (packets : list (option Packet))
    (c c' : LoopCounters) (st st' : Master) :
  0 ≤ framesSinceLastFlush c ≤ 900 →
  0 ≤ framesSinceLastSQLPing c ≤ 40000 →
  run_main_from n packets c st = Some (Running c' st') →
  Z.of_nat (count_effect LoggerFlush st')
    = Z.of_nat (count_effect LoggerFlush st)
      + (framesSinceLastFlush c + Z.of_nat (length packets)) / 901
  ∧ framesSinceLastFlush c'
    = (framesSinceLastFlush c + Z.of_nat (length packets)) mod 901
  ∧ Z.of_nat (count_effect SqlPing st')
    = Z.of_nat (count_effect SqlPing st)
      + (framesSinceLastSQLPing c + Z.of_nat (length packets)) / 40001
  ∧ framesSinceLastSQLPing c'
    = (framesSinceLastSQLPing c + Z.of_nat (length packets)) mod 40001.
Proof.
  revert n c st. induction packets as [|packet rest IH]; intros n c st Hf Hp; simpl.
  - intros [= <- <-]. rewrite !Z.add_0_r.
    rewrite !Z.div_small, !Z.mod_small by lia. lia.
  - destruct (main_iteration packet c st) as [[c1 st1|c1 st1]|] eqn:Hm; [|done..].
    intros Hrun.
    apply main_iteration_housekeeping in Hm as (Hf1 & Hp1 & Hcf & Hcp).
    assert (0 ≤ framesSinceLastFlush c1 ≤ 900) as Hf1'.
    { rewrite Hf1. destruct (900 <=? _) eqn:E; [lia|]. apply Z.leb_gt in E. lia. }
    assert (0 ≤ framesSinceLastSQLPing c1 ≤ 40000) as Hp1'.
    { rewrite Hp1. destruct (40000 <=? _) eqn:E; [lia|]. apply Z.leb_gt in E. lia. }
    destruct (IH _ _ _ Hf1' Hp1' Hrun) as (Gf & Gc & Gp & Gd).
    rewrite Gf, Gc, Gp, Gd, Hcf, Hcp, Hf1, Hp1.
    replace (Z.of_nat (S (length rest))) with (Z.of_nat (length rest) + 1) by lia.
    destruct (900 <=? framesSinceLastFlush c) eqn:Ef;
      [apply Z.leb_le in Ef|apply Z.leb_gt in Ef];
      (destruct (40000 <=? framesSinceLastSQLPing c) eqn:Ep;
       [apply Z.leb_le in Ep|apply Z.leb_gt in Ep]);
      repeat split;
      try (f_equal; lia);
      try (replace (framesSinceLastFlush c) with 900 by lia);
      try (replace (framesSinceLastSQLPing c) with 40000 by lia);
      try (replace (900 + (Z.of_nat (length rest) + 1))
             with (Z.of_nat (length rest) + 1 * 901) by lia;
           rewrite ?Z.div_add, ?Z_mod_plus_full by lia);
      try (replace (40000 + (Z.of_nat (length rest) + 1))
             with (Z.of_nat (length rest) + 1 * 40001) by lia;
           rewrite ?Z.div_add, ?Z_mod_plus_full by lia);
      rewrite ?Z.add_0_l;
      try (replace (framesSinceLastFlush c + 1 + Z.of_nat (length rest))
             with (framesSinceLastFlush c + (Z.of_nat (length rest) + 1)) by lia);
      try (replace (framesSinceLastSQLPing c + 1 + Z.of_nat (length rest))
             with (framesSinceLastSQLPing c + (Z.of_nat (length rest) + 1)) by lia);
      try lia; try done.
Qed.

(** *** What [GET_INSTANCES] lists *)

Lemma mapM_deref_omap st v :
  (∀ p, p ∈ v → is_Some (deref p st)) →
  mapM (λ p, deref p st) v = Some (omap (λ p, deref p st) v).
Proof.
  induction v as [|p v IH]; intros H; [done|].
  destruct (H p (list_elem_of_here _ _)) as [i Hi].
  cbn. rewrite Hi. cbn. rewrite IH; [done|].
  intros q Hq. apply H. by right.
Qed.

Lemma mapM_filter_ptr (m : Z) st v :
  mapM (λ p, deref p st)
    (filter_ptr (λ i, bool_decide (GetMapID i = m)) (objects st) v)
  = Some (filter (λ i, GetMapID i = m) (omap (λ p, deref p st) v)).
Proof.
  induction v as [|p v IH]; [done|].
  assert (∀ q w, mapM (λ p, deref p st) (q :: w)
                 = y ← deref q st; k ← mapM (λ p, deref p st) w; Some (y :: k))
    as Hcons by done.
  change (omap (λ p, deref p st) (p :: v))
    with (match deref p st with
          | Some i => i :: omap (λ p, deref p st) v
          | None => omap (λ p, deref p st) v
          end).
  change (filter_ptr (λ i, bool_decide (GetMapID i = m)) (objects st) (p :: v))
    with (match deref p st with
          | Some i =>
              if bool_decide (GetMapID i = m)
              then p :: filter_ptr (λ i, bool_decide (GetMapID i = m)) (objects st) v
              else filter_ptr (λ i, bool_decide (GetMapID i = m)) (objects st) v
          | None => filter_ptr (λ i, bool_decide (GetMapID i = m)) (objects st) v
          end).
  destruct (deref p st) as [i|] eqn:Hp; [|exact IH].
  rewrite filter_cons. case_bool_decide as Hm.
  - rewrite decide_True by done. rewrite Hcons, Hp, IH. done.
  - rewrite decide_False by done. exact IH.
Qed.

(** [GET_INSTANCES] answers the responding instance, not the sender of
    the packet, and lists the registry in registry order: all of it when
    no zone is given, and also when the zone given is
    [LWOMAPID_INVALID]; otherwise the instances of that map. *)
Theorem get_instances_listing (packet : Packet) (st : Master)
    (objectID : Z) (zoneID_read : option Z) (rz ri : Z) (l : loc) :
  data0 packet ≠ ID_DISCONNECTION_NOTIFICATION →
  data0 packet ≠ ID_CONNECTION_LOST →
  data1 packet = MASTER →
  body packet = MSG_MASTER_GET_INSTANCES objectID zoneID_read rz ri →
  registry_live st = true →
  FindInstance rz ri st = Some l →
  ∃ responding,
    objects st !! l = Some responding
    ∧ HandlePacket packet st =
        Some (emit
                (Send
                   (RESPOND_INSTANCES objectID
                      ((λ i, (GetMapID i, GetCloneID i, GetInstanceID i)) <$>
                         (if bool_decide (default LWOMAPID_INVALID zoneID_read
                                          = LWOMAPID_INVALID)
                          then registered st
                          else filter
                                 (λ i, GetMapID i
                                       = default LWOMAPID_INVALID zoneID_read)
                                 (registered st))))
                   (sysAddr responding)) st).
Proof.
  intros Hd Hl Hm Hbody Hlive Hf.
  rewrite (HandlePacket_master _ _ Hd Hl Hm). unfold handle_master.
  rewrite Hbody. unfold handle_GET_INSTANCES. rewrite Hf.
  apply find_ptr_Some in Hf as (i & Hi & _). exists i. split; [done|].
  simpl. rewrite Hi. simpl.
  destruct (default LWOMAPID_INVALID zoneID_read =? LWOMAPID_INVALID) eqn:Hz.
  - apply Z.eqb_eq in Hz. rewrite bool_decide_eq_true_2 by done.
    unfold GetInstances. rewrite mapM_deref_omap; [done|].
    by apply registry_live_spec.
  - apply Z.eqb_neq in Hz. rewrite bool_decide_eq_false_2 by done.
    unfold FindInstancesByMapID. by rewrite mapM_filter_ptr.
Qed.

(** *** Private zones: create, then join *)

Lemma find_ptr_new P o v l i :
  o !! l = None → find_ptr P o v = None → P i = true →
  find_ptr P (<[l := i]> o) (v ++ [Some l]) = Some l.
Proof.
  intros Hl. induction v as [|p v IH]; simpl; intros Hn HP.
  - by rewrite lookup_insert_eq, HP.
  - destruct p as [l'|]; simpl in *; [|by apply IH].
    destruct (decide (l = l')) as [<-|Hne].
    + by rewrite lookup_insert_eq, HP.
    + rewrite lookup_insert_ne by done.
      destruct (o !! l') as [j|]; [|by apply IH].
      destruct (P j); [done|by apply IH].
Qed.

Lemma to_u16_idem x : to_u16 (to_u16 x) = to_u16 x.
Proof. unfold to_u16. by rewrite Z.mod_mod. Qed.

(** A private zone created with a password no registered instance
    carries is found by the next [REQUEST_PRIVATE_ZONE] whose password
    agrees with it up to the first NUL, and the requester is sent the
    coordinates of the instance just launched. *)
Theorem private_zone_round_trip (create request : Packet) (st : Master)
    (mapId cloneId : Z) (password : string)
    (requestID0 mythranShift0 : Z) (password' : string) :
  data0 create ≠ ID_DISCONNECTION_NOTIFICATION →
  data0 create ≠ ID_CONNECTION_LOST →
  data1 create = MASTER →
  body create = MSG_MASTER_CREATE_PRIVATE_ZONE mapId cloneId password →
  data0 request ≠ ID_DISCONNECTION_NOTIFICATION →
  data0 request ≠ ID_CONNECTION_LOST →
  data1 request = MASTER →
  body request = MSG_MASTER_REQUEST_PRIVATE_ZONE requestID0 mythranShift0 password' →
  c_str password' = c_str password →
  FindPrivateInstance (c_str password) st = nullptr →
  ∃ st1,
    HandlePacket create st = Some st1
    ∧ effects st1 =
        effects st ++
        [SpawnWorldServer (mExternalIP st) (to_u16 (GetFreePort st))
           (to_u16 mapId) (to_u16 (NewInstanceID st)) (to_u32 cloneId)
           (GetHardCap (to_u16 mapId))]
    ∧ HandlePacket request st1 =
        Some (emit
                (Send
                   (ZONE_TRANSFER_RESPONSE requestID0 (negb (mythranShift0 =? 0))
                      (to_u16 mapId) (to_u16 (NewInstanceID st)) (to_u32 cloneId)
                      (mExternalIP st) (to_u16 (GetFreePort st)))
                   (systemAddress request)) st1).
Proof.
  intros Hd Hl Hm Hbody Hd' Hl' Hm' Hbody' Hpw Hnone.
  rewrite (HandlePacket_master _ _ Hd Hl Hm). unfold handle_master.
  rewrite Hbody. unfold handle_CREATE_PRIVATE_ZONE, CreatePrivateInstance.
  eexists. split; [done|]. split.
  { unfold launch, alloc, GetMapID, GetInstanceID, GetCloneID. simpl.
    by rewrite to_u16_idem. }
  rewrite (HandlePacket_master _ _ Hd' Hl' Hm'). unfold handle_master.
  rewrite Hbody'. unfold handle_REQUEST_PRIVATE_ZONE, FindPrivateInstance.
  rewrite Hpw. simpl.
  rewrite (find_ptr_new _ _ _ _ _ (fresh_not_live st) Hnone);
    [|by apply bool_decide_eq_true_2].
  simpl. rewrite lookup_insert_eq. simpl.
  unfold SendZoneTransferResponse, GetMapID, GetInstanceID, GetCloneID. simpl.
  by rewrite to_u16_idem.
Qed.

(** *** [PREP_ZONE] is idempotent *)

(** A repeated [PREP_ZONE] changes nothing: when the soft cap of the zone
    is positive, the instance that the first message resolved or launched
    is the one the second resolves, so no second world server is
    launched. *)
Theorem prep_zone_idempotent (packet : Packet) (st st1 : Master) (zoneID0 : Z) :
  data0 packet ≠ ID_DISCONNECTION_NOTIFICATION →
  data0 packet ≠ ID_CONNECTION_LOST →
  data1 packet = MASTER →
  body packet = MSG_MASTER_PREP_ZONE zoneID0 →
  0 < GetSoftCap (to_u16 zoneID0) →
  HandlePacket packet st = Some st1 →
  HandlePacket packet st1 = Some st1.
Proof.
  intros Hd Hl Hm Hbody Hcap.
  rewrite !(HandlePacket_master _ _ Hd Hl Hm). unfold handle_master.
  rewrite Hbody. unfold handle_PREP_ZONE, GetInstance.
  destruct (find_ptr _ (objects st) _) as [l|] eqn:Hf.
  - intros [= <-]. by rewrite Hf.
  - intros [= <-]. simpl.
    rewrite (find_ptr_new _ _ _ _ _ (fresh_not_live st) Hf); [done|].
    unfold is_available, GetMapID. simpl. rewrite to_u16_idem.
    rewrite !bool_decide_eq_true_2; [done|simpl; lia|done].
Qed.

(** *** Player counts *)

Lemma RemovePlayer_AddPlayer i : RemovePlayer (AddPlayer i) = i.
Proof. by destruct i. Qed.

Lemma find_ptr_insert P o v l i i' :
  o !! l = Some i → P i' = P i →
  find_ptr P (<[l := i']> o) v = find_ptr P o v.
Proof.
  intros Hl HP. induction v as [|p v IH]; [done|]. simpl.
  destruct p as [l'|]; simpl; [|exact IH].
  destruct (decide (l = l')) as [<-|Hne].
  - rewrite lookup_insert_eq, Hl, HP. by destruct (P i).
  - rewrite lookup_insert_ne by done. by rewrite IH.
Qed.

(** [PLAYER_ADDED] followed by [PLAYER_REMOVED] for the same registered
    instance brings the state back to what it was. *)
Theorem player_added_then_removed (added removed : Packet) (st : Master)
    (theirZoneID theirInstanceID : Z) (l : loc) :
  data0 added ≠ ID_DISCONNECTION_NOTIFICATION →
  data0 added ≠ ID_CONNECTION_LOST →
  data1 added = MASTER →
  body added = MSG_MASTER_PLAYER_ADDED theirZoneID theirInstanceID →
  data0 removed ≠ ID_DISCONNECTION_NOTIFICATION →
  data0 removed ≠ ID_CONNECTION_LOST →
  data1 removed = MASTER →
  body removed = MSG_MASTER_PLAYER_REMOVED theirZoneID theirInstanceID →
  FindInstance theirZoneID theirInstanceID st = Some l →
  ∃ i st1,
    objects st !! l = Some i
    ∧ HandlePacket added st = Some st1
    ∧ objects st1 !! l = Some (AddPlayer i)
    ∧ HandlePacket removed st1 = Some st.
Proof.
  intros Hd Hl Hm Hbody Hd' Hl' Hm' Hbody' Hf.
  pose proof Hf as Hf'. apply find_ptr_Some in Hf' as (i & Hi & _).
  rewrite (HandlePacket_master _ _ Hd Hl Hm). unfold handle_master.
  rewrite Hbody. unfold handle_PLAYER_ADDED. rewrite Hf.
  rewrite (update_Some l i); [|done].
  exists i. eexists. split_and!; [done|done|by simpl; rewrite lookup_insert_eq|].
  rewrite (HandlePacket_master _ _ Hd' Hl' Hm'). unfold handle_master.
  rewrite Hbody'. unfold handle_PLAYER_REMOVED, FindInstance. simpl.
  rewrite (find_ptr_insert _ _ _ l i); [|done|done].
  unfold FindInstance in Hf. rewrite Hf.
  rewrite (update_Some l (AddPlayer i)); [|by simpl; rewrite lookup_insert_eq].
  simpl. rewrite insert_insert_eq, RemovePlayer_AddPlayer, insert_id by done.
  by destruct st.
Qed.

(** *** A transfer held until the world is ready *)

(** The whole exchange for a transfer to an instance that is still
    starting.  The request is held and nothing is sent; when the world
    reports [WORLD_READY] the instance is sent [PREP_ZONE]; when its
    peer then affirms the request, the original requester is sent
    [ZONE_TRANSFER_RESPONSE] with the instance's coordinates.  At the
    end the instance is ready and holds no request. *)
Theorem transfer_handshake (request world_ready affirm : Packet) (st : Master)
    (requestID0 mythranShift0 zoneID0 zoneClone : Z) (l : loc) (i : Instance) :
  data0 request ≠ ID_DISCONNECTION_NOTIFICATION →
  data0 request ≠ ID_CONNECTION_LOST →
  data1 request = MASTER →
  body request
    = MSG_MASTER_REQUEST_ZONE_TRANSFER requestID0 mythranShift0 zoneID0 zoneClone →
  data0 world_ready ≠ ID_DISCONNECTION_NOTIFICATION →
  data0 world_ready ≠ ID_CONNECTION_LOST →
  data1 world_ready = MASTER →
  body world_ready = MSG_MASTER_WORLD_READY (GetMapID i) (GetInstanceID i) →
  data0 affirm ≠ ID_DISCONNECTION_NOTIFICATION →
  data0 affirm ≠ ID_CONNECTION_LOST →
  data1 affirm = MASTER →
  body affirm = MSG_MASTER_AFFIRM_TRANSFER_RESPONSE requestID0 →
  systemAddress affirm = sysAddr i →
  registry_live st = true →
  objects st !! l = Some i →
  ready i = false → pendingRequests i = [] → pendingAffirmations i = [] →
  GetInstance (to_u16 zoneID0) false zoneClone st = (Some l, st) →
  FindInstance (GetMapID i) (GetInstanceID i) st = Some l →
  GetInstanceBySysAddr (sysAddr i) st = Some l →
  ∃ st1 st2 st3,
    HandlePacket request st = Some st1
    ∧ effects st1 = effects st
    ∧ HandlePacket world_ready st1 = Some st2
    ∧ effects st2 = effects st ++ [Send (PREP_ZONE (GetMapID i)) (sysAddr i)]
    ∧ HandlePacket affirm st2 = Some st3
    ∧ effects st3 =
        effects st2 ++
        [Send (ZONE_TRANSFER_RESPONSE requestID0 (negb (mythranShift0 =? 0))
                 (GetMapID i) (GetInstanceID i) (GetCloneID i) (ip i) (port i))
           (systemAddress request)]
    ∧ objects st3 = <[l := SetIsReady true i]> (objects st)
    ∧ m_Instances st3 = m_Instances st
    ∧ (∃ i1,
         objects st1 !! l = Some i1 ∧ ready i1 = false
         ∧ pendingRequests i1 =
             [mkTransferRequest requestID0 (negb (mythranShift0 =? 0))
                (systemAddress request)]
         ∧ pendingAffirmations i1 = [])
    ∧ (∃ i2,
         objects st2 !! l = Some i2 ∧ ready i2 = true
         ∧ pendingRequests i2 = []
         ∧ pendingAffirmations i2 =
             [mkTransferRequest requestID0 (negb (mythranShift0 =? 0))
                (systemAddress request)]).
Proof.
  intros Hd1 Hl1 Hm1 Hb1 Hd2 Hl2 Hm2 Hb2 Hd3 Hl3 Hm3 Hb3 Hfrom Hlive Hi
    Hready Hpr Hpa Hget Hfind Hpeer.
  set (req := mkTransferRequest requestID0 (negb (mythranShift0 =? 0))
                (systemAddress request)).
  set (i1 := push_back_PendingRequest req i).
  set (i2 := add_affirmation req (SetPendingRequests [] (SetIsReady true i1))).
  set (st1 := set_objects (<[l := i1]> (objects st)) st).
  set (st2 := set_objects (<[l := i2]> (objects st1))
                (emit (Send (PREP_ZONE (GetMapID i)) (sysAddr i)) st1)).
  assert (HandlePacket request st = Some st1) as H1.
  { rewrite (HandlePacket_master _ _ Hd1 Hl1 Hm1). unfold handle_master.
    rewrite Hb1. unfold handle_REQUEST_ZONE_TRANSFER. rewrite Hget.
    unfold GetInstances. destruct (mapM_deref_live st Hlive) as [xs ->].
    cbn -[update]. rewrite Hi. cbn -[update]. rewrite Hready. cbn -[update].
    by rewrite (update_Some l i). }
  assert (HandlePacket world_ready st1 = Some st2) as H2.
  { rewrite (HandlePacket_master _ _ Hd2 Hl2 Hm2). unfold handle_master.
    rewrite Hb2. unfold handle_WORLD_READY, FindInstance. subst st1. simpl.
    rewrite (find_ptr_insert _ _ _ l i); [|done|done].
    unfold FindInstance in Hfind. rewrite Hfind.
    unfold ReadyInstance. simpl. rewrite lookup_insert_eq. simpl.
    rewrite Hpr. simpl.
    unfold RequestAffirmation. simpl. rewrite lookup_insert_eq. simpl.
    rewrite insert_insert_eq. done. }
  eexists st1, st2, _. split_and!; [exact H1|done|exact H2|done| | | | | |].
  - rewrite (HandlePacket_master _ _ Hd3 Hl3 Hm3). unfold handle_master.
    rewrite Hb3. unfold handle_AFFIRM_TRANSFER_RESPONSE, GetInstanceBySysAddr.
    rewrite Hfrom. subst st2 st1. simpl.
    rewrite (find_ptr_insert _ _ _ l i1); [|by rewrite lookup_insert_eq|done].
    rewrite (find_ptr_insert _ _ _ l i); [|done|done].
    unfold GetInstanceBySysAddr in Hpeer. rewrite Hpeer.
    unfold AffirmTransfer. simpl. rewrite lookup_insert_eq. simpl.
    rewrite Hpa, bool_decide_eq_false_2 by apply not_elem_of_nil.
    simpl. rewrite Z.eqb_refl. simpl.
    rewrite ?lookup_insert_eq. simpl. done.
  - done.
  - simpl. rewrite !insert_insert_eq. f_equal.
    rewrite filter_cons, decide_False, filter_nil by (by intros ?).
    subst i2 i1. unfold add_affirmation, push_back_PendingRequest.
    destruct i. simpl in *. by subst.
  - done.
  - exists i1. subst st1 i1. simpl. rewrite lookup_insert_eq.
    split_and!; [done|done| |done]. by rewrite Hpr.
  - exists i2. subst st2 st1 i2 i1. simpl. rewrite lookup_insert_eq.
    split_and!; [done|done|done|]. rewrite Hpa.
    by rewrite bool_decide_eq_false_2 by apply not_elem_of_nil.
Qed.

(** *** Start-up *)

Lemma launch_props mapID0 cloneID0 pw st p st' :
  launch mapID0 cloneID0 pw st = (p, st') →
  ∃ l i,
    p = Some l ∧ objects st !! l = None
    ∧ m_Instances st' = m_Instances st ++ [Some l]
    ∧ objects st' = <[l := i]> (objects st)
    ∧ mExternalIP st' = mExternalIP st
    ∧ effects st' =
        effects st ++
        [SpawnWorldServer (mExternalIP st) (port i) (to_u16 mapID0)
           (GetInstanceID i) (to_u32 cloneID0) (GetHardCap mapID0)]
    ∧ GetMapID i = to_u16 mapID0 ∧ GetCloneID i = to_u32 cloneID0
    ∧ ready i = false.
Proof.
  unfold launch, alloc. intros [= <- <-].
  eexists _, _. split_and!; try done. apply fresh_not_live.
Qed.

(** On the empty registry of a master that has just started, the
    start-up block starts the chat server, launches one world server for
    zone 0 and one for zone 1000 (clone 0, on the master's external
    address, each with the port and the instance id of the instance
    registered for it), and starts the auth server, in this order; both
    instances are registered as ready at once, before any [WORLD_READY]
    is received. *)
Theorem prestart_zones (st : Master) :
  m_Instances st = [] →
  ∃ st' l0 l1 i0 i1,
    prestart true st = Some st'
    ∧ m_Instances st' = [Some l0; Some l1]
    ∧ l0 ≠ l1
    ∧ objects st' !! l0 = Some i0 ∧ objects st' !! l1 = Some i1
    ∧ GetMapID i0 = 0 ∧ GetMapID i1 = 1000
    ∧ GetCloneID i0 = 0 ∧ GetCloneID i1 = 0
    ∧ ready i0 = true ∧ ready i1 = true
    ∧ effects st' =
        effects st ++
        [SpawnChatServer;
         SpawnWorldServer (mExternalIP st) (port i0) 0 (GetInstanceID i0) 0
           (GetHardCap 0);
         SpawnWorldServer (mExternalIP st) (port i1) 1000 (GetInstanceID i1) 0
           (GetHardCap 1000);
         SpawnAuthServer].
Proof.
  intros Hreg. unfold prestart.
  destruct (GetInstance 0 false 0 (StartChatServer st)) as [p0 st2] eqn:H0.
  unfold GetInstance in H0. simpl in H0. rewrite Hreg in H0. simpl in H0.
  apply launch_props in H0
    as (l0 & i0 & -> & Hf0 & Hm2 & Ho2 & Hip2 & He2 & Hz0 & Hc0 & _).
  rewrite (update_Some l0 i0) by (by rewrite Ho2, lookup_insert_eq).
  set (st3 := set_objects (<[l0 := SetIsReady true i0]> (objects st2)) st2).
  cbn [mbind option_bind].
  assert (find_ptr (is_available 1000) (objects st3) (m_Instances st3) = None)
    as Hnone.
  { apply find_ptr_None. intros l i Hin Hl. subst st3. simpl in Hin, Hl.
    rewrite Hm2 in Hin. simpl in Hin. rewrite Hreg in Hin.
    apply list_elem_of_singleton in Hin as [= ->].
    rewrite lookup_insert_eq in Hl. injection Hl as <-.
    unfold is_available.
    change (GetMapID (SetIsReady true i0)) with (GetMapID i0). rewrite Hz0.
    rewrite (bool_decide_eq_false_2 (to_u16 0 = 1000)) by done.
    by rewrite andb_false_r. }
  destruct (GetInstance 1000 false 0 st3) as [p1 st4] eqn:H1.
  unfold GetInstance in H1. rewrite Hnone in H1.
  apply launch_props in H1
    as (l1 & i1 & -> & Hf1 & Hm4 & Ho4 & Hip4 & He4 & Hz1 & Hc1 & _).
  rewrite (update_Some l1 i1) by (by rewrite Ho4, lookup_insert_eq).
  cbn [mbind option_bind].
  assert (l0 ≠ l1) as Hne.
  { intros <-. subst st3. simpl in Hf1. by rewrite lookup_insert_eq in Hf1. }
  eexists _, l0, l1, (SetIsReady true i0), (SetIsReady true i1).
  split_and!; [done| | | | | | | | | | |].
  - simpl. rewrite Hm4. subst st3. simpl. rewrite Hm2. simpl. by rewrite Hreg.
  - done.
  - simpl. rewrite lookup_insert_ne by done. rewrite Ho4.
    rewrite lookup_insert_ne by done. subst st3. simpl.
    by rewrite lookup_insert_eq.
  - simpl. by rewrite lookup_insert_eq.
  - exact Hz0.
  - exact Hz1.
  - exact Hc0.
  - exact Hc1.
  - done.
  - done.
  - simpl. rewrite He4. subst st3. simpl. rewrite He2. simpl.
    rewrite <- !app_assoc. simpl. by rewrite Hip2.
Qed.

End MasterServer.

(** ** The properties on the sample configurations *)

Abbreviation sample_HandlePacket :=
  (HandlePacket sample_GetFreePort sample_NewInstanceID sample_cap sample_cap
     sample_LWOMAPID_INVALID sample_initial_sysAddr).

Lemma unknown_peer_reply_ignored_witness :
  sample_HandlePacket
    (master_packet client_peer (MSG_MASTER_AFFIRM_TRANSFER_RESPONSE 7))
    master_one_world = Some master_one_world.
Proof.
  apply unknown_peer_reply_ignored;
    [done | done | done | left; by eexists | reflexivity].
Defined.

Lemma get_instances_null_dereference_witness :
  sample_HandlePacket
    (master_packet client_peer (MSG_MASTER_GET_INSTANCES 5 None 1300 1))
    master_one_world = None.
Proof.
  refine (proj1 (get_instances_null_dereference _ _ _ _ _ _
                   (master_packet client_peer (MSG_MASTER_GET_INSTANCES 5 None 1300 1))
                   master_one_world 5 None 1300 1 _ _ _ _) _);
    [done | done | done | done | reflexivity].
Defined.

Lemma peer_loss_handling_witness :
  ∃ st1,
    sample_HandlePacket
      (mkPacket world_peer ID_DISCONNECTION_NOTIFICATION (CONN_OTHER 0)
         (MSG_MASTER_UNKNOWN 0))
      master_one_world = Some st1
    ∧ m_Instances st1 = []
    ∧ objects st1 !! 1%positive = None
    ∧ effects st1 = [].
Proof.
  destruct (peer_loss_handling sample_GetFreePort sample_NewInstanceID
              sample_cap sample_cap sample_LWOMAPID_INVALID sample_initial_sysAddr
              (mkPacket world_peer ID_DISCONNECTION_NOTIFICATION (CONN_OTHER 0)
                 (MSG_MASTER_UNKNOWN 0))
              master_one_world)
    as (st1 & H & _ & Hquiet & Hrem & _); [by left|].
  destruct Hrem as (l & i & pre & post & Hreg & _ & _ & _ & _ & Hgone & Hm & _).
  { exists 1%positive, world_1200. split_and!; [by left|reflexivity|reflexivity]. }
  assert (l = 1%positive) as ->.
  { destruct pre as [|p pre]; [by injection Hreg as <-|].
    injection Hreg as _ Hreg. by destruct pre. }
  exists st1. split_and!; [exact H | by rewrite Hm | exact Hgone |].
  apply Hquiet. intros [E _]. discriminate E.
Defined.


Lemma universe_shutdown_deadline_witness :
  ∃ c' st',
    run_main sample_GetFreePort sample_NewInstanceID sample_cap sample_cap
      sample_LWOMAPID_INVALID sample_initial_sysAddr
      (Some (master_packet world_peer MSG_MASTER_SHUTDOWN_UNIVERSE)
         :: replicate (Z.to_nat 40000) None)
      (mkLoopCounters 0 0 0) master_one_world
    = Some (Broke 40000 c' st').
Proof.
  refine (proj2 (proj2 (universe_shutdown_deadline sample_GetFreePort
            sample_NewInstanceID sample_cap sample_cap sample_LWOMAPID_INVALID sample_initial_sysAddr
            (master_packet world_peer MSG_MASTER_SHUTDOWN_UNIVERSE)
            (replicate (Z.to_nat 40000) None) (mkLoopCounters 0 0 0)
            master_one_world _ _ _ _ _ _)) _);
    [done | done | done | done | done | | by rewrite length_replicate].
  eexists. vm_compute. reflexivity.
Defined.

Lemma shutdown_sequence_drain_witness :
  ∃ out st2,
    ShutdownSequence sample_GetFreePort sample_NewInstanceID sample_cap
      sample_cap sample_LWOMAPID_INVALID sample_initial_sysAddr false true true 3600
      [None; Some (mkPacket world_peer ID_DISCONNECTION_NOTIFICATION
                     (CONN_OTHER 0) (MSG_MASTER_UNKNOWN 0))]
      master_one_world = Some out
    ∧ Send SHUTDOWN world_peer ∈ effects st2.
Proof.
  destruct (shutdown_sequence_drain sample_GetFreePort sample_NewInstanceID
              sample_cap sample_cap sample_LWOMAPID_INVALID sample_initial_sysAddr
              [None; Some (mkPacket world_peer ID_DISCONNECTION_NOTIFICATION
                             (CONN_OTHER 0) (MSG_MASTER_UNKNOWN 0))]
              master_one_world)
    as (st2 & n & st' & out & Hout & _ & Hall & _);
    [eexists; vm_compute; reflexivity|].
  exists out, st2. split; [done|].
  apply (Hall 1%positive world_1200); [by left | reflexivity].
Defined.

Lemma zone_transfer_request_witness :
  ∃ l st1 i,
    GetInstance sample_GetFreePort sample_NewInstanceID sample_cap sample_cap
      sample_initial_sysAddr (to_u16 1200) false 0 master_one_world = (Some l, st1)
    ∧ objects st1 !! l = Some i
    ∧ ready i = false.
Proof.
  destruct (zone_transfer_request sample_GetFreePort sample_NewInstanceID
              sample_cap sample_cap sample_LWOMAPID_INVALID sample_initial_sysAddr
              (master_packet client_peer (MSG_MASTER_REQUEST_ZONE_TRANSFER 7 0 1200 0))
              master_one_world 7 0 1200 0)
    as (l & st1 & i & Hg & Hi & _); [done | done | done | done | reflexivity |].
  exists l, st1, i. split_and!; [done | done |].
  vm_compute in Hg. injection Hg as <- <-. vm_compute in Hi. by injection Hi as <-.
Defined.

Lemma server_info_handling_witness :
  ∃ l,
    FindInstance (to_u16 1200) (to_u16 7)
      (set_registry [Some l]
         {[ l := SetSysAddr world_peer
                  (new_Instance sample_initial_sysAddr "10.0.0.5" 2001 1200 7 0 12 12) ]}
         master_empty) = Some l.
Proof.
  destruct (server_info_handling sample_GetFreePort sample_NewInstanceID
              sample_cap sample_cap sample_LWOMAPID_INVALID sample_initial_sysAddr
              (master_packet world_peer
                 (MSG_MASTER_SERVER_INFO 2001 1200 7 ServerType_World "10.0.0.5"))
              master_empty 2001 1200 7 ServerType_World "10.0.0.5")
    as [Hnew _]; [done | done | done | done |].
  destruct Hnew as (l & _ & Hst & Hfind); [done | reflexivity |].
  exists l. apply Hfind; [reflexivity|]. rewrite Hst. f_equal.
Defined.


(** *** Further sample states and packets *)

Lemma globals_single_writer_witness :
  ∃ st',
    sample_HandlePacket
      (master_packet client_peer (MSG_MASTER_SET_SESSION_KEY 7 "alice"))
      master_empty = Some st'
    ∧ activeSessions st' = [(7, "alice")]
    ∧ ∃ k u,
        body (master_packet client_peer (MSG_MASTER_SET_SESSION_KEY 7 "alice"))
        = MSG_MASTER_SET_SESSION_KEY k u.
Proof.
  exists (set_activeSessions [(7, "alice")] master_empty).
  split_and!; [reflexivity | reflexivity |].
  refine (proj2 (proj1 (globals_single_writer sample_GetFreePort
            sample_NewInstanceID sample_cap sample_cap sample_LWOMAPID_INVALID sample_initial_sysAddr
            (master_packet client_peer (MSG_MASTER_SET_SESSION_KEY 7 "alice"))
            master_empty (set_activeSessions [(7, "alice")] master_empty) _) _));
    [reflexivity | simpl; discriminate].
Defined.

Lemma no_break_without_shutdown_universe_witness :
  ∃ c' st',
    run_main_from sample_GetFreePort sample_NewInstanceID sample_cap sample_cap
      sample_LWOMAPID_INVALID sample_initial_sysAddr 0
      [None; Some (master_packet client_peer (MSG_MASTER_PREP_ZONE 1200))]
      (mkLoopCounters 0 0 0) master_one_world
    = Some (Running c' st')
    ∧ shouldShutdown st' = false.
Proof.
  assert (∃ r,
            run_main_from sample_GetFreePort sample_NewInstanceID sample_cap
              sample_cap sample_LWOMAPID_INVALID sample_initial_sysAddr 0
              [None; Some (master_packet client_peer (MSG_MASTER_PREP_ZONE 1200))]
              (mkLoopCounters 0 0 0) master_one_world = Some r) as [r Hr].
  { eexists. vm_compute. reflexivity. }
  destruct (no_break_without_shutdown_universe sample_GetFreePort
              sample_NewInstanceID sample_cap sample_cap sample_LWOMAPID_INVALID sample_initial_sysAddr
              0 [None; Some (master_packet client_peer (MSG_MASTER_PREP_ZONE 1200))]
              (mkLoopCounters 0 0 0) master_one_world r eq_refl eq_refl Hr)
    as (c' & st' & -> & Hflag & _).
  by exists c', st'.
Defined.

Lemma session_registry_invariant_witness :
  ∃ st',
    sample_HandlePacket
      (master_packet client_peer (MSG_MASTER_SET_SESSION_KEY 2 "alice"))
      (set_activeSessions [(1, "alice")] master_empty) = Some st'
    ∧ sessions_ok (activeSessions st') = true.
Proof.
  eexists. split; [reflexivity|].
  apply (session_registry_invariant sample_GetFreePort sample_NewInstanceID
           sample_cap sample_cap sample_LWOMAPID_INVALID sample_initial_sysAddr
           (master_packet client_peer (MSG_MASTER_SET_SESSION_KEY 2 "alice"))
           (set_activeSessions [(1, "alice")] master_empty));
    reflexivity.
Defined.

Lemma set_session_key_other_users_witness :
  ∃ st',
    sample_HandlePacket
      (master_packet client_peer (MSG_MASTER_SET_SESSION_KEY 2 "alice"))
      (set_activeSessions [(1, "alice"); (3, "bob")] master_empty) = Some st'
    ∧ (3, "bob") ∈ activeSessions st'.
Proof.
  eexists. split; [reflexivity|].
  apply (set_session_key_other_users sample_GetFreePort sample_NewInstanceID
           sample_cap sample_cap sample_LWOMAPID_INVALID sample_initial_sysAddr
           (master_packet client_peer (MSG_MASTER_SET_SESSION_KEY 2 "alice"))
           (set_activeSessions [(1, "alice"); (3, "bob")] master_empty) _
           2 "alice" 3 "bob");
    [done | done | reflexivity | reflexivity | reflexivity | reflexivity
    | discriminate | simpl; by right; left].
Defined.

Lemma request_session_key_reply_witness :
  sample_HandlePacket
    (master_packet client_peer (MSG_MASTER_REQUEST_SESSION_KEY "alice"))
    (set_activeSessions [(1, "alice")] master_empty)
  = Some (emit (Send (SESSION_KEY_RESPONSE 1 "alice") client_peer)
            (set_activeSessions [(1, "alice")] master_empty)).
Proof.
  refine (proj2 (request_session_key_reply sample_GetFreePort
            sample_NewInstanceID sample_cap sample_cap sample_LWOMAPID_INVALID sample_initial_sysAddr
            (master_packet client_peer (MSG_MASTER_REQUEST_SESSION_KEY "alice"))
            (set_activeSessions [(1, "alice")] master_empty) "alice"
            _ _ _ _ _) 1 _);
    [done | done | reflexivity | reflexivity | simpl; apply NoDup_singleton
    | simpl; by left].
Defined.

Lemma session_key_round_trip_witness :
  ∃ st1,
    sample_HandlePacket
      (master_packet client_peer (MSG_MASTER_SET_SESSION_KEY 2 "alice"))
      (set_activeSessions [(1, "alice")] master_empty) = Some st1
    ∧ sample_HandlePacket
        (master_packet world_peer (MSG_MASTER_REQUEST_SESSION_KEY "alice")) st1
      = Some (emit (Send (SESSION_KEY_RESPONSE 2 "alice") world_peer) st1).
Proof.
  apply (session_key_round_trip sample_GetFreePort sample_NewInstanceID
           sample_cap sample_cap sample_LWOMAPID_INVALID sample_initial_sysAddr
           (master_packet client_peer (MSG_MASTER_SET_SESSION_KEY 2 "alice"))
           (master_packet world_peer (MSG_MASTER_REQUEST_SESSION_KEY "alice"))
           (set_activeSessions [(1, "alice")] master_empty) 2 "alice");
    [done | done | reflexivity | reflexivity | done | done | reflexivity
    | reflexivity | reflexivity |].
  simpl. intros v Hv. apply list_elem_of_singleton in Hv. discriminate.
Defined.

Lemma registry_stays_sound_witness :
  ∃ st',
    sample_HandlePacket
      (master_packet client_peer (MSG_MASTER_PREP_ZONE 1300)) master_one_world
    = Some st'
    ∧ length (m_Instances st') = 2%nat
    ∧ sound st' = true.
Proof.
  eexists. split_and!; [reflexivity | reflexivity |].
  apply (registry_stays_sound sample_GetFreePort sample_NewInstanceID
           sample_cap sample_cap sample_LWOMAPID_INVALID sample_initial_sysAddr
           (master_packet client_peer (MSG_MASTER_PREP_ZONE 1300))
           master_one_world);
    [vm_compute; reflexivity | reflexivity].
Defined.

Lemma control_loop_defined_witness :
  ∃ r,
    run_main_from sample_GetFreePort sample_NewInstanceID sample_cap sample_cap
      sample_LWOMAPID_INVALID sample_initial_sysAddr 0
      [Some (master_packet client_peer (MSG_MASTER_PREP_ZONE 1300)); None]
      (mkLoopCounters 0 0 0) master_one_world = Some r
    ∧ sound (result_state r) = true.
Proof.
  apply (control_loop_defined sample_GetFreePort sample_NewInstanceID
           sample_cap sample_cap sample_LWOMAPID_INVALID sample_initial_sysAddr);
    [vm_compute; reflexivity | reflexivity].
Defined.

Lemma housekeeping_schedule_witness :
  ∃ c' st',
    run_main_from sample_GetFreePort sample_NewInstanceID sample_cap sample_cap
      sample_LWOMAPID_INVALID sample_initial_sysAddr 0 (replicate 902 None)
      (mkLoopCounters 0 0 0) master_empty = Some (Running c' st')
    ∧ Z.of_nat (count_effect LoggerFlush st') = 1
    ∧ framesSinceLastFlush c' = 1.
Proof.
  assert (∃ c' st',
            run_main_from sample_GetFreePort sample_NewInstanceID sample_cap
              sample_cap sample_LWOMAPID_INVALID sample_initial_sysAddr 0 (replicate 902 None)
              (mkLoopCounters 0 0 0) master_empty = Some (Running c' st'))
    as (c' & st' & H).
  { eexists _, _. vm_compute. reflexivity. }
  exists c', st'. split; [exact H|].
  destruct (housekeeping_schedule sample_GetFreePort sample_NewInstanceID
              sample_cap sample_cap sample_LWOMAPID_INVALID sample_initial_sysAddr
              0 (replicate 902 None) (mkLoopCounters 0 0 0) c' master_empty st'
              ltac:(simpl; lia) ltac:(simpl; lia) H)
    as (Hf & Hc & _).
  rewrite Hf, Hc. split; reflexivity.
Defined.

Lemma get_instances_listing_witness :
  sample_HandlePacket
    (master_packet client_peer (MSG_MASTER_GET_INSTANCES 5 (Some 1300) 1200 1))
    master_private
  = Some (emit (Send (RESPOND_INSTANCES 5 [(1300, 5, 2)]) world_peer)
            master_private).
Proof.
  destruct (get_instances_listing sample_GetFreePort sample_NewInstanceID
              sample_cap sample_cap sample_LWOMAPID_INVALID sample_initial_sysAddr
              (master_packet client_peer
                 (MSG_MASTER_GET_INSTANCES 5 (Some 1300) 1200 1))
              master_private 5 (Some 1300) 1200 1 1%positive)
    as (responding & Hr & H);
    [done | done | reflexivity | reflexivity | reflexivity | reflexivity |].
  rewrite H. vm_compute in Hr. injection Hr as <-. reflexivity.
Defined.

Lemma private_zone_round_trip_witness :
  ∃ st1,
    sample_HandlePacket
      (master_packet world_peer (MSG_MASTER_CREATE_PRIVATE_ZONE 1300 5 "hunter2"))
      master_one_world = Some st1
    ∧ sample_HandlePacket
        (master_packet client_peer
           (MSG_MASTER_REQUEST_PRIVATE_ZONE 9 1
              (String.append "hunter2" (String Ascii.zero "x")))) st1
      = Some (emit
                (Send (ZONE_TRANSFER_RESPONSE 9 true 1300 2 5 "10.0.0.1" 2001)
                   client_peer) st1).
Proof.
  destruct (private_zone_round_trip sample_GetFreePort sample_NewInstanceID
              sample_cap sample_cap sample_LWOMAPID_INVALID sample_initial_sysAddr
              (master_packet world_peer
                 (MSG_MASTER_CREATE_PRIVATE_ZONE 1300 5 "hunter2"))
              (master_packet client_peer
                 (MSG_MASTER_REQUEST_PRIVATE_ZONE 9 1
                    (String.append "hunter2" (String Ascii.zero "x"))))
              master_one_world 1300 5 "hunter2" 9 1
              (String.append "hunter2" (String Ascii.zero "x")))
    as (st1 & H1 & _ & H2);
    [done | done | reflexivity | reflexivity | done | done | reflexivity
    | reflexivity | reflexivity | reflexivity |].
  exists st1. split; [exact H1|]. rewrite H2. reflexivity.
Defined.

Lemma prep_zone_idempotent_witness :
  ∃ st1,
    sample_HandlePacket
      (master_packet client_peer (MSG_MASTER_PREP_ZONE 1300)) master_one_world
    = Some st1
    ∧ length (m_Instances st1) = 2%nat
    ∧ sample_HandlePacket
        (master_packet client_peer (MSG_MASTER_PREP_ZONE 1300)) st1 = Some st1.
Proof.
  eexists. split_and!; [reflexivity | reflexivity |].
  apply (prep_zone_idempotent sample_GetFreePort sample_NewInstanceID
           sample_cap sample_cap sample_LWOMAPID_INVALID sample_initial_sysAddr
           (master_packet client_peer (MSG_MASTER_PREP_ZONE 1300))
           master_one_world _ 1300);
    [done | done | reflexivity | reflexivity | reflexivity | reflexivity].
Defined.

Lemma transfer_handshake_witness :
  ∃ st1 st2 st3,
    sample_HandlePacket
      (master_packet client_peer (MSG_MASTER_REQUEST_ZONE_TRANSFER 7 0 1200 0))
      master_one_world = Some st1
    ∧ sample_HandlePacket
        (master_packet world_peer (MSG_MASTER_WORLD_READY 1200 1)) st1 = Some st2
    ∧ sample_HandlePacket
        (master_packet world_peer (MSG_MASTER_AFFIRM_TRANSFER_RESPONSE 7)) st2
      = Some st3
    ∧ effects st3 =
        [Send (PREP_ZONE 1200) world_peer;
         Send (ZONE_TRANSFER_RESPONSE 7 false 1200 1 0 "10.0.0.5" 2001)
           client_peer].
Proof.
  destruct (transfer_handshake sample_GetFreePort sample_NewInstanceID
              sample_cap sample_cap sample_LWOMAPID_INVALID sample_initial_sysAddr
              (master_packet client_peer
                 (MSG_MASTER_REQUEST_ZONE_TRANSFER 7 0 1200 0))
              (master_packet world_peer (MSG_MASTER_WORLD_READY 1200 1))
              (master_packet world_peer (MSG_MASTER_AFFIRM_TRANSFER_RESPONSE 7))
              master_one_world 7 0 1200 0 1%positive world_1200)
    as (st1 & st2 & st3 & H1 & _ & H2 & E2 & H3 & E3 & _);
    [done | done | reflexivity | reflexivity | done | done | reflexivity
    | reflexivity | done | done | reflexivity | reflexivity | reflexivity
    | reflexivity | reflexivity | reflexivity | reflexivity | reflexivity
    | reflexivity | reflexivity | reflexivity |].
  exists st1, st2, st3. split_and!; [exact H1 | exact H2 | exact H3 |].
  rewrite E3, E2. reflexivity.
Defined.

Lemma player_added_then_removed_witness :
  ∃ st1,
    sample_HandlePacket
      (master_packet world_peer (MSG_MASTER_PLAYER_ADDED 1200 1))
      master_one_world = Some st1
    ∧ sample_HandlePacket
        (master_packet world_peer (MSG_MASTER_PLAYER_REMOVED 1200 1)) st1
      = Some master_one_world.
Proof.
  destruct (player_added_then_removed sample_GetFreePort sample_NewInstanceID
              sample_cap sample_cap sample_LWOMAPID_INVALID sample_initial_sysAddr
              (master_packet world_peer (MSG_MASTER_PLAYER_ADDED 1200 1))
              (master_packet world_peer (MSG_MASTER_PLAYER_REMOVED 1200 1))
              master_one_world 1200 1 1%positive)
    as (i & st1 & _ & H1 & _ & H2);
    [done | done | reflexivity | reflexivity | done | done | reflexivity
    | reflexivity | reflexivity |].
  by exists st1.
Defined.


Lemma prestart_zones_witness :
  ∃ st',
    prestart sample_GetFreePort sample_NewInstanceID sample_cap sample_cap
      sample_initial_sysAddr true master_empty = Some st'
    ∧ effects st' =
        [SpawnChatServer;
         SpawnWorldServer "10.0.0.1" 2000 0 1 0 12;
         SpawnWorldServer "10.0.0.1" 2001 1000 2 0 12;
         SpawnAuthServer].
Proof.
  destruct (prestart_zones sample_GetFreePort sample_NewInstanceID sample_cap
              sample_cap sample_initial_sysAddr master_empty eq_refl)
    as (st' & l0 & l1 & i0 & i1 & H & Hreg & _ & Hi0 & Hi1 & _ & _ & _ & _ & _
        & _ & Heff).
  exists st'. split; [exact H|]. rewrite Heff.
  vm_compute in H. injection H as <-.
  vm_compute in Hreg. injection Hreg as <- <-.
  vm_compute in Hi0. injection Hi0 as <-.
  vm_compute in Hi1. injection Hi1 as <-.
  reflexivity.
Defined.
